(** * TrainingSession: the training-loop orchestrator of CNTKv2LibraryDll

    A shallow embedding of [Source/CNTKv2LibraryDll/TrainingSession.cpp].
    The trainer, the minibatch sources, the file system and the virtual hooks
    of [TrainingSession] are collaborators that live outside that file; they
    are taken as interfaces (type classes) and the functions of the file are
    written over them.

    Conventions.
    - [size_t] is [N]; the places where the source could wrap around are
      written with [mod 2^64], the others (guarded subtraction, division,
      remainder) cannot leave the range.
    - [std::wstring] is [string]; paths are taken over the ASCII range.
    - C++ exceptions and undefined behaviour are values of [exn]; a function
      that can raise returns [result].
    - A [while] loop whose end depends on a collaborator takes fuel and
      returns [Err OutOfFuel] when the fuel is used up.
    - The [computeDevice] argument is only ever handed on to collaborators and
      is left out. *)

From Stdlib Require Import ZArith NArith String Ascii List Lia Bool Sorted.
From stdpp Require Import base option list gmap strings.

Local Open Scope string_scope.
Local Open Scope N_scope.

(** ** Errors *)

Inductive exn : Type :=
  | InvalidArgument (msg : string)
  | RuntimeError (msg : string)
  | MissingKey (key : string)
  | DivisionByZero
  | OutOfFuel.

Inductive result (A : Type) : Type :=
  | Ok (a : A)
  | Err (e : exn).
Arguments Ok {A} a.
Arguments Err {A} e.

Definition result_bind {A B : Type} (f : A -> result B) (m : result A) : result B :=
  match m with
  | Ok a => f a
  | Err e => Err e
  end.

#[global] Instance result_mbind : MBind result := @result_bind.
#[global] Instance result_mret : MRet result := @Ok.

Lemma result_bind_Ok {A B : Type} (f : A -> result B) (m : result A) (b : B) :
  m ≫= f = Ok b -> exists a, m = Ok a /\ f a = Ok b.
Proof. destruct m as [a|e]; cbn; [eauto | discriminate]. Qed.

(** ** Machine integers *)

Definition size_t := N.
Definition SIZE_MAX : N := 2 ^ 64 - 1.

(** [a + b] on [size_t]. *)
Definition size_add (a b : N) : N := (a + b) mod 2 ^ 64.

(** [a / b] and [a % b] on [size_t]; a zero divisor is undefined behaviour. *)
Definition size_div (a b : N) : result N :=
  if b =? 0 then Err DivisionByZero else Ok (a / b).
Definition size_rem (a b : N) : result N :=
  if b =? 0 then Err DivisionByZero else Ok (a mod b).

(** Conversion of a [long] to [int]: the low 32 bits, two's complement. *)
Definition long_to_int (z : Z) : Z := ((z + 2 ^ 31) mod 2 ^ 32 - 2 ^ 31)%Z.

(** ** Strings *)

Definition isdigit (c : ascii) : bool :=
  let n := N_of_ascii c in (48 <=? n) && (n <=? 57).

(** [isNumber]: not empty and no character that is not a digit. *)
Definition isNumber (s : string) : bool :=
  negb (String.eqb s "") && forallb isdigit (list_ascii_of_string s).

(** [s.find_last_of(seps)]: the last position holding one of [seps];
    [None] is [npos]. *)
Fixpoint find_last_of (seps : list ascii) (s : string) : option nat :=
  match s with
  | EmptyString => None
  | String c s' =>
      match find_last_of seps s' with
      | Some p => Some (S p)
      | None => if existsb (Ascii.eqb c) seps then Some O else None
      end
  end.

(** [s.substr(pos)], for [pos <= s.size()]. *)
Definition substr_from (pos : nat) (s : string) : string :=
  String.substring pos (String.length s - pos) s.

(** [boost::starts_with(s, p)]. *)
Definition starts_with (s p : string) : bool := String.prefix p s.

Definition digit_value (c : ascii) : Z := (Z.of_N (N_of_ascii c) - 48)%Z.

(** The digits [strtol] reads from the front of [s] in base 10: their value
    so far and how many were read. *)
Fixpoint strtol_digits (acc : Z) (s : string) : Z * nat :=
  match s with
  | EmptyString => (acc, O)
  | String c s' =>
      if isdigit c
      then let '(v, n) := strtol_digits (10 * acc + digit_value c)%Z s' in (v, S n)
      else (acc, O)
  end.

(** [strtol(s, &tmp, 10)] on a string that starts with neither white space nor
    a sign (the only call site passes strings accepted by [isNumber]): the
    value, clamped to [LONG_MAX], and the offset of [tmp] in [s]. *)
Definition strtol (LONG_MAX : Z) (s : string) : Z * nat :=
  let '(v, n) := strtol_digits 0 s in (Z.min v LONG_MAX, n).

(** [std::to_wstring(n)]. *)
Fixpoint to_wstring_aux (fuel : nat) (n : N) (acc : string) : string :=
  match fuel with
  | O => acc
  | S fuel' =>
      let acc' := String (ascii_of_N (48 + n mod 10)) acc in
      if n / 10 =? 0 then acc' else to_wstring_aux fuel' (n / 10) acc'
  end.
Definition to_wstring (n : N) : string := to_wstring_aux 20 n "".

(** ** Collaborators

    The classes below are the interfaces the file calls into.  Their
    operations are functions of the collaborator's state; an exception raised
    by a collaborator is passed on unchanged by the session and is modelled
    only where the session itself depends on it
    ([Trainer_RestoreFromCheckpoint]). *)

(** A learner of the trainer: [std::dynamic_pointer_cast<DistributedLearner>]
    succeeds on the second constructor only. *)
Inductive Learner : Type :=
  | LocalLearner
  | DistributedLearner (ParallelizationAfter : N) (m_globalRank : N) (numWorkers : N).

(** [double] arithmetic, as far as [CrossValidate] uses it. *)
Class DoubleOps (double : Type) : Type := {
  d_zero : double;
  d_add : double -> double -> double;
  d_mul : double -> double -> double;
  d_div : double -> double -> double;
  d_of_size_t : N -> double
}.

(** [MinibatchData]: its [data] member (a [ValuePtr], [None] when null) and
    the value its default constructor builds. *)
Class BatchOps (Value MinibatchData : Type) : Type := {
  data : MinibatchData -> option Value;
  MinibatchData_default : MinibatchData
}.

(** [MinibatchSource]. *)
Class SourceOps (Source Stream MinibatchData Checkpoint : Type)
    `{Countable Stream} : Type := {
  (** [GetNextMinibatch(numberOfSequences, mbSize, numberOfWorkers, workerRank)] *)
  Source_GetNextMinibatch :
    N -> N -> N -> N -> Source -> gmap Stream MinibatchData * Source;
  Source_GetCheckpointState : Source -> Checkpoint;
  Source_RestoreFromCheckpoint : Checkpoint -> Source -> Source
}.

(** [Trainer].  [TestMinibatch] returns the error and the [sampleCount] it
    writes through its reference argument.  A [Dictionary] of external state
    is a map from keys to source checkpoints. *)
Class TrainerOps (Trainer Var Value Checkpoint double FS ProgressWriter : Type)
    `{Countable Var} : Type := {
  ParameterLearners : Trainer -> list Learner;
  AddProgressWriters : list ProgressWriter -> Trainer -> Trainer;
  TotalNumberOfSamplesSeen : Trainer -> N;
  TrainMinibatch : gmap Var (option Value) -> Trainer -> bool * Trainer;
  TestMinibatch : gmap Var (option Value) -> Trainer -> (double * N) * Trainer;
  SummarizeTestProgress : Trainer -> Trainer;
  SummarizeTrainingProgress : Trainer -> Trainer;
  Trainer_SaveCheckpoint :
    string -> gmap string Checkpoint -> Trainer -> FS -> Trainer * FS;
  Trainer_RestoreFromCheckpoint :
    string -> FS -> Trainer -> result (gmap string Checkpoint * Trainer)
}.

(** [fileutil.h]. *)
Class FileOps (FS : Type) : Type := {
  fexists : string -> FS -> bool;
  get_all_files_from_directory : string -> FS -> list string;
  make_intermediate_dirs : string -> FS -> FS
}.

(** The virtual hooks of [TrainingSession], acting on the state of the
    subclass. *)
Class HookOps (User double : Type) : Type := {
  OnMinibatchStart : User -> User;
  OnMinibatchEnd : User -> User;
  OnCheckpointStart : N -> User -> User;
  OnCheckpointEnd : N -> User -> User;
  OnCrossValidationEnd : N -> double -> N -> N -> User -> bool * User
}.

(** ** SessionConfig *)

Section Session.
(** Model inputs ([Variable]) and source streams ([StreamInformation]). *)
Context {Var Stream : Type} `{Countable Var} `{Countable Stream}.
Context {Value MinibatchData Checkpoint double : Type}.
Context {Source Trainer FS User ProgressWriter : Type}.
Context `{!DoubleOps double} `{!BatchOps Value MinibatchData}.
Context `{!SourceOps Source Stream MinibatchData Checkpoint}.
Context `{!TrainerOps Trainer Var Value Checkpoint double FS ProgressWriter}.
Context `{!FileOps FS} `{!HookOps User double}.
(** [LONG_MAX] of the platform. *)
Context (LONG_MAX : Z).

(** [MinibatchSizeSchedule]: [schedule[sampleCount]]. *)
Definition MinibatchSizeSchedule := N -> N.

(** The fields of [SessionConfig] except the two source pointers, which are
    kept with the state of the session (see [TrainingSession] below). *)
Record SessionConfig : Type := {
  m_withCheckpointing : bool;
  m_withCrossValidation : bool;
  m_withProgressPrinting : bool;
  m_mbSizeSchedule : MinibatchSizeSchedule;
  m_inputVarToStream : gmap Var Stream;
  m_maxNumTrainingSamples : N;
  m_crossValidationSchedule : MinibatchSizeSchedule;
  m_checkPointFileName : string;
  m_preserveAllCheckpoints : bool;
  m_restoreFromCheckpointIfExists : bool;
  m_checkpointFrequencyInSamples : N;
  m_crossValidationFrequencyInSamples : N;
  m_progressFrequencyInSamples : N;
  m_progressWriters : list ProgressWriter
}.

(** [SessionConfig::Checkpointing]. *)
Definition Checkpointing (checkPointFileName : string)
    (checkpointFrequencyInSamples : N) (restoreFromCheckpointIfExists : bool)
    (preserveAllCheckpoints : bool) (c : SessionConfig) : result SessionConfig :=
  if m_withCheckpointing c
  then Err (RuntimeError "Checkpointing configuration has already been specified.")
  else
    frequency ←
      (if String.eqb checkPointFileName ""
       then
         if negb (checkpointFrequencyInSamples =? 0)
            && negb (checkpointFrequencyInSamples =? SIZE_MAX)
         then Err (InvalidArgument
           "Checkpoint file name is not allowed to be empty if checkpoint frequency is non zero.")
         else if preserveAllCheckpoints
         then Err (InvalidArgument
           "Checkpoint file name is not allowed to be empty if 'preserve all checkpoints' is specified.")
         else Ok 0
       else Ok checkpointFrequencyInSamples);
    Ok {| m_withCheckpointing := true;
          m_withCrossValidation := m_withCrossValidation c;
          m_withProgressPrinting := m_withProgressPrinting c;
          m_mbSizeSchedule := m_mbSizeSchedule c;
          m_inputVarToStream := m_inputVarToStream c;
          m_maxNumTrainingSamples := m_maxNumTrainingSamples c;
          m_crossValidationSchedule := m_crossValidationSchedule c;
          m_checkPointFileName := checkPointFileName;
          m_preserveAllCheckpoints := preserveAllCheckpoints;
          m_restoreFromCheckpointIfExists := restoreFromCheckpointIfExists;
          m_checkpointFrequencyInSamples := frequency;
          m_crossValidationFrequencyInSamples := m_crossValidationFrequencyInSamples c;
          m_progressFrequencyInSamples := m_progressFrequencyInSamples c;
          m_progressWriters := m_progressWriters c |}.

(** [SessionConfig::CrossValidation]; the source pointer goes to the state. *)
Definition CrossValidation (crossValidationSchedule : MinibatchSizeSchedule)
    (crossValidationFrequencyInSamples : N) (c : SessionConfig) : result SessionConfig :=
  if m_withCrossValidation c
  then Err (RuntimeError "Cross validation configuration has already been specified.")
  else
    Ok {| m_withCheckpointing := m_withCheckpointing c;
          m_withCrossValidation := true;
          m_withProgressPrinting := m_withProgressPrinting c;
          m_mbSizeSchedule := m_mbSizeSchedule c;
          m_inputVarToStream := m_inputVarToStream c;
          m_maxNumTrainingSamples := m_maxNumTrainingSamples c;
          m_crossValidationSchedule := crossValidationSchedule;
          m_checkPointFileName := m_checkPointFileName c;
          m_preserveAllCheckpoints := m_preserveAllCheckpoints c;
          m_restoreFromCheckpointIfExists := m_restoreFromCheckpointIfExists c;
          m_checkpointFrequencyInSamples := m_checkpointFrequencyInSamples c;
          m_crossValidationFrequencyInSamples := crossValidationFrequencyInSamples;
          m_progressFrequencyInSamples := m_progressFrequencyInSamples c;
          m_progressWriters := m_progressWriters c |}.

(** [SessionConfig::ProgressPrinting]. *)
Definition ProgressPrinting (progressWriters : list ProgressWriter)
    (progressFrequency : N) (c : SessionConfig) : result SessionConfig :=
  if m_withProgressPrinting c
  then Err (RuntimeError "Progress printing configuration has already been specified.")
  else
    Ok {| m_withCheckpointing := m_withCheckpointing c;
          m_withCrossValidation := m_withCrossValidation c;
          m_withProgressPrinting := true;
          m_mbSizeSchedule := m_mbSizeSchedule c;
          m_inputVarToStream := m_inputVarToStream c;
          m_maxNumTrainingSamples := m_maxNumTrainingSamples c;
          m_crossValidationSchedule := m_crossValidationSchedule c;
          m_checkPointFileName := m_checkPointFileName c;
          m_preserveAllCheckpoints := m_preserveAllCheckpoints c;
          m_restoreFromCheckpointIfExists := m_restoreFromCheckpointIfExists c;
          m_checkpointFrequencyInSamples := m_checkpointFrequencyInSamples c;
          m_crossValidationFrequencyInSamples := m_crossValidationFrequencyInSamples c;
          m_progressFrequencyInSamples := progressFrequency;
          m_progressWriters := progressWriters |}.

(** The scalar members of [SessionConfig] that its constructor does not
    mention; what they hold after construction is decided by their
    declarations in the header. *)
Record HeaderMembers : Type := {
  h_preserveAllCheckpoints : bool;
  h_restoreFromCheckpointIfExists : bool;
  h_checkpointFrequencyInSamples : N;
  h_crossValidationFrequencyInSamples : N;
  h_progressFrequencyInSamples : N
}.

(** [SessionConfig::SessionConfig]: the configuration, and the training source
    the pointer (null when [None]) leads to.  The file name and the list of
    progress writers are default-constructed. *)
Definition new_SessionConfig (header : HeaderMembers) (trainingSource : option Source)
    (minibatchSizeSchedule : MinibatchSizeSchedule)
    (inputVarToStream : gmap Var Stream) (maxNumTrainingSamples : N)
    : result (SessionConfig * Source) :=
  match trainingSource with
  | None => Err (InvalidArgument "Training source must not be null.")
  | Some source =>
      if maxNumTrainingSamples =? 0
      then Err (InvalidArgument "maxNumTrainingSamples must not be zero.")
      else if bool_decide (size inputVarToStream = 0%nat)
      then Err (InvalidArgument "inputVarToStream mapping must not be empty.")
      else
        Ok ({| m_withCheckpointing := false;
               m_withCrossValidation := false;
               m_withProgressPrinting := false;
               m_mbSizeSchedule := minibatchSizeSchedule;
               m_inputVarToStream := inputVarToStream;
               m_maxNumTrainingSamples := maxNumTrainingSamples;
               m_crossValidationSchedule := minibatchSizeSchedule;
               m_checkPointFileName := "";
               m_preserveAllCheckpoints := h_preserveAllCheckpoints header;
               m_restoreFromCheckpointIfExists := h_restoreFromCheckpointIfExists header;
               m_checkpointFrequencyInSamples := h_checkpointFrequencyInSamples header;
               m_crossValidationFrequencyInSamples :=
                 h_crossValidationFrequencyInSamples header;
               m_progressFrequencyInSamples := h_progressFrequencyInSamples header;
               m_progressWriters := [] |}, source)
  end.

(** ** PeriodicAction and the session state *)

(** The three callables the constructor stores in [m_actions]. *)
Inductive ActionKind : Type :=
  | CheckpointAction
  | CrossValidationAction
  | ProgressAction.

Record PeriodicAction : Type := {
  frequency : N;
  currentIndex : N;
  sampleCountWhenLastCalled : N;
  action : ActionKind
}.

(** A [ValuePtr] is an [option Value], [None] when it is null; the minibatch
    handed to the trainer is a [gmap Var (option Value)]. *)

(** The members of [TrainingSession], together with the objects it reaches
    through pointers: the trainer, the training source ([m_config.m_mbSource],
    not null), the cross-validation source ([None] when the pointer is
    null; taken to be an object of its own), the file system and the state
    the hooks act on. *)
Record TrainingSession : Type := {
  m_trainer : Trainer;
  m_config : SessionConfig;
  m_mbSource : Source;
  m_crossValidationSource : option Source;
  m_parallelAfterSamples : N;
  m_workerRank : N;
  m_numberOfWorkers : N;
  m_actions : list PeriodicAction;
  files : FS;
  user : User
}.

Definition set_trainer (t : Trainer) (s : TrainingSession) : TrainingSession :=
  {| m_trainer := t; m_config := m_config s; m_mbSource := m_mbSource s;
     m_crossValidationSource := m_crossValidationSource s;
     m_parallelAfterSamples := m_parallelAfterSamples s;
     m_workerRank := m_workerRank s; m_numberOfWorkers := m_numberOfWorkers s;
     m_actions := m_actions s; files := files s; user := user s |}.

Definition set_mbSource (src : Source) (s : TrainingSession) : TrainingSession :=
  {| m_trainer := m_trainer s; m_config := m_config s; m_mbSource := src;
     m_crossValidationSource := m_crossValidationSource s;
     m_parallelAfterSamples := m_parallelAfterSamples s;
     m_workerRank := m_workerRank s; m_numberOfWorkers := m_numberOfWorkers s;
     m_actions := m_actions s; files := files s; user := user s |}.

Definition set_crossValidationSource (src : option Source) (s : TrainingSession)
    : TrainingSession :=
  {| m_trainer := m_trainer s; m_config := m_config s; m_mbSource := m_mbSource s;
     m_crossValidationSource := src;
     m_parallelAfterSamples := m_parallelAfterSamples s;
     m_workerRank := m_workerRank s; m_numberOfWorkers := m_numberOfWorkers s;
     m_actions := m_actions s; files := files s; user := user s |}.

Definition set_actions (acts : list PeriodicAction) (s : TrainingSession)
    : TrainingSession :=
  {| m_trainer := m_trainer s; m_config := m_config s; m_mbSource := m_mbSource s;
     m_crossValidationSource := m_crossValidationSource s;
     m_parallelAfterSamples := m_parallelAfterSamples s;
     m_workerRank := m_workerRank s; m_numberOfWorkers := m_numberOfWorkers s;
     m_actions := acts; files := files s; user := user s |}.

Definition set_files (f : FS) (s : TrainingSession) : TrainingSession :=
  {| m_trainer := m_trainer s; m_config := m_config s; m_mbSource := m_mbSource s;
     m_crossValidationSource := m_crossValidationSource s;
     m_parallelAfterSamples := m_parallelAfterSamples s;
     m_workerRank := m_workerRank s; m_numberOfWorkers := m_numberOfWorkers s;
     m_actions := m_actions s; files := f; user := user s |}.

Definition set_user (u : User) (s : TrainingSession) : TrainingSession :=
  {| m_trainer := m_trainer s; m_config := m_config s; m_mbSource := m_mbSource s;
     m_crossValidationSource := m_crossValidationSource s;
     m_parallelAfterSamples := m_parallelAfterSamples s;
     m_workerRank := m_workerRank s; m_numberOfWorkers := m_numberOfWorkers s;
     m_actions := m_actions s; files := files s; user := u |}.

(** ** The constructor *)

(** The loop over the learners: the largest warm-up period, and rank and
    worker count of the last distributed learner. *)
Definition learner_step (acc : N * N * N) (l : Learner) : N * N * N :=
  match l with
  | LocalLearner => acc
  | DistributedLearner after rank workers =>
      let '(parallelAfter, _, _) := acc in (N.max parallelAfter after, rank, workers)
  end.

(** The actions the constructor pushes, in its order. *)
Definition required_actions (c : SessionConfig) : list PeriodicAction :=
  (if m_withCheckpointing c && negb (m_checkpointFrequencyInSamples c =? 0)
   then [ {| frequency := m_checkpointFrequencyInSamples c; currentIndex := 0;
             sampleCountWhenLastCalled := 0; action := CheckpointAction |} ]
   else [])
  ++ (if m_withCrossValidation c && negb (m_crossValidationFrequencyInSamples c =? 0)
      then [ {| frequency := m_crossValidationFrequencyInSamples c; currentIndex := 0;
                sampleCountWhenLastCalled := 0; action := CrossValidationAction |} ]
      else [])
  ++ (if m_withProgressPrinting c && negb (m_progressFrequencyInSamples c =? 0)
      then [ {| frequency := m_progressFrequencyInSamples c; currentIndex := 0;
                sampleCountWhenLastCalled := 0; action := ProgressAction |} ]
      else []).

(** [TrainingSession::TrainingSession(trainer, config)]; the last four
    arguments are the objects behind the pointers of the configuration and
    the environment the session starts in. *)
Definition new_TrainingSession (trainer : option Trainer) (config : SessionConfig)
    (mbSource : Source) (crossValidationSource : option Source)
    (fs : FS) (u : User) : result TrainingSession :=
  match trainer with
  | None => Err (InvalidArgument "Trainer is not allowed to be null.")
  | Some t =>
      let '(parallelAfter, rank, workers) :=
        foldl learner_step (0, 0, 1) (ParameterLearners t) in
      let t' :=
        if m_withProgressPrinting config && negb (m_progressFrequencyInSamples config =? 0)
        then AddProgressWriters (m_progressWriters config) t
        else t in
      Ok {| m_trainer := t'; m_config := config; m_mbSource := mbSource;
            m_crossValidationSource := crossValidationSource;
            m_parallelAfterSamples := parallelAfter;
            m_workerRank := rank; m_numberOfWorkers := workers;
            m_actions := required_actions config;
            files := fs; user := u |}
  end.

(** The constructor of [TrainingSession] with fourteen arguments: it builds
    the configuration with the three builder calls and hands over to the
    constructor above. *)
Definition new_TrainingSession_basic (header : HeaderMembers)
    (trainingSource : option Source) (trainer : option Trainer)
    (modelInputToMinibatchSourceStream : gmap Var Stream)
    (schedule : MinibatchSizeSchedule) (checkpointFrequencyInSamples : N)
    (checkPointFileName : string) (crossValidationSource : option Source)
    (crossValidationSchedule : MinibatchSizeSchedule)
    (crossValidationFrequencyInSamples : N)
    (restoreFromCheckpointIfExists saveAllCheckpoints : bool)
    (maxNumberOfSamples progressFrequencyInSamples : N)
    (progressWriters : list ProgressWriter) (fs : FS) (u : User)
    : result TrainingSession :=
  '(c0, source) ←
    new_SessionConfig header trainingSource schedule
      modelInputToMinibatchSourceStream maxNumberOfSamples;
  c1 ← Checkpointing checkPointFileName checkpointFrequencyInSamples
         restoreFromCheckpointIfExists saveAllCheckpoints c0;
  c2 ← CrossValidation crossValidationSchedule crossValidationFrequencyInSamples c1;
  c3 ← ProgressPrinting progressWriters progressFrequencyInSamples c2;
  new_TrainingSession trainer c3 source crossValidationSource fs u.

(** [CreateBasicTrainingSession] (the warning it prints is left out) and
    [CreateTrainingSession]. *)
Definition CreateBasicTrainingSession := new_TrainingSession_basic.
Definition CreateTrainingSession := new_TrainingSession.

(** ** Fetching minibatches *)

(** [m[k]] on a [std::unordered_map]: a missing key is inserted with a
    default-constructed value. *)
Definition map_subscript (k : Stream) (m : gmap Stream MinibatchData)
    : MinibatchData * gmap Stream MinibatchData :=
  match m !! k with
  | Some x => (x, m)
  | None => (MinibatchData_default, <[k := MinibatchData_default]> m)
  end.

(** [m.insert({k, v})]: a key that is present keeps its value. *)
Definition map_insert_new (k : Var) (v : option Value) (m : gmap Var (option Value))
    : gmap Var (option Value) :=
  match m !! k with
  | Some _ => m
  | None => <[k := v]> m
  end.

(** One round of the loop over [m_inputVarToStream]. *)
Definition remap_step (st : gmap Var (option Value) * gmap Stream MinibatchData)
    (v : Var * Stream) : gmap Var (option Value) * gmap Stream MinibatchData :=
  let '(x, minibatchData) := map_subscript v.2 st.2 in
  (map_insert_new v.1 (data x) st.1, minibatchData).

(** [TrainingSession::GetNextMinibatch]: the minibatch and the source after
    the call. *)
Definition GetNextMinibatch (inputVarToStream : gmap Var Stream) (source : Source)
    (mbSize workerRank numberOfWorkers : N) : gmap Var (option Value) * Source :=
  if mbSize =? 0 then (∅, source)
  else
    let '(minibatchData, source') :=
      Source_GetNextMinibatch 0 mbSize numberOfWorkers workerRank source in
    if bool_decide (size minibatchData = 0%nat) then (∅, source')
    else
      ((foldl remap_step (∅, minibatchData) (map_to_list inputVarToStream)).1,
       source').

(** Modelled from the spec: [TrainingSession::GetMinibatchSize] is declared
    in the header only; the requested size is the scheduled size at the
    current sample offset. *)
Definition GetMinibatchSize (s : TrainingSession) : N :=
  m_mbSizeSchedule (m_config s) (TotalNumberOfSamplesSeen (m_trainer s)).

(** The shard [GetTrainingMinibatch] asks for: [(workerRank, numberOfWorkers)]. *)
Definition training_shard (s : TrainingSession) : N * N :=
  if TotalNumberOfSamplesSeen (m_trainer s) <? m_parallelAfterSamples s
  then (0, 1)
  else (m_workerRank s, m_numberOfWorkers s).

(** [TrainingSession::GetTrainingMinibatch]. *)
Definition GetTrainingMinibatch (maxMbSize : N) (s : TrainingSession)
    : gmap Var (option Value) * TrainingSession :=
  let '(workerRank, numberOfWorkers) := training_shard s in
  let mbSize := N.min (GetMinibatchSize s) maxMbSize in
  let '(minibatch, source') :=
    GetNextMinibatch (m_inputVarToStream (m_config s)) (m_mbSource s)
      mbSize workerRank numberOfWorkers in
  (minibatch, set_mbSource source' s).

(** [TrainingSession::GetCrossValidationMinibatch], on the cross-validation
    source. *)
Definition GetCrossValidationMinibatch (config : SessionConfig) (maxMbSize : N)
    (source : Source) : gmap Var (option Value) * Source :=
  GetNextMinibatch (m_inputVarToStream config) source maxMbSize 0 1.

(** ** Cross validation *)

(** The locals of [CrossValidate] that its loop updates. *)
Record CVState : Type := {
  accumulatedError : double;
  totalNumberOfSamples : N;
  numberOfMinibatches : N;
  sampleCount : N
}.

Definition CVState_init : CVState :=
  {| accumulatedError := d_zero; totalNumberOfSamples := 0;
     numberOfMinibatches := 0; sampleCount := 0 |}.

(** The [while] loop of [CrossValidate]: fetch, stop on an empty minibatch,
    else test and accumulate. *)
Fixpoint cv_loop (fuel : nat) (config : SessionConfig) (source : Source)
    (t : Trainer) (st : CVState) : result (Source * Trainer * CVState) :=
  match fuel with
  | O => Err OutOfFuel
  | S fuel' =>
      let '(minibatch, source') :=
        GetCrossValidationMinibatch config
          (m_crossValidationSchedule config (sampleCount st)) source in
      if bool_decide (size minibatch = 0%nat) then Ok (source', t, st)
      else
        let '(error, count, t') := TestMinibatch minibatch t in
        cv_loop fuel' config source' t'
          {| accumulatedError :=
               d_add (accumulatedError st) (d_mul error (d_of_size_t count));
             totalNumberOfSamples := size_add (totalNumberOfSamples st) count;
             numberOfMinibatches := size_add (numberOfMinibatches st) 1;
             sampleCount := count |}
  end.

(** What [CrossValidate] hands to [OnCrossValidationEnd] after the index:
    average error, number of samples, number of minibatches. *)
Definition CVReport : Type := double * N * N.

(** [CrossValidate] up to the call of the hook, for a session with a
    cross-validation source [source]. *)
Definition CrossValidate_pass (fuel : nat) (source : Source) (s : TrainingSession)
    : result (CVReport * TrainingSession) :=
  let checkpoint := Source_GetCheckpointState source in
  '(source', t', st) ← cv_loop fuel (m_config s) source (m_trainer s) CVState_init;
  let source'' := Source_RestoreFromCheckpoint checkpoint source' in
  let t'' := SummarizeTestProgress t' in
  Ok ((d_div (accumulatedError st) (d_of_size_t (totalNumberOfSamples st)),
       totalNumberOfSamples st, numberOfMinibatches st),
      set_trainer t'' (set_crossValidationSource (Some source'') s)).

(** [TrainingSession::CrossValidate]. *)
Definition CrossValidate (fuel : nat) (currentIndex : N) (s : TrainingSession)
    : result (bool * TrainingSession) :=
  match m_crossValidationSource s with
  | Some source =>
      '(report, s') ← CrossValidate_pass fuel source s;
      let '(averageError, samples, minibatches) := report in
      let '(b, u) :=
        OnCrossValidationEnd currentIndex averageError samples minibatches (user s') in
      Ok (b, set_user u s')
  | None =>
      let '(b, u) := OnCrossValidationEnd currentIndex d_zero 0 0 (user s) in
      Ok (b, set_user u s)
  end.

(** [TrainingSession::ReportProgress]. *)
Definition ReportProgress (currentIndex : N) (s : TrainingSession) : TrainingSession :=
  set_trainer (SummarizeTrainingProgress (m_trainer s)) s.

(** ** Checkpoints *)

Definition s_trainingMinibatchSource : string := "TrainingMinibatchSource".

(** [TrainingSession::SaveCheckpoint]. *)
Definition SaveCheckpoint (currentIndex : N) (s : TrainingSession) : TrainingSession :=
  let s1 := set_user (OnCheckpointStart currentIndex (user s)) s in
  let externalState : gmap string Checkpoint :=
    <[s_trainingMinibatchSource := Source_GetCheckpointState (m_mbSource s1)]> ∅ in
  let checkpointFile :=
    if m_preserveAllCheckpoints (m_config s1)
    then m_checkPointFileName (m_config s1) +:+ to_wstring currentIndex
    else m_checkPointFileName (m_config s1) in
  let '(t, fs) :=
    Trainer_SaveCheckpoint checkpointFile externalState (m_trainer s1) (files s1) in
  let s2 := set_files fs (set_trainer t s1) in
  set_user (OnCheckpointEnd currentIndex (user s2)) s2.

(** [TrainingSession::SaveFinalCheckpoint]. *)
Definition SaveFinalCheckpoint (s : TrainingSession) : TrainingSession :=
  let externalState : gmap string Checkpoint :=
    <[s_trainingMinibatchSource := Source_GetCheckpointState (m_mbSource s)]> ∅ in
  let '(t, fs) :=
    Trainer_SaveCheckpoint (m_checkPointFileName (m_config s)) externalState
      (m_trainer s) (files s) in
  set_files fs (set_trainer t s).

(** [TrainingSession::RestoreFromCheckpoint(checkpointFileName)]. *)
Definition RestoreFromCheckpoint_file (checkpointFileName : string)
    (s : TrainingSession) : result TrainingSession :=
  '(externalState, t) ←
    Trainer_RestoreFromCheckpoint checkpointFileName (files s) (m_trainer s);
  match externalState !! s_trainingMinibatchSource with
  | None => Err (MissingKey s_trainingMinibatchSource)
  | Some state =>
      Ok (set_mbSource (Source_RestoreFromCheckpoint state (m_mbSource s))
            (set_trainer t s))
  end.

(** The characters of [L"\\/"]: the two separators of a path. *)
Definition separators : list ascii := ["\"%char; "/"%char].

(** [parent] and [fileName] of [RestoreFromCheckpoint()]. *)
Definition split_checkpoint (checkpoint : string) : string * string :=
  match find_last_of separators checkpoint with
  | None => ("..", checkpoint)
  | Some pos => (String.substring 0 pos checkpoint, substr_from pos checkpoint)
  end.

(** One round of the loop over the files of [parent]; the state is
    [(maxValue, restoreFile)]. *)
Definition candidate_step (fs : FS) (parent fileName : string)
    (st : Z * string) (f : string) : Z * string :=
  if negb (starts_with f fileName) then st
  else
    let suffix := substr_from (String.length fileName) f in
    if negb (isNumber suffix) || negb (fexists (parent +:+ "/" +:+ f +:+ ".ckp") fs)
    then st
    else
      let '(v, tmp) := strtol LONG_MAX suffix in
      let value := long_to_int v in
      if negb (Nat.eqb tmp (String.length suffix)) then st
      else if (st.1 <? value)%Z then (value, parent +:+ "/" +:+ f)
      else st.

(** The value of [restoreFile] when the search is over; empty when there is
    nothing to restore. *)
Definition find_restore_file (checkpoint : string) (fs : FS) : string :=
  let '(parent, fileName) := split_checkpoint checkpoint in
  if fexists checkpoint fs then checkpoint
  else
    (foldl (candidate_step fs parent fileName) ((-1)%Z, "")
       (get_all_files_from_directory parent fs)).2.

(** The loop that recalculates the indices of the actions. *)
Fixpoint recalculate_actions (total : N) (acts : list PeriodicAction)
    : result (list PeriodicAction) :=
  match acts with
  | [] => Ok []
  | a :: rest =>
      index ← size_div total (frequency a);
      r ← size_rem total (frequency a);
      rest' ← recalculate_actions total rest;
      Ok ({| frequency := frequency a; currentIndex := index;
             sampleCountWhenLastCalled := total - r; action := action a |} :: rest')
  end.

(** [TrainingSession::RestoreFromCheckpoint()].  The caller makes sure the
    file name is not empty. *)
Definition RestoreFromCheckpoint (s : TrainingSession) : result TrainingSession :=
  let checkpoint := m_checkPointFileName (m_config s) in
  let s1 := set_files (make_intermediate_dirs checkpoint (files s)) s in
  let restoreFile := find_restore_file checkpoint (files s1) in
  if String.eqb restoreFile "" then Ok s1
  else
    s2 ← RestoreFromCheckpoint_file restoreFile s1;
    acts ← recalculate_actions (TotalNumberOfSamplesSeen (m_trainer s2)) (m_actions s2);
    Ok (set_actions acts s2).

(** ** The training loop *)

(** Calling the callable of an action.  [ProfilerEnable] touches no state
    of the session. *)
Definition run_action (cvFuel : nat) (k : ActionKind) (currentIndex : N)
    (s : TrainingSession) : result (bool * TrainingSession) :=
  match k with
  | CheckpointAction => Ok (true, SaveCheckpoint currentIndex s)
  | CrossValidationAction => CrossValidate cvFuel currentIndex s
  | ProgressAction => Ok (true, ReportProgress currentIndex s)
  end.

(** The action after it has been called at [total] samples. *)
Definition called_at (index total : N) (a : PeriodicAction) : PeriodicAction :=
  {| frequency := frequency a; currentIndex := index;
     sampleCountWhenLastCalled := total; action := action a |}.

(** The body of the loop over [m_actions] inside the training loop, for the
    action [a].  Beside the action, [earlyExit] and the session, it returns
    whether the action was called: [Some (i, b)] when it was called with index
    [i] and returned [b]. *)
Definition perform_action (cvFuel : nat) (total : N) (a : PeriodicAction)
    (earlyExit : bool) (s : TrainingSession)
    : result (PeriodicAction * option (N * bool) * bool * TrainingSession) :=
  index ← size_div total (frequency a);
  if negb (index =? currentIndex a)
  then
    '(shouldContinue, s') ← run_action cvFuel (action a) (currentIndex a) s;
    Ok (called_at index total a, Some (currentIndex a, shouldContinue),
        if negb shouldContinue then true else earlyExit, s')
  else Ok (a, None, earlyExit, s).

(** The loop over [m_actions] inside the training loop.  The callables do not
    look at [m_actions]; the list is written back by the caller. *)
Fixpoint perform_actions (cvFuel : nat) (total : N) (acts : list PeriodicAction)
    (earlyExit : bool) (s : TrainingSession)
    : result (list PeriodicAction * list (option (N * bool)) * bool * TrainingSession) :=
  match acts with
  | [] => Ok ([], [], earlyExit, s)
  | a :: rest =>
      '(a', call, earlyExit', s') ← perform_action cvFuel total a earlyExit s;
      '(rest', calls, earlyExit'', s'') ←
        perform_actions cvFuel total rest earlyExit' s';
      Ok (a' :: rest', call :: calls, earlyExit'', s'')
  end.

(** What one round of the training loop did. *)
Record Iteration : Type := {
  it_samplesLeft : N;                     (* the budget given to the fetch *)
  it_shouldTrain : bool;                  (* what [TrainMinibatch] returned *)
  it_total : N;                           (* [totalNumberOfSamples] *)
  it_calls : list (option (N * bool));    (* the calls of the actions *)
  it_earlyExit : bool                     (* [earlyExit] at the end of the round *)
}.

(** The body of the [while (shouldTrain)] loop, entered with
    [shouldTrain = true]. *)
Fixpoint train_loop (fuel cvFuel : nat) (earlyExit : bool) (s : TrainingSession)
    : result (list Iteration * TrainingSession) :=
  match fuel with
  | O => Err OutOfFuel
  | S fuel' =>
      let seen := TotalNumberOfSamplesSeen (m_trainer s) in
      let maxSamples := m_maxNumTrainingSamples (m_config s) in
      let samplesLeft :=
        if earlyExit || (maxSamples <=? seen) then 0 else maxSamples - seen in
      let '(minibatch, s1) := GetTrainingMinibatch samplesLeft s in
      let s2 := set_user (OnMinibatchStart (user s1)) s1 in
      let '(shouldTrain, t) := TrainMinibatch minibatch (m_trainer s2) in
      let s3 := set_trainer t s2 in
      let s4 := set_user (OnMinibatchEnd (user s3)) s3 in
      let total := TotalNumberOfSamplesSeen (m_trainer s4) in
      '(acts, calls, earlyExit', s5) ←
        perform_actions cvFuel total (m_actions s4) earlyExit s4;
      let s6 := set_actions acts s5 in
      let it := {| it_samplesLeft := samplesLeft; it_shouldTrain := shouldTrain;
                   it_total := total; it_calls := calls;
                   it_earlyExit := earlyExit' |} in
      if shouldTrain
      then
        '(its, s7) ← train_loop fuel' cvFuel earlyExit' s6;
        Ok (it :: its, s7)
      else Ok ([it], s6)
  end.

(** The loop over [m_actions] after the training loop; per action, the index
    it was called with, if it was called. *)
Fixpoint final_actions (cvFuel : nat) (acts : list PeriodicAction)
    (s : TrainingSession) : result (list (option N) * TrainingSession) :=
  match acts with
  | [] => Ok ([], s)
  | a :: rest =>
      let seen := TotalNumberOfSamplesSeen (m_trainer s) in
      r ← size_rem seen (frequency a);
      '(call, s') ←
        (if negb (r =? 0) && negb (seen =? sampleCountWhenLastCalled a)
         then
           '(_, s') ← run_action cvFuel (action a) (currentIndex a) s;
           Ok (Some (currentIndex a), s')
         else Ok (None, s));
      '(calls, s'') ← final_actions cvFuel rest s';
      Ok (call :: calls, s'')
  end.

(** What a call of [Train] did: the rounds of the loop and the calls after
    it. *)
Record TrainLog : Type := {
  iterations : list Iteration;
  final_calls : list (option N)
}.

(** [TrainingSession::Train]. *)
Definition Train (fuel cvFuel : nat) (s : TrainingSession)
    : result (TrainLog * TrainingSession) :=
  let shouldTrain := 0 <? m_maxNumTrainingSamples (m_config s) in
  '(restoredNumberOfSamples, s1) ←
    (if m_restoreFromCheckpointIfExists (m_config s)
        && negb (String.eqb (m_checkPointFileName (m_config s)) "")
     then
       s1 ← RestoreFromCheckpoint s;
       Ok (TotalNumberOfSamplesSeen (m_trainer s1), s1)
     else Ok (0, s));
  '(its, s2) ←
    (if shouldTrain then train_loop fuel cvFuel false s1 else Ok ([], s1));
  '(calls, s3) ←
    (if negb (restoredNumberOfSamples =? TotalNumberOfSamplesSeen (m_trainer s2))
     then final_actions cvFuel (m_actions s2) s2
     else Ok ([], s2));
  let s4 :=
    if m_withCheckpointing (m_config s3) && m_preserveAllCheckpoints (m_config s3)
       && negb (fexists (m_checkPointFileName (m_config s3)) (files s3))
    then SaveFinalCheckpoint s3
    else s3 in
  Ok ({| iterations := its; final_calls := calls |}, s4).

(** ** Vocabulary of the properties *)

(** The stored index is the period the stored sample count lies in. *)
Definition action_invariant (a : PeriodicAction) : Prop :=
  frequency a <> 0 /\
  frequency a * currentIndex a <= sampleCountWhenLastCalled a
    < frequency a * (currentIndex a + 1).

(** The calls of the action at position [i] of [m_actions] over the rounds of
    the loop: the index it was called with and the total of that round. *)
Definition calls_of (i : nat) (its : list Iteration) : list (N * N) :=
  its ≫= (fun it =>
    match it_calls it !! i with
    | Some (Some (index, _)) => [(index, it_total it)]
    | _ => []
    end).

(** The calls a single action of frequency [F] and stored index [c] gets when
    the rounds of the loop read the totals [ts]. *)
Fixpoint expected_calls (F c : N) (ts : list N) : list (N * N) :=
  match ts with
  | [] => []
  | t :: ts' =>
      if t / F =? c then expected_calls F c ts'
      else (c, t) :: expected_calls F (t / F) ts'
  end.

(** The counter goes from [prev] through [ts] without ever going down and
    without gaining more than [F] samples in one round. *)
Fixpoint bounded_steps (F prev : N) (ts : list N) : Prop :=
  match ts with
  | [] => True
  | t :: ts' => prev <= t <= prev + F /\ bounded_steps F t ts'
  end.

(** The data found for a stream in what the source returned, a missing stream
    giving the data of a default-constructed [MinibatchData]. *)
Definition stream_data (minibatchData : gmap Stream MinibatchData) (st : Stream)
    : option Value :=
  data (default MinibatchData_default (minibatchData !! st)).

(** The tests an entry [f] of [parent] has to pass to be looked at as a
    numbered checkpoint: it starts with [fileName], what follows is a number,
    and the file with [.ckp] added is there. *)
Definition is_candidate (fs : FS) (parent fileName f : string) : bool :=
  starts_with f fileName
  && isNumber (substr_from (String.length fileName) f)
  && fexists (parent +:+ "/" +:+ f +:+ ".ckp") fs.

(** The [int] the loop compares for the entry [f]. *)
Definition candidate_value (fileName f : string) : Z :=
  long_to_int (strtol LONG_MAX (substr_from (String.length fileName) f)).1.

(** A call of one of the three builders of [SessionConfig], the part of the
    configuration it sets ([CheckpointAction] for [Checkpointing], and so on),
    and a chain of calls [config.B1(...).B2(...)...]. *)
Inductive BuilderCall : Type :=
  | CallCheckpointing (checkPointFileName : string) (frequency : N)
      (restoreFromCheckpointIfExists preserveAllCheckpoints : bool)
  | CallCrossValidation (schedule : MinibatchSizeSchedule) (frequency : N)
  | CallProgressPrinting (progressWriters : list ProgressWriter) (frequency : N).

Definition builder_kind (b : BuilderCall) : ActionKind :=
  match b with
  | CallCheckpointing _ _ _ _ => CheckpointAction
  | CallCrossValidation _ _ => CrossValidationAction
  | CallProgressPrinting _ _ => ProgressAction
  end.

Definition apply_builder (b : BuilderCall) (c : SessionConfig) : result SessionConfig :=
  match b with
  | CallCheckpointing name freq restore preserve =>
      Checkpointing name freq restore preserve c
  | CallCrossValidation schedule freq => CrossValidation schedule freq c
  | CallProgressPrinting writers freq => ProgressPrinting writers freq c
  end.

Fixpoint apply_builders (bs : list BuilderCall) (c : SessionConfig)
    : result SessionConfig :=
  match bs with
  | [] => Ok c
  | b :: bs' => c' ← apply_builder b c; apply_builders bs' c'
  end.

(** The flag that records that a part of the configuration has been set. *)
Definition with_flag (k : ActionKind) (c : SessionConfig) : bool :=
  match k with
  | CheckpointAction => m_withCheckpointing c
  | CrossValidationAction => m_withCrossValidation c
  | ProgressAction => m_withProgressPrinting c
  end.

(** The frequency configured for a part. *)
Definition configured_frequency (k : ActionKind) (c : SessionConfig) : N :=
  match k with
  | CheckpointAction => m_checkpointFrequencyInSamples c
  | CrossValidationAction => m_crossValidationFrequencyInSamples c
  | ProgressAction => m_progressFrequencyInSamples c
  end.

(** What a session is set up with: the configuration and the parameters of
    distributed training. *)
Definition same_settings (s s' : TrainingSession) : Prop :=
  m_config s' = m_config s /\
  m_parallelAfterSamples s' = m_parallelAfterSamples s /\
  m_workerRank s' = m_workerRank s /\
  m_numberOfWorkers s' = m_numberOfWorkers s.

(** The file [SaveCheckpoint] writes for the index [currentIndex]. *)
Definition checkpoint_file (currentIndex : N) (c : SessionConfig) : string :=
  if m_preserveAllCheckpoints c
  then m_checkPointFileName c +:+ to_wstring currentIndex
  else m_checkPointFileName c.

(** The counter goes from [prev] through [ts] without ever going down. *)
Fixpoint nondecreasing (prev : N) (ts : list N) : Prop :=
  match ts with
  | [] => True
  | t :: ts' => prev <= t /\ nondecreasing t ts'
  end.

(** The periods [c], [c+1], ..., [c+n-1]. *)
Fixpoint periods_from (c : N) (n : nat) : list N :=
  match n with
  | O => []
  | S n' => c :: periods_from (c + 1) n'
  end.

End Session.

(** ** A small concrete world

    Collaborators simple enough to run: a source that hands out the samples
    [0 .. size-1] of a data set in order, a trainer that counts the samples it
    is given, a file system that is a table of checkpoint files, and a
    subclass whose [OnCrossValidationEnd] asks to stop at one chosen index.
    The examples at the end of the file run the session in this world. *)

Module Toy.

(** A value: first sample and number of samples. *)
Definition Value : Type := N * N.
(** [MinibatchData]: just its [data]; default-constructed it is null. *)
Definition MinibatchData : Type := option Value.

#[export] Instance batch_ops : BatchOps Value MinibatchData :=
  {| data := fun md => md; MinibatchData_default := None |}.

(** Arithmetic on [N] stands in for [double]. *)
#[export] Instance double_ops : DoubleOps N :=
  {| d_zero := 0; d_add := N.add; d_mul := N.mul; d_div := N.div;
     d_of_size_t := fun n => n |}.

(** A source: the streams it serves, the size of its data set, and its
    position. *)
Record Source : Type := {
  streams : list string;
  size : N;
  position : N
}.

Definition next_minibatch (numberOfSequences mbSize numberOfWorkers workerRank : N)
    (src : Source) : gmap string MinibatchData * Source :=
  if size src <=? position src then (∅, src)
  else
    let n := N.min mbSize (size src - position src) in
    (list_to_map (map (fun st => (st, Some (position src, n))) (streams src)),
     {| streams := streams src; size := size src; position := position src + n |}).

#[export] Instance source_ops : SourceOps Source string MinibatchData N :=
  {| Source_GetNextMinibatch := next_minibatch;
     Source_GetCheckpointState := position;
     Source_RestoreFromCheckpoint := fun ck src =>
       {| streams := streams src; size := size src; position := ck |} |}.

(** A file system: the checkpoint files by path, with the number of samples
    and the external state saved in them, and the entries of each directory. *)
Record FS : Type := {
  contents : list (string * (N * gmap string N));
  entries : list (string * list string)
}.

Definition lookup_file (path : string) (fs : FS) : option (N * gmap string N) :=
  snd <$> List.find (fun e => String.eqb (fst e) path) (contents fs).

#[export] Instance file_ops : FileOps FS :=
  {| fexists := fun path fs => bool_decide (is_Some (lookup_file path fs));
     get_all_files_from_directory := fun dir fs =>
       match List.find (fun e => String.eqb (fst e) dir) (entries fs) with
       | Some e => snd e
       | None => []
       end;
     make_intermediate_dirs := fun _ fs => fs |}.

(** A trainer: the samples it has seen, its learners, and for how many more
    calls with an empty minibatch it reports that other workers still have
    data. *)
Record Trainer : Type := {
  seen : N;
  learners : list Learner;
  busy : nat
}.

Definition minibatch_samples (mb : gmap string (option Value)) : N :=
  match map_to_list mb with
  | (_, Some (_, n)) :: _ => n
  | _ => 0
  end.

Definition train_minibatch (mb : gmap string (option Value)) (t : Trainer)
    : bool * Trainer :=
  if bool_decide (base.size mb = 0%nat)
  then
    match busy t with
    | O => (false, t)
    | S b => (true, {| seen := seen t; learners := learners t; busy := b |})
    end
  else (true, {| seen := seen t + minibatch_samples mb;
                 learners := learners t; busy := busy t |}).

(** The error of a minibatch: its first sample modulo 7. *)
Definition test_minibatch (mb : gmap string (option Value)) (t : Trainer)
    : (N * N) * Trainer :=
  match map_to_list mb with
  | (_, Some (first, n)) :: _ => ((first mod 7, n), t)
  | _ => ((0, 0), t)
  end.

#[export] Instance trainer_ops : TrainerOps Trainer string Value N N FS unit :=
  {| ParameterLearners := learners;
     AddProgressWriters := fun _ t => t;
     TotalNumberOfSamplesSeen := seen;
     TrainMinibatch := train_minibatch;
     TestMinibatch := test_minibatch;
     SummarizeTestProgress := fun t => t;
     SummarizeTrainingProgress := fun t => t;
     Trainer_SaveCheckpoint := fun path ext t fs =>
       (t, {| contents := (path, (seen t, ext)) :: (path +:+ ".ckp", (seen t, ext))
                            :: contents fs;
              entries := entries fs |});
     Trainer_RestoreFromCheckpoint := fun path fs t =>
       match lookup_file path fs with
       | Some (n, ext) =>
           Ok (ext, {| seen := n; learners := learners t; busy := busy t |})
       | None => Err (RuntimeError "Cannot open the checkpoint file.")
       end |}.

(** The subclass: [OnCrossValidationEnd] returns [false] at index [stop_at]
    and keeps what it was told. *)
Record User : Type := {
  stop_at : option N;
  reports : list (N * N * N * N)
}.

#[export] Instance hook_ops : HookOps User N :=
  {| OnMinibatchStart := fun u => u;
     OnMinibatchEnd := fun u => u;
     OnCheckpointStart := fun _ u => u;
     OnCheckpointEnd := fun _ u => u;
     OnCrossValidationEnd := fun index averageError samples minibatches u =>
       (negb (bool_decide (stop_at u = Some index)),
        {| stop_at := stop_at u;
           reports := reports u ++ [(index, averageError, samples, minibatches)] |}) |}.

Definition LONG_MAX : Z := (2 ^ 63 - 1)%Z.

(** A configuration with no optional part: inputs [x] and [y] fed from the
    streams [features] and [labels], minibatches of [mb] samples, at most
    [maxSamples] samples. *)
Definition config (mb maxSamples : N) : @SessionConfig string string _ _ unit :=
  {| m_withCheckpointing := false;
     m_withCrossValidation := false;
     m_withProgressPrinting := false;
     m_mbSizeSchedule := fun _ => mb;
     m_inputVarToStream := {[ "x" := "features"; "y" := "labels" ]};
     m_maxNumTrainingSamples := maxSamples;
     m_crossValidationSchedule := fun _ => mb;
     m_checkPointFileName := "";
     m_preserveAllCheckpoints := false;
     m_restoreFromCheckpointIfExists := false;
     m_checkpointFrequencyInSamples := 0;
     m_crossValidationFrequencyInSamples := 0;
     m_progressFrequencyInSamples := 0;
     m_progressWriters := [] |}.

Definition source (n : N) : Source :=
  {| streams := ["features"; "labels"]; size := n; position := 0 |}.

Definition trainer (b : nat) : Trainer :=
  {| seen := 0; learners := [LocalLearner]; busy := b |}.

Definition no_files : FS := {| contents := []; entries := [] |}.

Definition subclass (stop : option N) : User := {| stop_at := stop; reports := [] |}.

(** The configuration a builder call returns, [c] when it raises. *)
Definition built (r : result (@SessionConfig string string _ _ unit))
    (c : @SessionConfig string string _ _ unit) : @SessionConfig string string _ _ unit :=
  match r with
  | Ok c' => c'
  | Err _ => c
  end.

(** The session the constructor builds in this world. *)
Definition session (t : Trainer) (c : @SessionConfig string string _ _ unit)
    (src : Source) (cv : option Source) (fs : FS) (u : User)
    : @TrainingSession string string _ _ Source Trainer FS User unit :=
  let '(after, rank, workers) := foldl learner_step (0, 0, 1) (learners t) in
  {| m_trainer := t; m_config := c; m_mbSource := src;
     m_crossValidationSource := cv;
     m_parallelAfterSamples := after; m_workerRank := rank;
     m_numberOfWorkers := workers;
     m_actions := required_actions c; files := fs; user := u |}.

(** Progress every 3 samples, minibatches of 10, 20 samples in all. *)
Definition progress_session :=
  session (trainer 0) (built (ProgressPrinting [] 3 (config 10 20)) (config 10 20))
    (source 1000) None no_files (subclass None).

(** The same checkpoints for 160 samples in all, with a trainer that has seen
    100 samples before the session is built. *)
Definition late_session :=
  session {| seen := 100; learners := [LocalLearner]; busy := 0 |}
    (built (Checkpointing "model" 20 false false (config 10 160)) (config 10 160))
    (source 1000) None no_files (subclass None).

(** A checkpoint to [model] every 20 samples, minibatches of 10, 100 samples
    in all. *)
Definition checkpoint_session :=
  session (trainer 0)
    (built (Checkpointing "model" 20 false false (config 10 100)) (config 10 100))
    (source 1000) None no_files (subclass None).

(** Cross validation every 20 samples over 25 samples, with a subclass that
    asks to stop at index 1, and other workers that keep the trainer going
    for two more rounds. *)
Definition validation_session :=
  session (trainer 2)
    (built (CrossValidation (fun _ => 10) 20 (config 10 100)) (config 10 100))
    (source 1000) (Some (source 25)) no_files (subclass (Some 1)).

(** Worker 2 of 4, with a warm-up of 50 samples. *)
Definition distributed_session :=
  session {| seen := 0; learners := [LocalLearner; DistributedLearner 50 2 4];
             busy := 0 |}
    (config 10 100) (source 1000) None no_files (subclass None).

(** A source that serves the stream [features] only. *)
Definition features_only : Source :=
  {| streams := ["features"]; size := 1000; position := 0 |}.

(** The external state saved with a source at position [n]. *)
Definition saved_state (n : N) : gmap string N := {[ s_trainingMinibatchSource := n ]}.

(** A directory [out] with the numbered checkpoints [model0] and [model1] and
    the [.ckp] file of each, as [SaveCheckpoint] leaves them when all
    checkpoints are preserved under the name [out/model]. *)
Definition numbered_files : FS :=
  {| contents := [ ("out/model0", (20, saved_state 20));
                   ("out/model0.ckp", (20, saved_state 20));
                   ("out/model1", (40, saved_state 40));
                   ("out/model1.ckp", (40, saved_state 40)) ];
     entries := [ ("out", ["model0"; "model0.ckp"; "model1"; "model1.ckp"]) ] |}.

(** A session asked to restore from [out/model] in that directory. *)
Definition restoring_session (fs : FS) (name : string) :=
  session (trainer 0)
    (built (Checkpointing name 20 true true (config 10 100)) (config 10 100))
    (source 1000) None fs (subclass None).

(** Two states of one source: the same streams over the same data set. *)
Definition toy_same_source (a b : Source) : Prop :=
  streams a = streams b /\ size a = size b.

(** A checkpoint taken at 45 samples, at the configured path [model]. *)
Definition exact_files : FS :=
  {| contents := [ ("model", (45, saved_state 45)) ]; entries := [] |}.

(** The same checkpoints one directory up, for a configured name with no
    separator in it. *)
Definition parent_files : FS :=
  {| contents := [ ("../model0", (20, saved_state 20));
                   ("../model0.ckp", (20, saved_state 20));
                   ("../model1", (40, saved_state 40));
                   ("../model1.ckp", (40, saved_state 40));
                   ("../model10", (45, saved_state 45));
                   ("../model10.ckp", (45, saved_state 45)) ];
     entries := [ ("..", ["model0"; "model0.ckp"; "model1"; "model1.ckp";
                          "model10"; "model10.ckp"; "modelX"]) ] |}.

(** Values for the members the constructor of [SessionConfig] does not set. *)
Definition header : HeaderMembers :=
  {| h_preserveAllCheckpoints := true;
     h_restoreFromCheckpointIfExists := true;
     h_checkpointFrequencyInSamples := 7;
     h_crossValidationFrequencyInSamples := 8;
     h_progressFrequencyInSamples := 9 |}.

(** How far a source is from its end. *)
Definition remaining (src : Source) : nat := N.to_nat (size src - position src).

(** A trainer with one distributed learner: worker 2 of 4, warm-up 50. *)
Definition distributed_trainer : Trainer :=
  {| seen := 0; learners := [LocalLearner; DistributedLearner 50 2 4]; busy := 0 |}.


(** The validation session with a cross-validation source that has no data. *)
Definition empty_validation_session :=
  set_crossValidationSource (Some (source 0)) validation_session.

End Toy.

(** * Properties *)

Section Properties.
Context {Var Stream : Type} `{Countable Var} `{Countable Stream}.
Context {Value MinibatchData Checkpoint double : Type}.
Context {Source Trainer FS User ProgressWriter : Type}.
Context `{!DoubleOps double} `{!BatchOps Value MinibatchData}.
Context `{!SourceOps Source Stream MinibatchData Checkpoint}.
Context `{!TrainerOps Trainer Var Value Checkpoint double FS ProgressWriter}.
Context `{!FileOps FS} `{!HookOps User double}.
Context (LONG_MAX : Z).

Abbreviation Config := (@SessionConfig Var Stream _ _ ProgressWriter).
Abbreviation Session := (@TrainingSession Var Stream _ _ Source Trainer FS User ProgressWriter).

(** Taking a successful monadic step apart. *)
Ltac bind_ok H :=
  let x := fresh "x" in
  let Hx := fresh "Hx" in
  apply result_bind_Ok in H; destruct H as (x & Hx & H).

(** ** The configuration *)

(** C8, amended: on a configuration that has no checkpointing yet,
    [Checkpointing] with an empty file name raises invalid-argument when the
    frequency is neither zero nor the largest [size_t], or when all
    checkpoints are to be preserved; in the remaining cases (frequency zero or
    the largest [size_t], nothing preserved) it succeeds and stores the
    frequency 0. *)
Theorem Checkpointing_empty_path (c : Config) (freq : N) (restore preserve : bool) :
  m_withCheckpointing c = false ->
  ((freq <> 0 /\ freq <> SIZE_MAX) \/ preserve = true ->
   exists msg, Checkpointing "" freq restore preserve c = Err (InvalidArgument msg)) /\
  ((freq = 0 \/ freq = SIZE_MAX) /\ preserve = false ->
   exists c', Checkpointing "" freq restore preserve c = Ok c' /\
     m_withCheckpointing c' = true /\
     m_checkPointFileName c' = "" /\
     m_checkpointFrequencyInSamples c' = 0 /\
     m_preserveAllCheckpoints c' = false).
Proof.
  intros Hfresh. unfold Checkpointing. rewrite Hfresh. cbn.
  split.
  - intros [[Hzero Hmax] | ->].
    + apply N.eqb_neq in Hzero, Hmax. rewrite Hzero, Hmax. cbn. eauto.
    + destruct (negb (freq =? 0) && negb (freq =? SIZE_MAX)); cbn; eauto.
  - intros [Hfreq ->].
    assert (negb (freq =? 0) && negb (freq =? SIZE_MAX) = false) as ->.
    { destruct Hfreq as [-> | ->]; [reflexivity|].
      rewrite N.eqb_refl. apply andb_false_r. }
    cbn. eexists. split; [reflexivity|]. cbn. auto.
Qed.

(** ** Fetching *)

(** C6: below the warm-up threshold [GetTrainingMinibatch] fetches with rank 0
    of 1 worker, whatever the session was configured with; from the threshold
    on it fetches with the rank and worker count of the session. *)
Theorem GetTrainingMinibatch_shard (maxMbSize : N) (s : Session) :
  let seen := TotalNumberOfSamplesSeen (m_trainer s) in
  let mbSize := N.min (GetMinibatchSize s) maxMbSize in
  let fetch rank workers :=
    GetNextMinibatch (m_inputVarToStream (m_config s)) (m_mbSource s)
      mbSize rank workers in
  (seen < m_parallelAfterSamples s ->
   GetTrainingMinibatch maxMbSize s
   = ((fetch 0 1).1, set_mbSource (fetch 0 1).2 s)) /\
  (m_parallelAfterSamples s <= seen ->
   GetTrainingMinibatch maxMbSize s
   = ((fetch (m_workerRank s) (m_numberOfWorkers s)).1,
      set_mbSource (fetch (m_workerRank s) (m_numberOfWorkers s)).2 s)).
Proof.
  cbn zeta. unfold GetTrainingMinibatch, training_shard. split; intros Hseen.
  - apply N.ltb_lt in Hseen. rewrite Hseen.
    destruct (GetNextMinibatch _ _ _ 0 1); reflexivity.
  - apply N.ltb_ge in Hseen. rewrite Hseen.
    destruct (GetNextMinibatch _ _ _ (m_workerRank s) _); reflexivity.
Qed.

(** ** The actions in one round of the loop *)

Lemma size_div_Ok (a b q : N) : size_div a b = Ok q -> b <> 0 /\ q = a / b.
Proof.
  unfold size_div. destruct (N.eqb_spec b 0); [discriminate|].
  intros [= <-]. auto.
Qed.

Lemma size_rem_Ok (a b r : N) : size_rem a b = Ok r -> b <> 0 /\ r = a mod b.
Proof.
  unfold size_rem. destruct (N.eqb_spec b 0); [discriminate|].
  intros [= <-]. auto.
Qed.

(** The two ways through the body of the loop. *)
Lemma perform_action_Ok (cvFuel : nat) (total : N) (a a' : PeriodicAction)
    (call : option (N * bool)) (ee ee' : bool) (s s' : Session) :
  perform_action cvFuel total a ee s = Ok (a', call, ee', s') ->
  frequency a <> 0 /\
  ((total / frequency a = currentIndex a /\
    a' = a /\ call = None /\ ee' = ee /\ s' = s) \/
   (total / frequency a <> currentIndex a /\
    a' = called_at (total / frequency a) total a /\
    exists b, run_action cvFuel (action a) (currentIndex a) s = Ok (b, s') /\
      call = Some (currentIndex a, b) /\
      ee' = (if negb b then true else ee))).
Proof.
  unfold perform_action. intros Hrun. bind_ok Hrun.
  apply size_div_Ok in Hx as [HF ->]. split; [exact HF|].
  destruct (N.eqb_spec (total / frequency a) (currentIndex a)) as [Heq|Hne];
    cbn in Hrun.
  - left. injection Hrun as <- <- <- <-. auto.
  - right. bind_ok Hrun. destruct x as [b s1]. injection Hrun as <- <- <- <-.
    split; [exact Hne|]. split; [reflexivity|]. exists b. auto.
Qed.

Lemma called_at_invariant (total : N) (a : PeriodicAction) :
  frequency a <> 0 -> action_invariant (called_at (total / frequency a) total a).
Proof.
  intros HF. unfold action_invariant, called_at. cbn. split; [exact HF|].
  pose proof (N.Div0.mul_div_le total (frequency a)).
  pose proof (N.mul_succ_div_gt total (frequency a) HF). lia.
Qed.

(** What the loop returns at position [i] comes from one run of its body on
    the action at that position. *)
Lemma perform_actions_lookup (cvFuel : nat) (total : N)
    (acts acts' : list PeriodicAction) (calls : list (option (N * bool)))
    (ee ee' : bool) (s s' : Session) (i : nat) (a : PeriodicAction) :
  perform_actions cvFuel total acts ee s = Ok (acts', calls, ee', s') ->
  acts !! i = Some a ->
  exists (a' : PeriodicAction) (call : option (N * bool)) (ee0 ee1 : bool)
         (s0 s1 : Session),
    perform_action cvFuel total a ee0 s0 = Ok (a', call, ee1, s1) /\
    acts' !! i = Some a' /\ calls !! i = Some call.
Proof.
  revert acts' calls ee ee' s s' i.
  induction acts as [|a0 rest IH]; intros acts' calls ee ee' s s' i Hrun Hi.
  { discriminate. }
  cbn in Hrun. bind_ok Hrun. destruct x as [[[a1 call1] ee1] s1].
  bind_ok Hrun. destruct x as [[[rest' calls'] ee2] s2].
  injection Hrun as <- <- <- <-.
  destruct i as [|i]; cbn in Hi.
  - injection Hi as ->. exists a1, call1, ee, ee1, s, s1. auto.
  - exact (IH _ _ _ _ _ _ i Hx0 Hi).
Qed.


(** The loop hands back as many actions and calls as it was given. *)
Lemma perform_actions_length (cvFuel : nat) (total : N)
    (acts acts' : list PeriodicAction) (calls : list (option (N * bool)))
    (ee ee' : bool) (s s' : Session) :
  perform_actions cvFuel total acts ee s = Ok (acts', calls, ee', s') ->
  length acts' = length acts /\ length calls = length acts.
Proof.
  revert acts' calls ee ee' s s'.
  induction acts as [|a0 rest IH]; intros acts' calls ee ee' s s' Hrun; cbn in Hrun.
  { injection Hrun as <- <- _ _. auto. }
  bind_ok Hrun. destruct x as [[[a1 call1] ee1] s1].
  bind_ok Hrun. destruct x as [[[rest' calls'] ee2] s2].
  injection Hrun as <- <- <- <-. apply IH in Hx0 as [Hl1 Hl2].
  cbn. rewrite Hl1, Hl2. auto.
Qed.

Lemma perform_actions_invariant (cvFuel : nat) (total : N)
    (acts acts' : list PeriodicAction) (calls : list (option (N * bool)))
    (ee ee' : bool) (s s' : Session) :
  perform_actions cvFuel total acts ee s = Ok (acts', calls, ee', s') ->
  Forall action_invariant acts -> Forall action_invariant acts'.
Proof.
  revert acts' calls ee ee' s s'.
  induction acts as [|a0 rest IH]; intros acts' calls ee ee' s s' Hrun Hinv;
    cbn in Hrun.
  { injection Hrun as <- _ _ _. constructor. }
  bind_ok Hrun. destruct x as [[[a1 call1] ee1] s1].
  bind_ok Hrun. destruct x as [[[rest' calls'] ee2] s2].
  injection Hrun as <- <- <- <-.
  apply Forall_cons in Hinv as [Ha0 Hrest]. constructor.
  - apply perform_action_Ok in Hx as [HF [(_ & -> & _) | (_ & -> & _)]].
    + exact Ha0.
    + apply called_at_invariant, HF.
  - exact (IH _ _ _ _ _ _ Hx0 Hrest).
Qed.

(** ** What the callables leave alone *)

Lemma SaveCheckpoint_actions (index : N) (s : Session) :
  m_actions (SaveCheckpoint index s) = m_actions s.
Proof.
  unfold SaveCheckpoint. cbn. destruct (Trainer_SaveCheckpoint _ _ _ _). reflexivity.
Qed.

Lemma CrossValidate_pass_actions (fuel : nat) (source : Source) (s s' : Session)
    (r : CVReport) :
  CrossValidate_pass fuel source s = Ok (r, s') -> m_actions s' = m_actions s.
Proof.
  unfold CrossValidate_pass. intros Hrun. bind_ok Hrun.
  destruct x as [[source' t'] st]. injection Hrun as _ <-. reflexivity.
Qed.

Lemma CrossValidate_actions (fuel : nat) (index : N) (s s' : Session) (b : bool) :
  CrossValidate fuel index s = Ok (b, s') -> m_actions s' = m_actions s.
Proof.
  unfold CrossValidate. destruct (m_crossValidationSource s) as [source|].
  - intros Hrun. bind_ok Hrun. destruct x as [[[err n] k] s1].
    destruct (OnCrossValidationEnd _ _ _ _ _) as [b' u].
    injection Hrun as _ <-. cbn. eapply CrossValidate_pass_actions, Hx.
  - destruct (OnCrossValidationEnd _ _ _ _ _) as [b' u].
    intros [= _ <-]. reflexivity.
Qed.

Lemma run_action_actions (cvFuel : nat) (k : ActionKind) (index : N)
    (s s' : Session) (b : bool) :
  run_action cvFuel k index s = Ok (b, s') -> m_actions s' = m_actions s.
Proof.
  destruct k; cbn.
  - intros [= _ <-]. apply SaveCheckpoint_actions.
  - apply CrossValidate_actions.
  - intros [= _ <-]. reflexivity.
Qed.

Lemma final_actions_actions (cvFuel : nat) (acts : list PeriodicAction)
    (s s' : Session) (calls : list (option N)) :
  final_actions cvFuel acts s = Ok (calls, s') -> m_actions s' = m_actions s.
Proof.
  revert s s' calls. induction acts as [|a rest IH]; intros s s' calls Hrun;
    cbn in Hrun.
  { injection Hrun as _ <-. reflexivity. }
  bind_ok Hrun. bind_ok Hrun. destruct x0 as [call s1].
  bind_ok Hrun. destruct x0 as [calls' s2]. injection Hrun as _ <-.
  rewrite (IH _ _ _ Hx1).
  destruct (negb (x =? 0) && negb (_ =? _)).
  - bind_ok Hx0. destruct x0 as [b s3]. injection Hx0 as _ <-.
    eapply run_action_actions, Hx2.
  - injection Hx0 as _ <-. reflexivity.
Qed.

(** Without a cross-validation source every callable returns, and so does the
    loop over the actions when no frequency is zero. *)
Lemma run_action_returns (cvFuel : nat) (k : ActionKind) (index : N) (s : Session) :
  m_crossValidationSource s = None ->
  exists (b : bool) (s' : Session),
    run_action cvFuel k index s = Ok (b, s') /\ m_crossValidationSource s' = None.
Proof.
  intros Hnone. destruct k; cbn.
  - eexists _, _. split; [reflexivity|].
    unfold SaveCheckpoint. cbn. destruct (Trainer_SaveCheckpoint _ _ _ _). exact Hnone.
  - unfold CrossValidate. rewrite Hnone.
    destruct (OnCrossValidationEnd _ _ _ _ _) as [b u].
    eexists _, _. split; [reflexivity | exact Hnone].
  - eexists _, _. split; [reflexivity | exact Hnone].
Qed.

Lemma perform_actions_returns (cvFuel : nat) (total : N)
    (acts : list PeriodicAction) (ee : bool) (s : Session) :
  Forall (fun a => frequency a <> 0) acts ->
  m_crossValidationSource s = None ->
  exists r, perform_actions cvFuel total acts ee s = Ok r.
Proof.
  intros Hacts. revert ee s.
  induction Hacts as [|a rest HF _ IH]; intros ee s Hnone; cbn; [eauto|].
  unfold perform_action, size_div. apply N.eqb_neq in HF. rewrite HF. cbn.
  destruct (negb (total / frequency a =? currentIndex a)).
  - destruct (run_action_returns cvFuel (action a) (currentIndex a) s Hnone)
      as (b & s1 & -> & Hnone1). cbn.
    destruct (IH (if negb b then true else ee) s1 Hnone1) as [[[[rest' calls] ee1] s2] ->].
    cbn. eauto.
  - cbn. destruct (IH ee s Hnone) as [[[[rest' calls] ee1] s2] ->]. cbn. eauto.
Qed.

(** ** Restoring *)

Lemma recalculate_actions_Ok (total : N) (acts acts' : list PeriodicAction) :
  recalculate_actions total acts = Ok acts' ->
  Forall2 (fun a a' =>
    frequency a <> 0 /\
    a' = {| frequency := frequency a; currentIndex := total / frequency a;
            sampleCountWhenLastCalled := total - total mod frequency a;
            action := action a |}) acts acts'.
Proof.
  revert acts'. induction acts as [|a rest IH]; intros acts' Hrun; cbn in Hrun.
  { injection Hrun as <-. constructor. }
  bind_ok Hrun. bind_ok Hrun. bind_ok Hrun. injection Hrun as <-.
  apply size_div_Ok in Hx as [HF ->]. apply size_rem_Ok in Hx0 as [_ ->].
  constructor; auto.
Qed.

Lemma RestoreFromCheckpoint_file_actions (file : string) (s s' : Session) :
  RestoreFromCheckpoint_file file s = Ok s' -> m_actions s' = m_actions s.
Proof.
  unfold RestoreFromCheckpoint_file. intros Hrun. bind_ok Hrun.
  destruct x as [ext t]. destruct (ext !! s_trainingMinibatchSource); [|discriminate].
  injection Hrun as <-. reflexivity.
Qed.

(** What [RestoreFromCheckpoint()] does to the actions: nothing when no file
    is found, and otherwise it recalculates them from the restored counter. *)
Lemma RestoreFromCheckpoint_Ok (s s' : Session) :
  RestoreFromCheckpoint LONG_MAX s = Ok s' ->
  let checkpoint := m_checkPointFileName (m_config s) in
  let restoreFile :=
    find_restore_file LONG_MAX checkpoint (make_intermediate_dirs checkpoint (files s)) in
  (restoreFile = "" /\
   s' = set_files (make_intermediate_dirs checkpoint (files s)) s) \/
  (restoreFile <> "" /\
   recalculate_actions (TotalNumberOfSamplesSeen (m_trainer s')) (m_actions s)
   = Ok (m_actions s')).
Proof.
  unfold RestoreFromCheckpoint. cbn.
  destruct (String.eqb_spec
    (find_restore_file LONG_MAX (m_checkPointFileName (m_config s))
       (make_intermediate_dirs (m_checkPointFileName (m_config s)) (files s))) "")
    as [Hempty|Hfile].
  - intros [= <-]. left. auto.
  - intros Hrun. right. split; [exact Hfile|].
    bind_ok Hrun. bind_ok Hrun. injection Hrun as <-. cbn.
    rewrite (RestoreFromCheckpoint_file_actions _ _ _ Hx) in Hx0. exact Hx0.
Qed.

(** C3: after [RestoreFromCheckpoint()] has restored from a file, every action
    has as stored index the restored counter divided by its frequency, and as
    stored sample count the start of that period; in any later round of the
    loop the action is not called while the counter stays in that period, and
    when the counter has left it the call is for that period: no period that
    ended before the checkpoint is called again, and the period under way at
    the checkpoint is not skipped. *)
Theorem RestoreFromCheckpoint_resumes (s s' : Session) :
  RestoreFromCheckpoint LONG_MAX s = Ok s' ->
  find_restore_file LONG_MAX (m_checkPointFileName (m_config s))
    (make_intermediate_dirs (m_checkPointFileName (m_config s)) (files s)) <> "" ->
  forall (i : nat) (a : PeriodicAction), m_actions s !! i = Some a ->
    let restored := TotalNumberOfSamplesSeen (m_trainer s') in
    frequency a <> 0 /\
    exists a' : PeriodicAction,
      m_actions s' !! i = Some a' /\
      frequency a' = frequency a /\ action a' = action a /\
      currentIndex a' = restored / frequency a /\
      sampleCountWhenLastCalled a' = restored - restored mod frequency a /\
      forall (cvFuel : nat) (total : N) (ee ee1 : bool) (s1 s2 : Session)
             (acts1 : list PeriodicAction) (calls : list (option (N * bool))),
        perform_actions cvFuel total (m_actions s') ee s1 = Ok (acts1, calls, ee1, s2) ->
        (total / frequency a = restored / frequency a -> calls !! i = Some None) /\
        (total / frequency a <> restored / frequency a ->
         exists b : bool, calls !! i = Some (Some (restored / frequency a, b))).
Proof.
  intros Hrun Hfile i a Hi restored.
  apply RestoreFromCheckpoint_Ok in Hrun as [[Hempty _] | [_ Hacts]];
    [contradiction|].
  apply recalculate_actions_Ok in Hacts.
  destruct (Forall2_lookup_l _ _ _ _ _ Hacts Hi) as (a' & Hi' & HF & Ha').
  split; [exact HF|]. exists a'. split; [exact Hi'|].
  subst a'. cbn. repeat (split; [reflexivity|]).
  intros cvFuel total ee ee1 s1 s2 acts1 calls Hloop.
  destruct (perform_actions_lookup _ _ _ _ _ _ _ _ _ _ _ Hloop Hi')
    as (a1 & call & ee0 & ee2 & s0 & s3 & Hbody & _ & Hcall).
  apply perform_action_Ok in Hbody as [_ Hcase]. cbn in Hcase.
  split; intros Hperiod.
  - destruct Hcase as [(_ & _ & -> & _) | (Hne & _)]; [exact Hcall | contradiction].
  - destruct Hcase as [(Heq & _) | (_ & _ & b & _ & -> & _)];
      [contradiction | eauto].
Qed.

(** ** The invariant of the actions *)

Lemma fresh_action_invariant (F : N) (k : ActionKind) :
  F <> 0 ->
  action_invariant {| frequency := F; currentIndex := 0;
                      sampleCountWhenLastCalled := 0; action := k |}.
Proof. intros HF. unfold action_invariant. cbn. lia. Qed.

Lemma required_actions_invariant (c : Config) :
  Forall action_invariant (required_actions c).
Proof.
  unfold required_actions.
  repeat apply Forall_app_2;
    match goal with
    | |- Forall _ (if ?b && negb (?F =? 0) then _ else _) =>
        destruct b; cbn; [|constructor];
        destruct (N.eqb_spec F 0); cbn; constructor;
        [apply fresh_action_invariant; assumption | constructor]
    end.
Qed.

Lemma recalculated_invariant (total : N) (acts acts' : list PeriodicAction) :
  recalculate_actions total acts = Ok acts' -> Forall action_invariant acts'.
Proof.
  intros Hrun. apply recalculate_actions_Ok in Hrun.
  induction Hrun as [|a a' rest rest' [HF ->] _ IH]; constructor; [|exact IH].
  unfold action_invariant. cbn. split; [exact HF|].
  pose proof (N.Div0.div_mod total (frequency a)).
  pose proof (N.mod_lt total (frequency a) HF). nia.
Qed.

Lemma GetTrainingMinibatch_actions (maxMbSize : N) (s : Session) :
  m_actions (GetTrainingMinibatch maxMbSize s).2 = m_actions s.
Proof.
  unfold GetTrainingMinibatch. destruct (training_shard s) as [rank workers].
  destruct (GetNextMinibatch _ _ _ _ _). reflexivity.
Qed.

Lemma train_loop_invariant (fuel cvFuel : nat) (ee : bool) (s s' : Session)
    (its : list Iteration) :
  train_loop fuel cvFuel ee s = Ok (its, s') ->
  Forall action_invariant (m_actions s) -> Forall action_invariant (m_actions s').
Proof.
  revert ee s s' its. induction fuel as [|fuel IH]; intros ee s s' its Hrun Hinv;
    cbn in Hrun; [discriminate|].
  pose proof (GetTrainingMinibatch_actions
    (if ee || (m_maxNumTrainingSamples (m_config s)
               <=? TotalNumberOfSamplesSeen (m_trainer s))
     then 0
     else m_maxNumTrainingSamples (m_config s)
          - TotalNumberOfSamplesSeen (m_trainer s)) s) as Hfetch.
  destruct (GetTrainingMinibatch _ s) as [minibatch s1]. cbn in Hfetch.
  destruct (TrainMinibatch minibatch _) as [shouldTrain t]. cbn in Hrun.
  bind_ok Hrun. destruct x as [[[acts calls] ee1] s5].
  rewrite Hfetch in Hx. apply perform_actions_invariant in Hx; [|exact Hinv].
  destruct shouldTrain.
  - bind_ok Hrun. destruct x as [its' s7]. injection Hrun as _ <-.
    eapply IH; [exact Hx0 | exact Hx].
  - injection Hrun as _ <-. exact Hx.
Qed.

Lemma Train_invariant (fuel cvFuel : nat) (s s' : Session) (log : TrainLog) :
  Train LONG_MAX fuel cvFuel s = Ok (log, s') ->
  Forall action_invariant (m_actions s) -> Forall action_invariant (m_actions s').
Proof.
  unfold Train. intros Hrun Hinv.
  bind_ok Hrun. destruct x as [restored s1].
  bind_ok Hrun. destruct x as [its s2].
  bind_ok Hrun. destruct x as [calls s3]. injection Hrun as _ <-.
  assert (Forall action_invariant (m_actions s1)) as Hinv1.
  { destruct (m_restoreFromCheckpointIfExists (m_config s) && _).
    - bind_ok Hx. injection Hx as _ <-.
      apply RestoreFromCheckpoint_Ok in Hx2 as [[_ ->] | [_ Hacts]];
        [exact Hinv | eapply recalculated_invariant, Hacts].
    - injection Hx as _ <-. exact Hinv. }
  assert (Forall action_invariant (m_actions s2)) as Hinv2.
  { destruct (0 <? m_maxNumTrainingSamples (m_config s)).
    - eapply train_loop_invariant; [exact Hx0 | exact Hinv1].
    - injection Hx0 as _ <-. exact Hinv1. }
  assert (m_actions s3 = m_actions s2) as Hframe.
  { destruct (negb (restored =? _)).
    - eapply final_actions_actions, Hx1.
    - injection Hx1 as _ <-. reflexivity. }
  assert (m_actions (if m_withCheckpointing (m_config s3)
                        && m_preserveAllCheckpoints (m_config s3)
                        && negb (fexists (m_checkPointFileName (m_config s3)) (files s3))
                     then SaveFinalCheckpoint s3 else s3) = m_actions s3) as ->.
  { destruct (_ && _ && negb _); [|reflexivity].
    unfold SaveFinalCheckpoint. destruct (Trainer_SaveCheckpoint _ _ _ _). reflexivity. }
  rewrite Hframe. exact Hinv2.
Qed.

(** C10: for every action, [frequency * currentIndex <=
    sampleCountWhenLastCalled < frequency * (currentIndex + 1)], with a
    frequency that is not zero.  This holds for the actions the constructor
    builds, every round of the loop over the actions keeps it, a restore from
    a file establishes it (and a restore that finds no file keeps it), and so
    does a whole call of [Train]. *)
Theorem action_invariant_holds :
  (forall (trainer : option Trainer) (config : Config) (mbSource : Source)
          (crossValidationSource : option Source) (fs : FS) (u : User) (s : Session),
     new_TrainingSession trainer config mbSource crossValidationSource fs u = Ok s ->
     Forall action_invariant (m_actions s)) /\
  (forall (cvFuel : nat) (total : N) (acts acts' : list PeriodicAction)
          (calls : list (option (N * bool))) (ee ee' : bool) (s s' : Session),
     perform_actions cvFuel total acts ee s = Ok (acts', calls, ee', s') ->
     Forall action_invariant acts -> Forall action_invariant acts') /\
  (forall s s' : Session,
     RestoreFromCheckpoint LONG_MAX s = Ok s' ->
     find_restore_file LONG_MAX (m_checkPointFileName (m_config s))
       (make_intermediate_dirs (m_checkPointFileName (m_config s)) (files s)) <> ""
     \/ Forall action_invariant (m_actions s) ->
     Forall action_invariant (m_actions s')) /\
  (forall (fuel cvFuel : nat) (s s' : Session) (log : TrainLog),
     Train LONG_MAX fuel cvFuel s = Ok (log, s') ->
     Forall action_invariant (m_actions s) -> Forall action_invariant (m_actions s')).
Proof.
  split; [|split; [|split]].
  - intros [t|] config mbSource cv fs u s; cbn; [|discriminate].
    destruct (foldl learner_step _ _) as [[after rank] workers].
    intros [= <-]. cbn. apply required_actions_invariant.
  - intros cvFuel total acts acts' calls ee ee' s s'. apply perform_actions_invariant.
  - intros s s' Hrun Hpre.
    apply RestoreFromCheckpoint_Ok in Hrun as [[Hempty ->] | [_ Hacts]].
    + destruct Hpre as [Hfile | Hinv]; [contradiction | exact Hinv].
    + eapply recalculated_invariant, Hacts.
  - intros fuel cvFuel s s' log. apply Train_invariant.
Qed.

(** ** The calls of one action over a run of the loop *)

(** The calls of the action at position [i] are those a single action with
    its frequency and stored index gets from the totals the rounds read. *)
Lemma train_loop_calls (fuel cvFuel : nat) (ee : bool) (s s' : Session)
    (its : list Iteration) (i : nat) (a : PeriodicAction) :
  train_loop fuel cvFuel ee s = Ok (its, s') ->
  m_actions s !! i = Some a ->
  calls_of i its = expected_calls (frequency a) (currentIndex a) (map it_total its).
Proof.
  revert ee s s' its a.
  induction fuel as [|fuel IH]; intros ee s s' its a Hrun Hi; cbn in Hrun;
    [discriminate|].
  pose proof (GetTrainingMinibatch_actions
    (if ee || (m_maxNumTrainingSamples (m_config s)
               <=? TotalNumberOfSamplesSeen (m_trainer s))
     then 0
     else m_maxNumTrainingSamples (m_config s)
          - TotalNumberOfSamplesSeen (m_trainer s)) s) as Hfetch.
  destruct (GetTrainingMinibatch _ s) as [minibatch s1]. cbn in Hfetch.
  destruct (TrainMinibatch minibatch _) as [shouldTrain t]. cbn in Hrun.
  bind_ok Hrun. destruct x as [[[acts calls] ee1] s5].
  rewrite Hfetch in Hx.
  destruct (perform_actions_lookup _ _ _ _ _ _ _ _ _ _ _ Hx Hi)
    as (a1 & call & ee0 & ee2 & s0 & s3 & Hbody & Hi1 & Hcall).
  apply perform_action_Ok in Hbody as [_ Hcase].
  set (total := TotalNumberOfSamplesSeen t) in *.
  assert (forall its' : list Iteration,
    calls_of i its' = expected_calls (frequency a1) (currentIndex a1) (map it_total its') ->
    calls_of i ({| it_samplesLeft :=
                     if ee || (m_maxNumTrainingSamples (m_config s)
                               <=? TotalNumberOfSamplesSeen (m_trainer s))
                     then 0
                     else m_maxNumTrainingSamples (m_config s)
                          - TotalNumberOfSamplesSeen (m_trainer s);
                   it_shouldTrain := shouldTrain; it_total := total;
                   it_calls := calls; it_earlyExit := ee1 |} :: its')
    = expected_calls (frequency a) (currentIndex a) (total :: map it_total its'))
    as Hstep.
  { intros its' Hrest. unfold calls_of in *. cbn. rewrite Hcall.
    destruct Hcase as [(Heq & -> & -> & _) | (Hne & -> & b & _ & -> & _)].
    - apply N.eqb_eq in Heq. rewrite Heq. cbn. exact Hrest.
    - apply N.eqb_neq in Hne. rewrite Hne. cbn. rewrite Hrest. reflexivity. }
  destruct shouldTrain.
  - bind_ok Hrun. destruct x as [its' s7]. injection Hrun as <- _.
    apply Hstep. eapply IH; [exact Hx0 | exact Hi1].
  - injection Hrun as <- _. apply (Hstep []). reflexivity.
Qed.

Lemma expected_calls_increasing (F prev c : N) (ts : list N) :
  F <> 0 -> c <= prev / F -> nondecreasing prev ts ->
  StronglySorted N.lt (map fst (expected_calls F c ts)) /\
  Forall (fun p => c <= p) (map fst (expected_calls F c ts)).
Proof.
  intros HF. revert prev c.
  induction ts as [|t ts IH]; intros prev c Hc Hmono; cbn.
  { split; constructor. }
  destruct Hmono as [Hle Hmono].
  assert (c <= t / F) as Hct.
  { etransitivity; [exact Hc|]. apply N.Div0.div_le_mono, Hle. }
  destruct (N.eqb_spec (t / F) c) as [Heq|Hne].
  - apply (IH t c); [lia | exact Hmono].
  - destruct (IH t (t / F)) as [Hsorted Hbound]; [lia | exact Hmono |].
    cbn. split.
    + constructor; [exact Hsorted|].
      eapply Forall_impl; [exact Hbound|]. cbn. intros p Hp. lia.
    + constructor; [lia|].
      eapply Forall_impl; [exact Hbound|]. cbn. intros p Hp. lia.
Qed.

Lemma bounded_steps_nondecreasing (F prev : N) (ts : list N) :
  bounded_steps F prev ts -> nondecreasing prev ts.
Proof.
  revert prev. induction ts as [|t ts IH]; intros prev; cbn; [auto|].
  intros [[Hle _] Hrest]. auto.
Qed.

Lemma last_cons (t d : N) (ts : list N) : List.last (t :: ts) d = List.last ts t.
Proof.
  revert t d. induction ts as [|t' ts IH]; intros t d; [reflexivity|].
  change (List.last (t :: t' :: ts) d) with (List.last (t' :: ts) d).
  rewrite (IH t' d), (IH t' t). reflexivity.
Qed.

Lemma nondecreasing_last (prev : N) (ts : list N) :
  nondecreasing prev ts -> prev <= List.last ts prev.
Proof.
  revert prev. induction ts as [|t ts IH]; intros prev; [cbn; lia|].
  intros [Hle Hrest]. specialize (IH t Hrest). rewrite last_cons. lia.
Qed.

Lemma expected_calls_bounded (F prev c : N) (ts : list N) :
  F <> 0 -> prev / F = c -> bounded_steps F prev ts ->
  map fst (expected_calls F c ts)
  = periods_from c (N.to_nat (List.last ts prev / F - c)) /\
  Forall (fun call : N * N => call.2 / F = call.1 + 1) (expected_calls F c ts).
Proof.
  intros HF. revert prev c.
  induction ts as [|t ts IH]; intros prev c Hc Hsteps.
  { cbn. rewrite Hc, N.sub_diag. split; [reflexivity | constructor]. }
  destruct Hsteps as [[Hle Hup] Hrest]. rewrite last_cons. cbn.
  assert (c <= t / F) as Hlow.
  { rewrite <- Hc. apply N.Div0.div_le_mono, Hle. }
  assert (t / F <= c + 1) as Hhigh.
  { rewrite <- Hc. etransitivity; [apply N.Div0.div_le_mono, Hup|].
    replace (prev + F) with (prev + 1 * F) by lia.
    rewrite N.div_add by exact HF. lia. }
  destruct (N.eqb_spec (t / F) c) as [Heq|Hne].
  - apply (IH t c Heq Hrest).
  - assert (t / F = c + 1) as Hnext by lia. rewrite Hnext.
    destruct (IH t (c + 1) Hnext Hrest) as [Hperiods Hwhen].
    pose proof (nondecreasing_last t ts (bounded_steps_nondecreasing _ _ _ Hrest))
      as Hlast.
    apply (N.Div0.div_le_mono _ _ F) in Hlast. rewrite Hnext in Hlast.
    split.
    + cbn. rewrite Hperiods.
      replace (N.to_nat (List.last ts t / F - c))
        with (S (N.to_nat (List.last ts t / F - (c + 1)))) by lia.
      reflexivity.
    + constructor; [cbn; exact Hnext | exact Hwhen].
Qed.

(** A call with index [p] comes in the first round whose total has reached
    [(p + 1) * F], when the stored index is not ahead of the counter and the
    counter does not go down. *)
Lemma expected_calls_first (F prev c : N) (ts : list N) :
  F <> 0 -> c <= prev / F -> nondecreasing prev ts ->
  Forall (fun call : N * N =>
            c <= call.1 /\
            exists before after : list N,
              ts = (before ++ call.2 :: after)%list /\
              Forall (fun t => t < (call.1 + 1) * F) before /\
              (call.1 + 1) * F <= call.2)
    (expected_calls F c ts).
Proof.
  intros HF. revert prev c.
  induction ts as [|t ts IH]; intros prev c Hc Hmono; cbn; [constructor|].
  destruct Hmono as [Hle Hmono].
  assert (c <= t / F) as Hct.
  { etransitivity; [exact Hc|]. apply N.Div0.div_le_mono, Hle. }
  pose proof (N.mul_succ_div_gt t F HF) as Hbelow.
  pose proof (N.Div0.mul_div_le t F) as Habove.
  assert (forall c' : N, c <= c' -> t / F <= c' ->
    Forall (fun call : N * N =>
              c' <= call.1 /\
              exists before after : list N,
                ts = (before ++ call.2 :: after)%list /\
                Forall (fun t' => t' < (call.1 + 1) * F) before /\
                (call.1 + 1) * F <= call.2)
      (expected_calls F c' ts) ->
    Forall (fun call : N * N =>
              c <= call.1 /\
              exists before after : list N,
                t :: ts = (before ++ call.2 :: after)%list /\
                Forall (fun t' => t' < (call.1 + 1) * F) before /\
                (call.1 + 1) * F <= call.2)
      (expected_calls F c' ts)) as Hlater.
  { intros c' Hcc' Htc' Hall. eapply Forall_impl; [exact Hall|].
    intros [p t'] (Hp & before & after & Hsplit & Hbefore & Hreached). cbn in *.
    split; [lia|]. exists (t :: before), after.
    split; [rewrite Hsplit; reflexivity|]. split; [|exact Hreached].
    constructor; [nia | exact Hbefore]. }
  destruct (N.eqb_spec (t / F) c) as [Heq|Hne].
  - apply (Hlater c); [lia | lia |]. apply (IH t c); [lia | exact Hmono].
  - constructor.
    + cbn. split; [lia|]. exists [], ts.
      split; [reflexivity|]. split; [constructor | nia].
    + apply (Hlater (t / F)); [lia | lia |].
      apply (IH t (t / F)); [lia | exact Hmono].
Qed.

(** C2, amended: over a run of the loop the action at a position is called,
    round by round, when the total divided by its frequency differs from the
    index it has stored, with the stored index, which then becomes the new
    quotient.  If at the entry of the loop the stored index is not ahead of
    the counter ([currentIndex <= seen / frequency]) and the counter never
    goes down during the run, the indices of the calls increase strictly, so
    no period gets two calls, and the call with index [p] comes in the first
    round whose total has reached [(p + 1) * frequency].  If at the entry the
    stored index is the period the counter lies in
    ([currentIndex = seen / frequency]) and no round gains more than
    [frequency] samples, the calls are exactly one for each of the periods
    from the stored one up to the last one completed, in order, and the call
    for period [p] comes in a round whose total lies in period [p + 1]. *)
Theorem train_loop_calls_each_period (fuel cvFuel : nat) (ee : bool)
    (s s' : Session) (its : list Iteration) (i : nat) (a : PeriodicAction) :
  train_loop fuel cvFuel ee s = Ok (its, s') ->
  m_actions s !! i = Some a ->
  frequency a <> 0 ->
  calls_of i its
  = expected_calls (frequency a) (currentIndex a) (map it_total its) /\
  (currentIndex a <= TotalNumberOfSamplesSeen (m_trainer s) / frequency a ->
   nondecreasing (TotalNumberOfSamplesSeen (m_trainer s)) (map it_total its) ->
   StronglySorted N.lt (map fst (calls_of i its)) /\
   Forall (fun call : N * N =>
             exists before after : list N,
               map it_total its = (before ++ call.2 :: after)%list /\
               Forall (fun t => t < (call.1 + 1) * frequency a) before /\
               (call.1 + 1) * frequency a <= call.2)
     (calls_of i its)) /\
  (currentIndex a = TotalNumberOfSamplesSeen (m_trainer s) / frequency a ->
   bounded_steps (frequency a) (TotalNumberOfSamplesSeen (m_trainer s))
     (map it_total its) ->
   map fst (calls_of i its)
   = periods_from (currentIndex a)
       (N.to_nat (List.last (map it_total its) (TotalNumberOfSamplesSeen (m_trainer s))
                  / frequency a - currentIndex a)) /\
   Forall (fun call : N * N => call.2 / frequency a = call.1 + 1) (calls_of i its)).
Proof.
  intros Hrun Hi HF.
  rewrite (train_loop_calls _ _ _ _ _ _ _ _ Hrun Hi).
  split; [reflexivity|]. split.
  - intros Hidx Hmono. split.
    + eapply expected_calls_increasing; [exact HF | exact Hidx | exact Hmono].
    + eapply Forall_impl;
        [eapply expected_calls_first; [exact HF | exact Hidx | exact Hmono]|].
      intros call [_ Hfirst]. exact Hfirst.
  - intros Hidx Hsteps.
    apply expected_calls_bounded; [exact HF | auto | exact Hsteps].
Qed.

(** ** Early exit *)

(** [earlyExit] after the loop over the actions: it was set before, or one of
    the calls returned [false]. *)
Lemma perform_actions_earlyExit (cvFuel : nat) (total : N)
    (acts acts' : list PeriodicAction) (calls : list (option (N * bool)))
    (ee ee' : bool) (s s' : Session) :
  perform_actions cvFuel total acts ee s = Ok (acts', calls, ee', s') ->
  ee' = true <->
  ee = true \/ exists (j : nat) (index : N), calls !! j = Some (Some (index, false)).
Proof.
  revert acts' calls ee ee' s s'.
  induction acts as [|a0 rest IH]; intros acts' calls ee ee' s s' Hrun; cbn in Hrun.
  { injection Hrun as _ <- <- _. split; [auto|].
    intros [Hee | (j & index & Hj)]; [exact Hee | discriminate]. }
  bind_ok Hrun. destruct x as [[[a1 call1] ee1] s1].
  bind_ok Hrun. destruct x as [[[rest' calls'] ee2] s2].
  injection Hrun as _ <- <- _. rewrite (IH _ _ _ _ _ _ Hx0).
  apply perform_action_Ok in Hx as [_ Hcase].
  destruct Hcase as [(_ & _ & -> & -> & _) | (_ & _ & b & _ & -> & ->)].
  - split.
    + intros [Hee | (j & index & Hj)]; [auto|]. right. exists (S j), index. exact Hj.
    + intros [Hee | (j & index & Hj)]; [auto|]. destruct j as [|j]; [discriminate|].
      right. exists j, index. exact Hj.
  - split.
    + intros [Hee | (j & index & Hj)].
      * destruct b; cbn in Hee; [auto|]. right. exists O, (currentIndex a0). reflexivity.
      * right. exists (S j), index. exact Hj.
    + intros [Hee | (j & index & Hj)].
      * left. rewrite Hee. destruct b; reflexivity.
      * destruct j as [|j].
        -- injection Hj as _ ->. left. reflexivity.
        -- right. exists j, index. exact Hj.
Qed.

(** What a run of the loop looks like, round by round. *)
Lemma train_loop_rounds (fuel cvFuel : nat) (ee : bool) (s s' : Session)
    (its : list Iteration) :
  train_loop fuel cvFuel ee s = Ok (its, s') ->
  exists (it : Iteration) (its' : list Iteration),
    its = it :: its' /\
    length (it_calls it) = length (m_actions s) /\
    it_samplesLeft it
    = (if ee || (m_maxNumTrainingSamples (m_config s)
                 <=? TotalNumberOfSamplesSeen (m_trainer s))
       then 0
       else m_maxNumTrainingSamples (m_config s)
            - TotalNumberOfSamplesSeen (m_trainer s)) /\
    (it_earlyExit it = true <->
     ee = true \/
     exists (j : nat) (index : N), it_calls it !! j = Some (Some (index, false))) /\
    if it_shouldTrain it
    then exists (fuel' : nat) (s1 : Session),
           fuel = S fuel' /\ length (m_actions s1) = length (m_actions s) /\
           train_loop fuel' cvFuel (it_earlyExit it) s1 = Ok (its', s')
    else its' = [].
Proof.
  destruct fuel as [|fuel]; intros Hrun; cbn in Hrun; [discriminate|].
  pose proof (GetTrainingMinibatch_actions
    (if ee || (m_maxNumTrainingSamples (m_config s)
               <=? TotalNumberOfSamplesSeen (m_trainer s))
     then 0
     else m_maxNumTrainingSamples (m_config s)
          - TotalNumberOfSamplesSeen (m_trainer s)) s) as Hfetch.
  destruct (GetTrainingMinibatch _ s) as [minibatch s1]. cbn in Hfetch.
  destruct (TrainMinibatch minibatch _) as [shouldTrain t]. cbn in Hrun.
  bind_ok Hrun. destruct x as [[[acts calls] ee1] s5].
  rewrite Hfetch in Hx.
  pose proof (perform_actions_length _ _ _ _ _ _ _ _ _ Hx) as [Hacts Hcalls].
  pose proof (perform_actions_earlyExit _ _ _ _ _ _ _ _ _ Hx) as Hee.
  destruct shouldTrain.
  - bind_ok Hrun. destruct x as [its' s7]. injection Hrun as <- <-.
    eexists _, its'. split; [reflexivity|]. cbn.
    split; [exact Hcalls|]. split; [reflexivity|]. split; [exact Hee|].
    exists fuel, (set_actions acts s5). split; [reflexivity|]. split; [exact Hacts|].
    exact Hx0.
  - injection Hrun as <- <-. eexists _, []. split; [reflexivity|]. cbn.
    split; [exact Hcalls|]. split; [reflexivity|]. split; [exact Hee|]. reflexivity.
Qed.

(** Once [earlyExit] is set it stays set, and every round asks for no samples. *)
Lemma train_loop_after_exit (fuel cvFuel : nat) (s s' : Session)
    (its : list Iteration) :
  train_loop fuel cvFuel true s = Ok (its, s') ->
  Forall (fun it => it_samplesLeft it = 0 /\ it_earlyExit it = true) its.
Proof.
  revert s s' its. induction fuel as [|fuel IH]; intros s s' its Hrun.
  { discriminate. }
  apply train_loop_rounds in Hrun
    as (it & its' & -> & _ & Hleft & Hee & Hnext).
  assert (it_earlyExit it = true) as Hexit by (apply Hee; auto).
  constructor; [split; [exact Hleft | exact Hexit]|].
  destruct (it_shouldTrain it).
  - destruct Hnext as (fuel' & s1 & [= <-] & _ & Hrun). rewrite Hexit in Hrun.
    eapply IH, Hrun.
  - subst its'. constructor.
Qed.

(** C5, amended: in a run of the loop every round goes over all the actions,
    and a round in which a call returns [false] ends with [earlyExit] set
    (the calls after it in the same round are still made).  From then on
    [earlyExit] stays set and every later round fetches with a budget of 0
    samples.  The loop itself goes on for as long as [TrainMinibatch] returns
    [true]: the last round is the one, and the only one, in which it returned
    [false]. *)
Theorem train_loop_early_exit (fuel cvFuel : nat) (ee : bool) (s s' : Session)
    (its : list Iteration) :
  train_loop fuel cvFuel ee s = Ok (its, s') ->
  (forall (k : nat) (it : Iteration), its !! k = Some it ->
     length (it_calls it) = length (m_actions s) /\
     ((exists (j : nat) (index : N), it_calls it !! j = Some (Some (index, false))) ->
      it_earlyExit it = true) /\
     (it_shouldTrain it = false <-> S k = length its)) /\
  (forall (k j : nat) (it it' : Iteration),
     its !! k = Some it -> its !! j = Some it' -> (k < j)%nat ->
     it_earlyExit it = true ->
     it_samplesLeft it' = 0 /\ it_earlyExit it' = true).
Proof.
  revert ee s s' its. induction fuel as [|fuel IH]; intros ee s s' its Hrun.
  { discriminate. }
  apply train_loop_rounds in Hrun
    as (it0 & its' & -> & Hlen & _ & Hee & Hnext).
  destruct (it_shouldTrain it0) eqn:Hshould.
  - destruct Hnext as (fuel' & s1 & [= <-] & Hlen1 & Hrun).
    destruct (IH _ _ _ _ Hrun) as [Hrounds Hlater].
    pose proof (train_loop_rounds _ _ _ _ _ _ Hrun) as (it1 & its1 & Hits' & _).
    split.
    + intros [|k] it Hk; cbn in Hk.
      * injection Hk as <-. split; [exact Hlen|]. split; [intros Hcall; apply Hee; auto|].
        rewrite Hshould, Hits'. cbn. split; [discriminate | lia].
      * destruct (Hrounds k it Hk) as (Hl & Hc & Hlast).
        split; [congruence|]. split; [exact Hc|].
        rewrite Hlast. cbn. lia.
    + intros [|k] [|j] it it' Hk Hj Hlt Hexit; try lia; cbn in Hk, Hj.
      * injection Hk as <-. rewrite Hexit in Hrun.
        apply train_loop_after_exit in Hrun.
        apply (proj1 (Forall_lookup _ _) Hrun j it' Hj).
      * apply (Hlater k j it it' Hk Hj); [lia | exact Hexit].
  - subst its'. split.
    + intros [|k] it Hk; cbn in Hk; [|discriminate].
      injection Hk as <-. split; [exact Hlen|]. split; [intros Hcall; apply Hee; auto|].
      rewrite Hshould. cbn. split; auto.
    + intros [|k] [|j] it it' Hk Hj Hlt Hexit; try lia; cbn in Hk, Hj; discriminate.
Qed.

(** ** Remapping a fetched minibatch *)

Lemma map_subscript_data (md0 md : gmap Stream MinibatchData) (st : Stream) :
  (forall st', stream_data md st' = stream_data md0 st') ->
  data (map_subscript st md).1 = stream_data md0 st /\
  (forall st', stream_data (map_subscript st md).2 st' = stream_data md0 st').
Proof.
  intros Hsame. unfold map_subscript.
  destruct (md !! st) as [x|] eqn:Hst; cbn.
  - split; [|exact Hsame]. rewrite <- Hsame. unfold stream_data. rewrite Hst. reflexivity.
  - split.
    + rewrite <- Hsame. unfold stream_data. rewrite Hst. reflexivity.
    + intros st'. rewrite <- Hsame. unfold stream_data.
      destruct (decide (st' = st)) as [->|Hne].
      * rewrite lookup_insert_eq, Hst. reflexivity.
      * rewrite lookup_insert_ne by auto. reflexivity.
Qed.

Lemma remap_fold_lookup (l : list (Var * Stream)) (mb : gmap Var (option Value))
    (md0 md : gmap Stream MinibatchData) (v : Var) :
  (forall st', stream_data md st' = stream_data md0 st') ->
  (foldl remap_step (mb, md) l).1 !! v
  = match mb !! v with
    | Some x => Some x
    | None => stream_data md0 <$> (list_to_map l : gmap Var Stream) !! v
    end.
Proof.
  revert mb md. induction l as [|[v0 st0] l IH]; intros mb md Hsame; cbn.
  { rewrite lookup_empty. destruct (mb !! v); reflexivity. }
  destruct (map_subscript_data md0 md st0 Hsame) as [Hdata Hsame'].
  unfold remap_step at 2. cbn.
  destruct (map_subscript st0 md) as [x md'] eqn:Hsub. cbn in Hdata, Hsame'.
  rewrite (IH _ _ Hsame'). rewrite Hdata. unfold map_insert_new.
  destruct (decide (v = v0)) as [->|Hne].
  - rewrite lookup_insert_eq. destruct (mb !! v0) as [y|] eqn:Hv0.
    + rewrite Hv0. reflexivity.
    + rewrite lookup_insert_eq. reflexivity.
  - rewrite (lookup_insert_ne (list_to_map l)) by auto.
    destruct (mb !! v0) as [y|] eqn:Hv0; [reflexivity|].
    rewrite lookup_insert_ne by auto. reflexivity.
Qed.

(** C9, amended: when the source returns a minibatch that is not empty, the
    minibatch of the session has an entry for every model input of the
    mapping; the entry holds the data the source returned for the mapped
    stream, and for a stream the source did not return it holds the data of a
    default-constructed [MinibatchData].  No error is raised. *)
Theorem GetNextMinibatch_remap (inputVarToStream : gmap Var Stream) (source : Source)
    (mbSize workerRank numberOfWorkers : N) :
  mbSize <> 0 ->
  let fetched :=
    (Source_GetNextMinibatch 0 mbSize numberOfWorkers workerRank source).1 in
  fetched <> ∅ ->
  (GetNextMinibatch inputVarToStream source mbSize workerRank numberOfWorkers).1
  = (fun st => data (default MinibatchData_default (fetched !! st)))
      <$> inputVarToStream.
Proof.
  intros Hsize fetched Hfetched. unfold GetNextMinibatch.
  apply N.eqb_neq in Hsize. rewrite Hsize. subst fetched.
  destruct (Source_GetNextMinibatch 0 mbSize numberOfWorkers workerRank source)
    as [md source']. cbn in Hfetched.
  rewrite bool_decide_eq_false_2 by (rewrite map_size_empty_iff; exact Hfetched).
  cbn. apply map_eq. intros v.
  rewrite (remap_fold_lookup _ _ md md v) by reflexivity.
  rewrite lookup_empty, list_to_map_to_list, lookup_fmap. reflexivity.
Qed.

(** ** Cross validation *)

Section CrossValidationLaws.
(** What is asked of the collaborators.  Restoring a snapshot of a source puts
    the source back in the state the snapshot was taken in, whatever was
    fetched from it in between ([same_source] relates a state of a source to
    the states fetching leads to).  Testing or summarizing does not change
    what the model of the trainer computes ([same_model] relates the states of
    the trainer that hold the same model). *)
Variable same_source : Source -> Source -> Prop.
Hypothesis same_source_preorder : PreOrder same_source.
Hypothesis fetch_keeps_source :
  forall (k n w r : N) (src : Source),
    same_source src (Source_GetNextMinibatch k n w r src).2.
Hypothesis snapshot_restore :
  forall src src' : Source,
    same_source src src' ->
    Source_RestoreFromCheckpoint (Source_GetCheckpointState src) src' = src.
Variable same_model : Trainer -> Trainer -> Prop.
Hypothesis same_model_equivalence : Equivalence same_model.
Hypothesis test_keeps_model :
  forall (mb : gmap Var (option Value)) (t : Trainer),
    same_model t (TestMinibatch mb t).2.
Hypothesis summarize_keeps_model :
  forall t : Trainer, same_model t (SummarizeTestProgress t).
Hypothesis test_by_model :
  forall (mb : gmap Var (option Value)) (t t' : Trainer),
    same_model t t' -> (TestMinibatch mb t).1 = (TestMinibatch mb t').1.

Lemma GetNextMinibatch_source (inputVarToStream : gmap Var Stream) (src : Source)
    (mbSize workerRank numberOfWorkers : N) :
  same_source src
    (GetNextMinibatch inputVarToStream src mbSize workerRank numberOfWorkers).2.
Proof.
  unfold GetNextMinibatch. destruct (mbSize =? 0); [reflexivity|].
  pose proof (fetch_keeps_source 0 mbSize numberOfWorkers workerRank src) as Hkeep.
  destruct (Source_GetNextMinibatch 0 mbSize numberOfWorkers workerRank src)
    as [md src'].
  destruct (bool_decide _); exact Hkeep.
Qed.

Lemma cv_loop_same_source (fuel : nat) (config : Config) (src src1 : Source)
    (t t1 : Trainer) (st st1 : CVState) :
  cv_loop fuel config src t st = Ok (src1, t1, st1) -> same_source src src1.
Proof.
  revert src t st. induction fuel as [|fuel IH]; intros src t st Hrun; cbn in Hrun.
  { discriminate. }
  pose proof (GetNextMinibatch_source (m_inputVarToStream config) src
                (m_crossValidationSchedule config (sampleCount st)) 0 1) as Hkeep.
  unfold GetCrossValidationMinibatch in Hrun.
  destruct (GetNextMinibatch _ src _ 0 1) as [mb src']. cbn in Hkeep.
  destruct (bool_decide _).
  - injection Hrun as <- _ _. exact Hkeep.
  - destruct (TestMinibatch mb t) as [[err count] t'].
    etransitivity; [exact Hkeep|]. eapply IH, Hrun.
Qed.

Lemma cv_loop_keeps_model (fuel : nat) (config : Config) (src src1 : Source)
    (t t1 : Trainer) (st st1 : CVState) :
  cv_loop fuel config src t st = Ok (src1, t1, st1) -> same_model t t1.
Proof.
  revert src t st. induction fuel as [|fuel IH]; intros src t st Hrun; cbn in Hrun.
  { discriminate. }
  destruct (GetCrossValidationMinibatch _ _ _) as [mb src'].
  destruct (bool_decide _).
  - injection Hrun as _ <- _. reflexivity.
  - pose proof (test_keeps_model mb t) as Hkeep.
    destruct (TestMinibatch mb t) as [[err count] t']. cbn in Hkeep.
    etransitivity; [exact Hkeep|]. eapply IH, Hrun.
Qed.

Lemma cv_loop_same_model (fuel : nat) (config : Config) (src src1 : Source)
    (t t' t1 : Trainer) (st st1 : CVState) :
  cv_loop fuel config src t st = Ok (src1, t1, st1) ->
  same_model t t' ->
  exists t1' : Trainer, cv_loop fuel config src t' st = Ok (src1, t1', st1).
Proof.
  revert src t t' st. induction fuel as [|fuel IH]; intros src t t' st Hrun Hsame;
    cbn in Hrun |- *.
  { discriminate. }
  destruct (GetCrossValidationMinibatch _ _ _) as [mb src'].
  destruct (bool_decide _).
  - injection Hrun as <- _ <-. eauto.
  - pose proof (test_keeps_model mb t) as Hkeep.
    pose proof (test_keeps_model mb t') as Hkeep'.
    pose proof (test_by_model mb t t' Hsame) as Hresult.
    destruct (TestMinibatch mb t) as [[err count] t2].
    destruct (TestMinibatch mb t') as [[err' count'] t2'].
    cbn in Hkeep, Hkeep', Hresult. injection Hresult as <- <-.
    eapply IH; [exact Hrun|].
    etransitivity; [symmetry; exact Hkeep|]. etransitivity; [exact Hsame | exact Hkeep'].
Qed.

(** C7: a call of [CrossValidate] that returns leaves the cross-validation
    source in the state it found it in: the snapshot taken before the pass is
    restored after it.  A second call right after the first returns too, and
    its pass over the source hands the same average error (and the same
    counts) to [OnCrossValidationEnd] as the pass of the first call. *)
Theorem CrossValidate_restores_source (fuel : nat) (index : N) (s s1 : Session)
    (b : bool) :
  CrossValidate fuel index s = Ok (b, s1) ->
  m_crossValidationSource s1 = m_crossValidationSource s /\
  forall src : Source, m_crossValidationSource s = Some src ->
    exists (report : CVReport) (s1' : Session),
      CrossValidate_pass fuel src s = Ok (report, s1') /\
      forall index' : N,
        exists (b' : bool) (s2 s2' : Session),
          CrossValidate fuel index' s1 = Ok (b', s2) /\
          CrossValidate_pass fuel src s1 = Ok (report, s2') /\
          m_crossValidationSource s2 = Some src.
Proof.
  unfold CrossValidate at 1.
  destruct (m_crossValidationSource s) as [src|] eqn:Hsrc.
  - intros Hrun. bind_ok Hrun. destruct x as [[[err n] k] s1'].
    destruct (OnCrossValidationEnd index err n k (user s1')) as [b0 u] eqn:Hhook.
    injection Hrun as _ <-.
    pose proof Hx as Hpass. unfold CrossValidate_pass in Hx. bind_ok Hx.
    destruct x as [[src1 t1] st1]. injection Hx as <- <- <- <-.
    pose proof (cv_loop_same_source _ _ _ _ _ _ _ _ Hx0) as Hsource.
    rewrite (snapshot_restore _ _ Hsource). cbn. split; [reflexivity|].
    intros ? [= <-]. exists (d_div (accumulatedError st1)
                               (d_of_size_t (totalNumberOfSamples st1)),
                             totalNumberOfSamples st1, numberOfMinibatches st1).
    eexists. split; [exact Hpass|]. intros index'.
    assert (same_model (m_trainer s) (SummarizeTestProgress t1)) as Hmodel.
    { etransitivity; [eapply cv_loop_keeps_model, Hx0 | apply summarize_keeps_model]. }
    destruct (cv_loop_same_model _ _ _ _ _ _ _ _ _ Hx0 Hmodel) as [t2 Hagain].
    assert (forall s0 : Session,
      m_config s0 = m_config s -> m_trainer s0 = SummarizeTestProgress t1 ->
      CrossValidate_pass fuel src s0
      = Ok ((d_div (accumulatedError st1) (d_of_size_t (totalNumberOfSamples st1)),
             totalNumberOfSamples st1, numberOfMinibatches st1),
            set_trainer (SummarizeTestProgress t2)
              (set_crossValidationSource (Some src) s0))) as Hpass2.
    { intros s0 Hconfig Htrainer. unfold CrossValidate_pass.
      rewrite Hconfig, Htrainer, Hagain. cbn.
      rewrite (snapshot_restore _ _ Hsource). reflexivity. }
    unfold CrossValidate. cbn.
    rewrite Hpass2 by reflexivity. cbn.
    destruct (OnCrossValidationEnd index' _ _ _ _) as [b' u'].
    do 3 eexists. split; [reflexivity|]. split; [reflexivity|]. reflexivity.
  - destruct (OnCrossValidationEnd _ _ _ _ _) as [b0 u].
    intros [= _ <-]. cbn. split; [exact Hsrc|]. intros src Habs. discriminate.
Qed.

(** With a source that runs out, the pass comes to an end: if every fetch that
    returns something brings the source closer to its end, fuel beyond the
    distance to the end is enough. *)
Variable remaining : Source -> nat.
Hypothesis fetch_consumes :
  forall (k n w r : N) (src : Source),
    (Source_GetNextMinibatch k n w r src).1 <> ∅ ->
    (remaining (Source_GetNextMinibatch k n w r src).2 < remaining src)%nat.

Lemma cv_loop_returns (fuel : nat) (config : Config) (src : Source)
    (t : Trainer) (st : CVState) :
  (remaining src < fuel)%nat ->
  exists r, cv_loop fuel config src t st = Ok r.
Proof.
  revert src t st. induction fuel as [|fuel IH]; intros src t st Hfuel; [lia|].
  cbn. unfold GetCrossValidationMinibatch, GetNextMinibatch.
  destruct (m_crossValidationSchedule config (sampleCount st) =? 0).
  { rewrite bool_decide_eq_true_2 by apply map_size_empty. eauto. }
  pose proof (fetch_consumes 0 (m_crossValidationSchedule config (sampleCount st))
                1 0 src) as Hless.
  destruct (Source_GetNextMinibatch 0 _ 1 0 src) as [md src']. cbn in Hless.
  destruct (decide (size md = 0%nat)) as [Hempty|Hsome].
  { rewrite (bool_decide_eq_true_2 _ Hempty).
    rewrite bool_decide_eq_true_2 by apply map_size_empty. eauto. }
  rewrite (bool_decide_eq_false_2 _ Hsome).
  destruct (bool_decide _); [eauto|].
  destruct (TestMinibatch _ t) as [[err count] t'].
  apply IH. rewrite map_size_empty_iff in Hsome. specialize (Hless Hsome). lia.
Qed.

Lemma CrossValidate_returns (fuel : nat) (index : N) (s : Session) :
  (forall src : Source,
     m_crossValidationSource s = Some src -> (remaining src < fuel)%nat) ->
  exists (b : bool) (s1 : Session), CrossValidate fuel index s = Ok (b, s1).
Proof.
  intros Hfuel. unfold CrossValidate.
  destruct (m_crossValidationSource s) as [src|].
  - unfold CrossValidate_pass.
    destruct (cv_loop_returns fuel (m_config s) src (m_trainer s) CVState_init
                (Hfuel src eq_refl)) as [[[src1 t1] st1] ->].
    cbn. destruct (OnCrossValidationEnd _ _ _ _ _) as [b u]. eauto.
  - destruct (OnCrossValidationEnd _ _ _ _ _) as [b u]. eauto.
Qed.

End CrossValidationLaws.

(** ** Looking for the file to restore from *)

Lemma find_last_of_Some (seps : list ascii) (path : string) (pos : nat) :
  find_last_of seps path = Some pos ->
  exists (c : ascii) (rest : string),
    substr_from pos path = String c rest /\ existsb (Ascii.eqb c) seps = true.
Proof.
  revert pos. induction path as [|c0 path IH]; intros pos; cbn; [discriminate|].
  destruct (find_last_of seps path) as [p|].
  - intros [= <-]. destruct (IH p eq_refl) as (c & rest & Hsub & Hc).
    exists c, rest. split; [exact Hsub | exact Hc].
  - destruct (existsb (Ascii.eqb c0) seps) eqn:Hc0; [|discriminate].
    intros [= <-]. exists c0, (String.substring 0 (String.length path) path).
    split; [reflexivity | exact Hc0].
Qed.

Lemma find_last_of_head (seps : list ascii) (c : ascii) (rest : string) :
  existsb (Ascii.eqb c) seps = true -> find_last_of seps (String c rest) <> None.
Proof.
  intros Hc. cbn. destruct (find_last_of seps rest); [discriminate|].
  rewrite Hc. discriminate.
Qed.

Lemma prefix_head (c : ascii) (rest f : string) :
  String.prefix (String c rest) f = true -> exists f', f = String c f'.
Proof.
  destruct f as [|c' f']; cbn; [discriminate|].
  destruct (ascii_dec c c') as [<-|]; [eauto | discriminate].
Qed.

Lemma foldl_fixed {A B : Type} (f : A -> B -> A) (a : A) (l : list B) :
  Forall (fun b => f a b = a) l -> foldl f a l = a.
Proof.
  induction 1 as [|b l Hb _ IH]; cbn; [reflexivity|]. rewrite Hb. exact IH.
Qed.

(** A file that is there at the configured path is the one restored from. *)
Lemma find_restore_file_exact (checkpoint : string) (fs : FS) :
  fexists checkpoint fs = true -> find_restore_file LONG_MAX checkpoint fs = checkpoint.
Proof.
  intros Hthere. unfold find_restore_file.
  destruct (split_checkpoint checkpoint). rewrite Hthere. reflexivity.
Qed.

(** X21: when the configured path has a separator in it, [fileName] starts with
    that separator, and no entry of a directory (a name with no separator in
    it) starts with [fileName]: the search finds nothing, whatever numbered
    checkpoints the directory holds. *)
Lemma find_restore_file_separator (checkpoint : string) (pos : nat) (fs : FS) :
  find_last_of separators checkpoint = Some pos ->
  fexists checkpoint fs = false ->
  Forall (fun f => find_last_of separators f = None)
    (get_all_files_from_directory (String.substring 0 pos checkpoint) fs) ->
  find_restore_file LONG_MAX checkpoint fs = "".
Proof.
  intros Hpos Hnone Hnames. unfold find_restore_file, split_checkpoint.
  rewrite Hpos, Hnone.
  rewrite foldl_fixed; [reflexivity|].
  eapply Forall_impl; [exact Hnames|]. cbn. intros f Hf.
  unfold candidate_step.
  destruct (starts_with f (substr_from pos checkpoint)) eqn:Hstarts; [|reflexivity].
  exfalso. destruct (find_last_of_Some _ _ _ Hpos) as (c & rest & Hsub & Hc).
  unfold starts_with in Hstarts. rewrite Hsub in Hstarts.
  apply prefix_head in Hstarts as [f' ->].
  exact (find_last_of_head _ _ _ Hc Hf).
Qed.

Lemma strtol_digits_all (acc : Z) (digits : string) :
  forallb isdigit (list_ascii_of_string digits) = true ->
  (strtol_digits acc digits).2 = String.length digits.
Proof.
  revert acc. induction digits as [|c digits IH]; intros acc; cbn; [reflexivity|].
  intros Hall. apply andb_true_iff in Hall as [Hc Hrest]. rewrite Hc.
  specialize (IH (10 * acc + digit_value c)%Z Hrest).
  destruct (strtol_digits _ digits) as [v n]. cbn in IH |- *. congruence.
Qed.

(** [strtol] reads a string accepted by [isNumber] to its end. *)
Lemma strtol_isNumber (digits : string) :
  isNumber digits = true -> (strtol LONG_MAX digits).2 = String.length digits.
Proof.
  unfold isNumber, strtol. intros Hnum. apply andb_true_iff in Hnum as [_ Hall].
  pose proof (strtol_digits_all 0 digits Hall) as Hread.
  destruct (strtol_digits 0 digits) as [v n]. exact Hread.
Qed.

(** The body of the loop, by cases. *)
Lemma candidate_step_cases (fs : FS) (parent fileName : string) (st : Z * string)
    (f : string) :
  candidate_step LONG_MAX fs parent fileName st f
  = if is_candidate fs parent fileName f
       && (st.1 <? candidate_value LONG_MAX fileName f)%Z
    then (candidate_value LONG_MAX fileName f, parent +:+ "/" +:+ f)
    else st.
Proof.
  unfold candidate_step, is_candidate, candidate_value.
  destruct (starts_with f fileName); cbn; [|reflexivity].
  destruct (isNumber (substr_from (String.length fileName) f)) eqn:Hnum; cbn;
    [|reflexivity].
  destruct (fexists _ fs); cbn; [|reflexivity].
  pose proof (strtol_isNumber _ Hnum) as Hread.
  destruct (strtol LONG_MAX _) as [v tmp]. cbn in Hread |- *.
  rewrite Hread, Nat.eqb_refl. cbn. reflexivity.
Qed.

(** The loop over the entries keeps the entry with the largest value among
    the candidates whose value is above the one it started with. *)
Lemma candidate_fold_max (fs : FS) (parent fileName : string) (files : list string)
    (st : Z * string) :
  let r := foldl (candidate_step LONG_MAX fs parent fileName) st files in
  (r = st /\
   Forall (fun f => is_candidate fs parent fileName f = true ->
                    (candidate_value LONG_MAX fileName f <= st.1)%Z) files) \/
  (exists f : string,
     f ∈ files /\ is_candidate fs parent fileName f = true /\
     (st.1 < candidate_value LONG_MAX fileName f)%Z /\
     r = (candidate_value LONG_MAX fileName f, parent +:+ "/" +:+ f) /\
     Forall (fun g => is_candidate fs parent fileName g = true ->
                      (candidate_value LONG_MAX fileName g
                       <= candidate_value LONG_MAX fileName f)%Z) files).
Proof.
  revert st. induction files as [|f0 files IH]; intros st; cbn.
  { left. split; [reflexivity | constructor]. }
  rewrite candidate_step_cases.
  destruct (is_candidate fs parent fileName f0) eqn:Hcand; cbn.
  - destruct (Z.ltb_spec st.1 (candidate_value LONG_MAX fileName f0)) as [Hlt|Hge].
    + destruct (IH (candidate_value LONG_MAX fileName f0, parent +:+ "/" +:+ f0))
        as [[-> Hrest] | (f & Hin & Hf & Hbetter & -> & Hrest)]; cbn in *.
      * right. exists f0. split; [left|]. split; [exact Hcand|].
        split; [exact Hlt|]. split; [reflexivity|]. constructor; [lia | exact Hrest].
      * right. exists f. split; [right; exact Hin|]. split; [exact Hf|].
        split; [lia|]. split; [reflexivity|]. constructor; [lia | exact Hrest].
    + destruct (IH st) as [[-> Hrest] | (f & Hin & Hf & Hbetter & -> & Hrest)].
      * left. split; [reflexivity|]. constructor; [intros _; exact Hge | exact Hrest].
      * right. exists f. split; [right; exact Hin|]. split; [exact Hf|].
        split; [exact Hbetter|]. split; [reflexivity|].
        constructor; [intros _; lia | exact Hrest].
  - destruct (IH st) as [[-> Hrest] | (f & Hin & Hf & Hbetter & -> & Hrest)].
    + left. split; [reflexivity|]. constructor; [intros Habs; congruence | exact Hrest].
    + right. exists f. split; [right; exact Hin|]. split; [exact Hf|].
      split; [exact Hbetter|]. split; [reflexivity|].
      constructor; [intros Habs; congruence | exact Hrest].
Qed.

(** X20: without a file at the configured path the search goes through the
    entries of [parent]: it ends with no file when no candidate has a value of 0 or
    more, and else with a candidate of the largest value. *)
Lemma find_restore_file_numbered (checkpoint : string) (fs : FS) :
  fexists checkpoint fs = false ->
  let parent := (split_checkpoint checkpoint).1 in
  let fileName := (split_checkpoint checkpoint).2 in
  let files := get_all_files_from_directory parent fs in
  (find_restore_file LONG_MAX checkpoint fs = "" /\
   Forall (fun f => is_candidate fs parent fileName f = true ->
                    (candidate_value LONG_MAX fileName f < 0)%Z) files) \/
  (exists f : string,
     f ∈ files /\ is_candidate fs parent fileName f = true /\
     (0 <= candidate_value LONG_MAX fileName f)%Z /\
     find_restore_file LONG_MAX checkpoint fs = parent +:+ "/" +:+ f /\
     Forall (fun g => is_candidate fs parent fileName g = true ->
                      (candidate_value LONG_MAX fileName g
                       <= candidate_value LONG_MAX fileName f)%Z) files).
Proof.
  intros Hnone. unfold find_restore_file.
  destruct (split_checkpoint checkpoint) as [parent fileName]. cbn. rewrite Hnone.
  destruct (candidate_fold_max fs parent fileName
              (get_all_files_from_directory parent fs) ((-1)%Z, ""))
    as [[-> Hrest] | (f & Hin & Hf & Hbetter & -> & Hrest)]; cbn in *.
  - left. split; [reflexivity|]. eapply Forall_impl; [exact Hrest|].
    cbn. intros f Hf Hcand. specialize (Hf Hcand). lia.
  - right. exists f. split; [exact Hin|]. split; [exact Hf|]. split; [lia|].
    split; [reflexivity | exact Hrest].
Qed.

(** For a number below [2^31] the value compared is the number itself. *)
Lemma long_to_int_small (v : Z) :
  (0 <= v < 2 ^ 31)%Z -> (2 ^ 31 - 1 <= LONG_MAX)%Z ->
  long_to_int (Z.min v LONG_MAX) = v.
Proof.
  intros Hv Hmax. unfold long_to_int. rewrite Z.min_l by lia.
  rewrite Z.mod_small by lia. lia.
Qed.

End Properties.

(** * Further properties *)

Section MoreProperties.
Context {Var Stream : Type} `{Countable Var} `{Countable Stream}.
Context {Value MinibatchData Checkpoint double : Type}.
Context {Source Trainer FS User ProgressWriter : Type}.
Context `{!DoubleOps double} `{!BatchOps Value MinibatchData}.
Context `{!SourceOps Source Stream MinibatchData Checkpoint}.
Context `{!TrainerOps Trainer Var Value Checkpoint double FS ProgressWriter}.
Context `{!FileOps FS} `{!HookOps User double}.
Context (LONG_MAX : Z).

Abbreviation Config' := (@SessionConfig Var Stream _ _ ProgressWriter).
Abbreviation Session' := (@TrainingSession Var Stream _ _ Source Trainer FS User ProgressWriter).
Abbreviation Builder' := (@BuilderCall ProgressWriter).

Ltac bind_ok' H :=
  let x := fresh "x" in
  let Hx := fresh "Hx" in
  apply result_bind_Ok in H; destruct H as (x & Hx & H).

(** ** Building a configuration *)

Instance ActionKind_eq_dec : EqDecision ActionKind.
Proof. solve_decision. Defined.

(** A builder call that succeeds finds its flag down, raises it, and leaves
    the other two flags and the required members alone. *)
Lemma apply_builder_Ok (b : Builder') (c c' : Config') :
  apply_builder b c = Ok c' ->
  with_flag (builder_kind b) c = false /\
  with_flag (builder_kind b) c' = true /\
  (forall k : ActionKind, k <> builder_kind b -> with_flag k c' = with_flag k c) /\
  m_maxNumTrainingSamples c' = m_maxNumTrainingSamples c /\
  m_inputVarToStream c' = m_inputVarToStream c /\
  m_mbSizeSchedule c' = m_mbSizeSchedule c.
Proof.
  destruct b as [name freq restore preserve | schedule freq | writers freq]; cbn.
  - unfold Checkpointing. destruct (m_withCheckpointing c) eqn:Hflag; [discriminate|].
    intros Hrun. bind_ok' Hrun. injection Hrun as <-. cbn.
    split; [reflexivity|]. split; [reflexivity|].
    split; [intros [] Hk; congruence || reflexivity | auto].
  - unfold CrossValidation. destruct (m_withCrossValidation c) eqn:Hflag; [discriminate|].
    intros [= <-]. cbn. split; [reflexivity|]. split; [reflexivity|].
    split; [intros [] Hk; congruence || reflexivity | auto].
  - unfold ProgressPrinting. destruct (m_withProgressPrinting c) eqn:Hflag; [discriminate|].
    intros [= <-]. cbn. split; [reflexivity|]. split; [reflexivity|].
    split; [intros [] Hk; congruence || reflexivity | auto].
Qed.

Lemma apply_builders_flags (bs : list Builder') (c c' : Config') :
  apply_builders bs c = Ok c' ->
  NoDup (map builder_kind bs) /\
  (forall k : ActionKind, with_flag k c = true -> k ∉ map builder_kind bs) /\
  (forall k : ActionKind,
     with_flag k c' = true <-> with_flag k c = true \/ k ∈ map builder_kind bs).
Proof.
  revert c. induction bs as [|b bs IH]; intros c Hrun; cbn in Hrun.
  { injection Hrun as <-. cbn. split; [constructor|].
    split; [intros k _ Hin; inversion Hin|].
    intros k. split; [auto|]. intros [Hk | Hin]; [exact Hk | inversion Hin]. }
  bind_ok' Hrun. apply apply_builder_Ok in Hx as (Hdown & Hup & Hothers & _).
  destruct (IH _ Hrun) as (Hnodup & Hset & Hflags). cbn.
  split; [|split].
  - constructor; [|exact Hnodup]. apply Hset, Hup.
  - intros k Hk Hin. apply elem_of_cons in Hin as [-> | Hin].
    + congruence.
    + apply (Hset k); [|exact Hin].
      destruct (decide (k = builder_kind b)) as [-> | Hne]; [exact Hup|].
      rewrite Hothers by exact Hne. exact Hk.
  - intros k. rewrite Hflags, elem_of_cons.
    destruct (decide (k = builder_kind b)) as [-> | Hne].
    + split; [auto|]. intros _. left. exact Hup.
    + rewrite Hothers by exact Hne. split.
      * intros [Hk | Hin]; auto.
      * intros [Hk | [Heq | Hin]]; [auto | contradiction | auto].
Qed.

(** X1: in a chain of builder calls that succeeds no builder appears twice,
    and none appears whose flag was already set before the chain; at the end
    the flags that are set are those set before and those of the builders
    called. *)
Theorem builders_at_most_once (bs : list Builder') (c c' : Config') :
  apply_builders bs c = Ok c' ->
  NoDup (map builder_kind bs) /\
  (length bs <= 3)%nat /\
  (forall k : ActionKind, with_flag k c = true -> k ∉ map builder_kind bs) /\
  (forall k : ActionKind,
     with_flag k c' = true <-> with_flag k c = true \/ k ∈ map builder_kind bs).
Proof.
  intros Hrun. destruct (apply_builders_flags _ _ _ Hrun) as (Hnodup & Hset & Hflags).
  split; [exact Hnodup|]. split; [|split; [exact Hset | exact Hflags]].
  assert (map builder_kind bs ⊆+ [CheckpointAction; CrossValidationAction; ProgressAction])
    as Hsub.
  { apply NoDup_submseteq; [exact Hnodup|]. intros [] _; rewrite !elem_of_cons; auto. }
  apply submseteq_length in Hsub. rewrite length_map in Hsub. exact Hsub.
Qed.

(** X2: a second call of a builder raises a runtime error, whatever its
    arguments and whatever other builders were called in between. *)
Theorem builder_second_call_raises (b b' : Builder') (bs : list Builder')
    (c c1 c2 : Config') :
  apply_builder b c = Ok c1 ->
  apply_builders bs c1 = Ok c2 ->
  builder_kind b' = builder_kind b ->
  exists msg : string, apply_builder b' c2 = Err (RuntimeError msg).
Proof.
  intros Hfirst Hchain Hkind.
  apply apply_builder_Ok in Hfirst as (_ & Hup & _).
  assert (with_flag (builder_kind b') c2 = true) as Hflag.
  { rewrite Hkind. apply (apply_builders_flags _ _ _ Hchain). left. exact Hup. }
  destruct b' as [name freq restore preserve | schedule freq | writers freq];
    cbn in Hflag |- *.
  - unfold Checkpointing. rewrite Hflag. eauto.
  - unfold CrossValidation. rewrite Hflag. eauto.
  - unfold ProgressPrinting. rewrite Hflag. eauto.
Qed.

(** X3: the constructor of [SessionConfig] succeeds exactly when the training
    source is not null, the number of samples is not zero and the mapping is
    not empty; the configuration it builds has none of its optional parts
    set, an empty checkpoint file name, and the training schedule as
    cross-validation schedule. *)
Theorem new_SessionConfig_Ok (header : HeaderMembers) (trainingSource : option Source)
    (schedule : MinibatchSizeSchedule) (inputVarToStream : gmap Var Stream)
    (maxNumTrainingSamples : N) :
  (forall (c : Config') (source : Source),
     new_SessionConfig header trainingSource schedule inputVarToStream
       maxNumTrainingSamples = Ok (c, source) ->
     trainingSource = Some source /\ maxNumTrainingSamples <> 0 /\
     inputVarToStream <> ∅ /\
     (forall k : ActionKind, with_flag k c = false) /\
     m_checkPointFileName c = "" /\
     m_maxNumTrainingSamples c = maxNumTrainingSamples /\
     m_inputVarToStream c = inputVarToStream /\
     m_mbSizeSchedule c = schedule /\ m_crossValidationSchedule c = schedule) /\
  (forall source : Source,
     trainingSource = Some source -> maxNumTrainingSamples <> 0 ->
     inputVarToStream <> ∅ ->
     exists c : Config',
       new_SessionConfig header trainingSource schedule inputVarToStream
         maxNumTrainingSamples = Ok (c, source)).
Proof.
  unfold new_SessionConfig. split.
  - intros c source. destruct trainingSource as [src|]; [|discriminate].
    destruct (N.eqb_spec maxNumTrainingSamples 0) as [|Hmax]; [discriminate|].
    destruct (decide (size inputVarToStream = 0%nat)) as [Hempty|Hsome].
    { rewrite (bool_decide_eq_true_2 _ Hempty). discriminate. }
    rewrite (bool_decide_eq_false_2 _ Hsome). intros [= <- <-]. cbn.
    rewrite map_size_empty_iff in Hsome.
    split; [reflexivity|]. split; [exact Hmax|]. split; [exact Hsome|].
    split; [intros []; reflexivity | auto 10].
  - intros source -> Hmax Hsome. apply N.eqb_neq in Hmax. rewrite Hmax.
    rewrite bool_decide_eq_false_2 by (rewrite map_size_empty_iff; exact Hsome).
    eauto.
Qed.

(** The required members go through a chain of builder calls unchanged. *)
Lemma apply_builders_required (bs : list Builder') (c c' : Config') :
  apply_builders bs c = Ok c' ->
  m_maxNumTrainingSamples c' = m_maxNumTrainingSamples c /\
  m_inputVarToStream c' = m_inputVarToStream c /\
  m_mbSizeSchedule c' = m_mbSizeSchedule c.
Proof.
  revert c. induction bs as [|b bs IH]; intros c Hrun; cbn in Hrun.
  { injection Hrun as <-. auto. }
  bind_ok' Hrun. apply apply_builder_Ok in Hx as (_ & _ & _ & Hmax & Hmap & Hsched).
  destruct (IH _ Hrun) as (-> & -> & ->). auto.
Qed.

(** X4: two builder calls for different parts of the configuration can be
    made in either order: when one order succeeds so does the other, with the
    same configuration. *)
Theorem builders_commute (b1 b2 : Builder') (c c1 c2 : Config') :
  builder_kind b1 <> builder_kind b2 ->
  apply_builder b1 c = Ok c1 ->
  apply_builder b2 c1 = Ok c2 ->
  exists c1' : Config', apply_builder b2 c = Ok c1' /\ apply_builder b1 c1' = Ok c2.
Proof.
  intros Hkinds. revert c1 c2.
  destruct b1 as [n1 f1 r1 p1 | s1 f1 | w1 f1], b2 as [n2 f2 r2 p2 | s2 f2 | w2 f2];
    cbn in Hkinds |- *; try congruence; clear Hkinds;
    unfold Checkpointing, CrossValidation, ProgressPrinting;
    destruct (m_withCheckpointing c), (m_withCrossValidation c),
      (m_withProgressPrinting c);
    cbn; try (intros; discriminate);
    try match goal with
    | |- context [if String.eqb ?n "" then ?a else ?b] =>
        destruct (if String.eqb n "" then a else b) as [x|e]; cbn;
        [|intros; discriminate]
    end;
    intros c1 c2 [= <-]; cbn;
    try match goal with
    | |- context [if String.eqb ?n "" then ?a else ?b] =>
        destruct (if String.eqb n "" then a else b) as [x|e]; cbn;
        [|intros; discriminate]
    end;
    intros [= <-]; eexists; split; reflexivity.
Qed.

(** ** Building a session *)

Lemma required_actions_kinds (c : Config') :
  map action (required_actions c)
  = List.filter
      (fun k => with_flag k c && negb (configured_frequency k c =? 0))
      [CheckpointAction; CrossValidationAction; ProgressAction] /\
  Forall (fun a => frequency a = configured_frequency (action a) c /\
                   currentIndex a = 0 /\ sampleCountWhenLastCalled a = 0)
    (required_actions c).
Proof.
  unfold required_actions. cbn.
  destruct (m_withCheckpointing c && negb (m_checkpointFrequencyInSamples c =? 0));
    destruct (m_withCrossValidation c
              && negb (m_crossValidationFrequencyInSamples c =? 0));
    destruct (m_withProgressPrinting c && negb (m_progressFrequencyInSamples c =? 0));
    cbn; (split; [reflexivity|]); repeat constructor.
Qed.

(** X5: the constructor of [TrainingSession] raises invalid-argument for a
    null trainer.  Otherwise the session holds the configuration and the
    objects it was given, and its actions are, in the order checkpoint,
    cross validation, progress, one for each part of the configuration that
    is set with a frequency other than zero; each starts with that frequency,
    index 0 and sample count 0. *)
Theorem new_TrainingSession_actions (trainer : option Trainer) (config : Config')
    (mbSource : Source) (crossValidationSource : option Source) (fs : FS) (u : User) :
  (trainer = None ->
   new_TrainingSession trainer config mbSource crossValidationSource fs u
   = Err (InvalidArgument "Trainer is not allowed to be null.")) /\
  (forall s : Session',
     new_TrainingSession trainer config mbSource crossValidationSource fs u = Ok s ->
     m_config s = config /\ m_mbSource s = mbSource /\
     m_crossValidationSource s = crossValidationSource /\
     files s = fs /\ user s = u /\
     map action (m_actions s)
     = List.filter
         (fun k => with_flag k config && negb (configured_frequency k config =? 0))
         [CheckpointAction; CrossValidationAction; ProgressAction] /\
     Forall (fun a => frequency a = configured_frequency (action a) config /\
                      currentIndex a = 0 /\ sampleCountWhenLastCalled a = 0)
       (m_actions s)).
Proof.
  split.
  - intros ->. reflexivity.
  - intros s. unfold new_TrainingSession. destruct trainer as [t|]; [|discriminate].
    destruct (foldl learner_step _ _) as [[after rank] workers].
    intros [= <-]. cbn. repeat (split; [reflexivity|]).
    apply required_actions_kinds.
Qed.

(** The loop over the learners, from any start. *)
Lemma learners_fold (ls : list Learner) (acc : N * N * N) :
  let r := foldl learner_step acc ls in
  acc.1.1 <= r.1.1 /\
  (forall after rank workers : N,
     DistributedLearner after rank workers ∈ ls -> after <= r.1.1) /\
  (r.1.1 = acc.1.1 \/
   exists rank workers : N, DistributedLearner r.1.1 rank workers ∈ ls) /\
  (Forall (fun l => l = LocalLearner) ls -> r = acc).
Proof.
  revert acc. induction ls as [|l ls IH]; intros acc; cbn.
  { split; [lia|]. split; [intros ? ? ? Hin; inversion Hin|]. auto. }
  destruct (IH (learner_step acc l)) as (Hle & Hall & Hsome & Hlocal).
  destruct l as [|after0 rank0 workers0]; cbn in *.
  - split; [exact Hle|]. split; [|split].
    + intros after rank workers Hin. apply elem_of_cons in Hin as [Habs | Hin];
        [discriminate | eauto].
    + destruct Hsome as [Heq | (rank & workers & Hin)]; [auto|].
      right. exists rank, workers. right. exact Hin.
    + intros Hls. apply Forall_cons in Hls as [_ Hls]. auto.
  - destruct acc as [[after1 rank1] workers1]. cbn in *.
    split; [lia|]. split; [|split].
    + intros after rank workers Hin. apply elem_of_cons in Hin as [[= -> -> ->] | Hin];
        [lia | eauto].
    + destruct Hsome as [Heq | (rank & workers & Hin)].
      * destruct (N.max_spec after1 after0) as [[_ Hmax] | [_ Hmax]].
        -- right. exists rank0, workers0. rewrite Heq, Hmax. left.
        -- left. rewrite Heq. exact Hmax.
      * right. exists rank, workers. right. exact Hin.
    + intros Hls. apply Forall_cons in Hls as [Habs _]. discriminate.
Qed.

(** X6: in the session the constructor builds, the warm-up threshold is the
    largest [ParallelizationAfter] of the distributed learners of the trainer
    (0 when there is none), and rank and worker count are those of the last
    distributed learner (0 and 1 when there is none). *)
Theorem new_TrainingSession_learners (t : Trainer) (config : Config')
    (mbSource : Source) (crossValidationSource : option Source) (fs : FS) (u : User)
    (s : Session') :
  new_TrainingSession (Some t) config mbSource crossValidationSource fs u = Ok s ->
  (forall after rank workers : N,
     DistributedLearner after rank workers ∈ ParameterLearners t ->
     after <= m_parallelAfterSamples s) /\
  (m_parallelAfterSamples s = 0 \/
   exists rank workers : N,
     DistributedLearner (m_parallelAfterSamples s) rank workers ∈ ParameterLearners t) /\
  (Forall (fun l => l = LocalLearner) (ParameterLearners t) ->
   m_parallelAfterSamples s = 0 /\ m_workerRank s = 0 /\ m_numberOfWorkers s = 1) /\
  (forall (before rest : list Learner) (after rank workers : N),
     ParameterLearners t = (before ++ DistributedLearner after rank workers :: rest)%list ->
     Forall (fun l => l = LocalLearner) rest ->
     m_workerRank s = rank /\ m_numberOfWorkers s = workers).
Proof.
  unfold new_TrainingSession.
  pose proof (learners_fold (ParameterLearners t) (0, 0, 1)) as Hfold.
  destruct (foldl learner_step (0, 0, 1) (ParameterLearners t))
    as [[after0 rank0] workers0] eqn:Hrun.
  cbn in Hfold. destruct Hfold as (_ & Hall & Hsome & Hlocal).
  intros [= <-]. cbn. split; [exact Hall|]. split; [exact Hsome|]. split.
  - intros Hls. specialize (Hlocal Hls). injection Hlocal as -> -> ->. auto.
  - intros before rest after rank workers Hlearners Hrest.
    rewrite Hlearners, foldl_app in Hrun. cbn in Hrun.
    destruct (learners_fold rest
                (learner_step (foldl learner_step (0, 0, 1) before)
                   (DistributedLearner after rank workers))) as (_ & _ & _ & Hkeep).
    cbn in Hkeep. rewrite (Hkeep Hrest) in Hrun.
    destruct (foldl learner_step (0, 0, 1) before) as [[a1 r1] w1].
    cbn in Hrun. injection Hrun as _ <- <-. auto.
Qed.

(** X7: the constructor with fourteen arguments overwrites every member the
    constructor of [SessionConfig] leaves to the header, so what it returns
    does not depend on them; and in the session it builds all three parts of
    the configuration are set. *)
Theorem new_TrainingSession_basic_header (h1 h2 : HeaderMembers)
    (trainingSource : option Source) (trainer : option Trainer)
    (inputs : gmap Var Stream) (schedule : MinibatchSizeSchedule)
    (checkpointFrequency : N) (checkPointFileName : string)
    (crossValidationSource : option Source)
    (crossValidationSchedule : MinibatchSizeSchedule) (crossValidationFrequency : N)
    (restore saveAll : bool) (maxNumberOfSamples progressFrequency : N)
    (progressWriters : list ProgressWriter) (fs : FS) (u : User) :
  new_TrainingSession_basic h1 trainingSource trainer inputs schedule
    checkpointFrequency checkPointFileName crossValidationSource
    crossValidationSchedule crossValidationFrequency restore saveAll
    maxNumberOfSamples progressFrequency progressWriters fs u
  = new_TrainingSession_basic h2 trainingSource trainer inputs schedule
      checkpointFrequency checkPointFileName crossValidationSource
      crossValidationSchedule crossValidationFrequency restore saveAll
      maxNumberOfSamples progressFrequency progressWriters fs u /\
  forall s : Session',
    new_TrainingSession_basic h1 trainingSource trainer inputs schedule
      checkpointFrequency checkPointFileName crossValidationSource
      crossValidationSchedule crossValidationFrequency restore saveAll
      maxNumberOfSamples progressFrequency progressWriters fs u = Ok s ->
    (forall k : ActionKind, with_flag k (m_config s) = true) /\
    m_checkpointFrequencyInSamples (m_config s)
    = (if String.eqb checkPointFileName "" then 0 else checkpointFrequency) /\
    m_crossValidationFrequencyInSamples (m_config s) = crossValidationFrequency /\
    m_progressFrequencyInSamples (m_config s) = progressFrequency.
Proof.
  unfold new_TrainingSession_basic, new_SessionConfig.
  destruct trainingSource as [source|]; cbn; [|split; [reflexivity | discriminate]].
  destruct (maxNumberOfSamples =? 0); cbn; [split; [reflexivity | discriminate]|].
  destruct (bool_decide (size inputs = 0%nat)); cbn;
    [split; [reflexivity | discriminate]|].
  unfold Checkpointing. cbn.
  destruct (String.eqb checkPointFileName "") eqn:Hname.
  - destruct (negb (checkpointFrequency =? 0) && negb (checkpointFrequency =? SIZE_MAX));
      cbn; [split; [reflexivity | discriminate]|].
    destruct saveAll; cbn; [split; [reflexivity | discriminate]|].
    split; [reflexivity|]. intros s Hrun.
    unfold new_TrainingSession in Hrun. destruct trainer as [t|]; [|discriminate].
    destruct (foldl learner_step _ _) as [[after rank] workers].
    injection Hrun as <-. cbn. split; [intros []; reflexivity | auto].
  - cbn. split; [reflexivity|]. intros s Hrun.
    unfold new_TrainingSession in Hrun. destruct trainer as [t|]; [|discriminate].
    destruct (foldl learner_step _ _) as [[after rank] workers].
    injection Hrun as <-. cbn. split; [intros []; reflexivity | auto].
Qed.

(** ** Fetching *)

(** What [GetNextMinibatch] returns for a model input when the source
    returned something. *)
Lemma GetNextMinibatch_lookup (inputs : gmap Var Stream) (source : Source)
    (mbSize workerRank numberOfWorkers : N) (v : Var) :
  mbSize <> 0 ->
  (Source_GetNextMinibatch 0 mbSize numberOfWorkers workerRank source).1 <> ∅ ->
  (GetNextMinibatch inputs source mbSize workerRank numberOfWorkers).1 !! v
  = stream_data (Source_GetNextMinibatch 0 mbSize numberOfWorkers workerRank source).1
      <$> inputs !! v.
Proof.
  intros Hsize Hfetched. unfold GetNextMinibatch.
  apply N.eqb_neq in Hsize. rewrite Hsize.
  destruct (Source_GetNextMinibatch 0 mbSize numberOfWorkers workerRank source)
    as [md source']. cbn in Hfetched |- *.
  rewrite bool_decide_eq_false_2 by (rewrite map_size_empty_iff; exact Hfetched).
  cbn. rewrite (remap_fold_lookup _ _ md md v) by reflexivity.
  rewrite lookup_empty, list_to_map_to_list. reflexivity.
Qed.

(** X8: [GetNextMinibatch] asked for 0 samples returns the empty minibatch
    without calling the source.  Asked for more, it leaves the source as the
    call of the source leaves it, and its minibatch has exactly the model
    inputs of the mapping as keys unless the source returned nothing.  So the
    minibatch is empty exactly when 0 samples were asked for, the source
    returned nothing, or the mapping is empty. *)
Theorem GetNextMinibatch_empty (inputs : gmap Var Stream) (source : Source)
    (mbSize workerRank numberOfWorkers : N) :
  let fetch := Source_GetNextMinibatch 0 mbSize numberOfWorkers workerRank source in
  let r := GetNextMinibatch inputs source mbSize workerRank numberOfWorkers in
  (mbSize = 0 -> r = (∅, source)) /\
  (mbSize <> 0 -> r.2 = fetch.2) /\
  (mbSize <> 0 -> fetch.1 <> ∅ -> dom r.1 = dom inputs) /\
  (r.1 = ∅ <-> mbSize = 0 \/ fetch.1 = ∅ \/ inputs = ∅).
Proof.
  cbn zeta.
  pose proof (GetNextMinibatch_lookup inputs source mbSize workerRank numberOfWorkers)
    as Hlookup.
  unfold GetNextMinibatch in *.
  destruct (N.eqb_spec mbSize 0) as [Hzero|Hsize].
  { split; [reflexivity|]. split; [contradiction|]. split; [contradiction|].
    cbn. split; auto. }
  destruct (Source_GetNextMinibatch 0 mbSize numberOfWorkers workerRank source)
    as [md source']. cbn in Hlookup |- *.
  destruct (decide (size md = 0%nat)) as [Hempty|Hsome].
  - rewrite (bool_decide_eq_true_2 _ Hempty) in *. cbn.
    rewrite map_size_empty_iff in Hempty.
    split; [contradiction|]. split; [reflexivity|]. split; [contradiction|].
    split; auto.
  - rewrite (bool_decide_eq_false_2 _ Hsome) in *. cbn in *.
    rewrite map_size_empty_iff in Hsome.
    split; [contradiction|]. split; [reflexivity|]. split.
    + intros _ _. apply set_eq. intros v. rewrite !elem_of_dom.
      rewrite (Hlookup v Hsize Hsome). unfold is_Some.
      destruct (inputs !! v); cbn; split; intros [x Hx]; eauto; discriminate.
    + split.
      * intros Hnone. right. right. apply map_empty. intros v.
        pose proof (Hlookup v Hsize Hsome) as Hv. rewrite Hnone, lookup_empty in Hv.
        destruct (inputs !! v); [discriminate | reflexivity].
      * intros [Hzero | [Hmd | Hinputs]]; [contradiction | contradiction |].
        apply map_empty. intros v. rewrite (Hlookup v Hsize Hsome), Hinputs.
        rewrite lookup_empty. reflexivity.
Qed.

(** With a budget of 0 samples [GetTrainingMinibatch] returns the empty
    minibatch and leaves the whole session, the training source included, as
    it was, whatever size the schedule gives. *)
Lemma GetTrainingMinibatch_no_budget (s : Session') :
  GetTrainingMinibatch 0 s = (∅, s).
Proof.
  unfold GetTrainingMinibatch. destruct (training_shard s) as [rank workers].
  rewrite N.min_0_r. unfold GetNextMinibatch. cbn. destruct s. reflexivity.
Qed.

(** ** Cross validation *)

(** X10: when the first fetch from the cross-validation source gives an
    empty minibatch, the pass tests nothing and reports 0 samples, 0
    minibatches, and as average error the quotient of zero by zero samples;
    the source goes through snapshot and restore all the same. *)
Theorem CrossValidate_pass_no_samples (fuel : nat) (source : Source) (s : Session') :
  (GetCrossValidationMinibatch (m_config s)
     (m_crossValidationSchedule (m_config s) 0) source).1 = ∅ ->
  CrossValidate_pass (S fuel) source s
  = Ok ((d_div d_zero (d_of_size_t 0), 0, 0),
        set_trainer (SummarizeTestProgress (m_trainer s))
          (set_crossValidationSource
             (Some (Source_RestoreFromCheckpoint (Source_GetCheckpointState source)
                      (GetCrossValidationMinibatch (m_config s)
                         (m_crossValidationSchedule (m_config s) 0) source).2))
             s)).
Proof.
  intros Hempty. unfold CrossValidate_pass. cbn.
  destruct (GetCrossValidationMinibatch _ _ source) as [mb source'].
  cbn in Hempty. subst mb.
  rewrite bool_decide_eq_true_2 by apply map_size_empty. reflexivity.
Qed.

Lemma CrossValidate_pass_frame (fuel : nat) (source : Source) (s s' : Session')
    (r : CVReport) :
  CrossValidate_pass fuel source s = Ok (r, s') ->
  m_mbSource s' = m_mbSource s /\ files s' = files s /\ user s' = user s /\
  same_settings s s'.
Proof.
  unfold CrossValidate_pass. intros Hrun. bind_ok' Hrun.
  destruct x as [[source' t'] st]. injection Hrun as _ <-.
  unfold same_settings. cbn. auto 10.
Qed.


(** ** What a call of [Train] leaves alone *)

Lemma same_settings_refl (s : Session') : same_settings s s.
Proof. unfold same_settings. auto. Qed.

Lemma same_settings_trans (s1 s2 s3 : Session') :
  same_settings s1 s2 -> same_settings s2 s3 -> same_settings s1 s3.
Proof.
  unfold same_settings. intros (-> & -> & -> & ->) (-> & -> & -> & ->). auto.
Qed.

Lemma SaveCheckpoint_settings (index : N) (s : Session') :
  same_settings s (SaveCheckpoint index s).
Proof.
  unfold SaveCheckpoint, same_settings. cbn.
  destruct (Trainer_SaveCheckpoint _ _ _ _). cbn. auto.
Qed.

Lemma run_action_settings (cvFuel : nat) (k : ActionKind) (index : N)
    (s s' : Session') (b : bool) :
  run_action cvFuel k index s = Ok (b, s') -> same_settings s s'.
Proof.
  destruct k; cbn.
  - intros [= _ <-]. apply SaveCheckpoint_settings.
  - intros Hrun. unfold CrossValidate in Hrun.
    destruct (m_crossValidationSource s) as [source|].
    + bind_ok' Hrun. destruct x as [[[err n] k] s1].
      destruct (OnCrossValidationEnd _ _ _ _ _) as [b' u]. injection Hrun as _ <-.
      apply CrossValidate_pass_frame in Hx as (_ & _ & _ & Hsettings).
      unfold same_settings in *. cbn. exact Hsettings.
    + destruct (OnCrossValidationEnd _ _ _ _ _) as [b' u]. injection Hrun as _ <-.
      unfold same_settings. cbn. auto.
  - intros [= _ <-]. unfold same_settings. cbn. auto.
Qed.

Lemma perform_actions_settings (cvFuel : nat) (total : N)
    (acts acts' : list PeriodicAction) (calls : list (option (N * bool)))
    (ee ee' : bool) (s s' : Session') :
  perform_actions cvFuel total acts ee s = Ok (acts', calls, ee', s') ->
  same_settings s s'.
Proof.
  revert acts' calls ee ee' s s'.
  induction acts as [|a rest IH]; intros acts' calls ee ee' s s' Hrun; cbn in Hrun.
  { injection Hrun as _ _ _ <-. apply same_settings_refl. }
  bind_ok' Hrun. destruct x as [[[a1 call1] ee1] s1].
  bind_ok' Hrun. destruct x as [[[rest' calls'] ee2] s2].
  injection Hrun as _ _ _ <-.
  eapply same_settings_trans; [|eapply IH, Hx0].
  apply perform_action_Ok in Hx as [_ [(_ & _ & _ & _ & ->) | (_ & _ & b & Hb & _)]].
  - apply same_settings_refl.
  - eapply run_action_settings, Hb.
Qed.

Lemma final_actions_settings (cvFuel : nat) (acts : list PeriodicAction)
    (s s' : Session') (calls : list (option N)) :
  final_actions cvFuel acts s = Ok (calls, s') -> same_settings s s'.
Proof.
  revert s s' calls. induction acts as [|a rest IH]; intros s s' calls Hrun;
    cbn in Hrun.
  { injection Hrun as _ <-. apply same_settings_refl. }
  bind_ok' Hrun. bind_ok' Hrun. destruct x0 as [call s1].
  bind_ok' Hrun. destruct x0 as [calls' s2]. injection Hrun as _ <-.
  eapply same_settings_trans; [|eapply IH, Hx1].
  destruct (negb (x =? 0) && negb (_ =? _)).
  - bind_ok' Hx0. destruct x0 as [b s3]. injection Hx0 as _ <-.
    eapply run_action_settings, Hx2.
  - injection Hx0 as _ <-. apply same_settings_refl.
Qed.

Lemma RestoreFromCheckpoint_settings (s s' : Session') :
  RestoreFromCheckpoint LONG_MAX s = Ok s' -> same_settings s s'.
Proof.
  unfold RestoreFromCheckpoint. cbn. destruct (String.eqb _ "").
  - intros [= <-]. unfold same_settings. cbn. auto.
  - intros Hrun. bind_ok' Hrun. bind_ok' Hrun. injection Hrun as <-.
    unfold RestoreFromCheckpoint_file in Hx. bind_ok' Hx. destruct x1 as [ext t].
    destruct (ext !! s_trainingMinibatchSource); [|discriminate].
    injection Hx as <-. unfold same_settings. cbn. auto.
Qed.

(** A run of the loop keeps the settings, has at least one round, and gives
    no round a budget above the configured number of samples. *)
Lemma train_loop_settings (fuel cvFuel : nat) (ee : bool) (s s' : Session')
    (its : list Iteration) :
  train_loop fuel cvFuel ee s = Ok (its, s') ->
  same_settings s s' /\ its <> [] /\
  Forall (fun it => it_samplesLeft it <= m_maxNumTrainingSamples (m_config s)) its.
Proof.
  revert ee s s' its. induction fuel as [|fuel IH]; intros ee s s' its Hrun;
    cbn in Hrun; [discriminate|].
  set (budget := if ee || (m_maxNumTrainingSamples (m_config s)
                           <=? TotalNumberOfSamplesSeen (m_trainer s))
                 then 0
                 else m_maxNumTrainingSamples (m_config s)
                      - TotalNumberOfSamplesSeen (m_trainer s)) in *.
  assert (budget <= m_maxNumTrainingSamples (m_config s)) as Hbudget.
  { subst budget. destruct (ee || _); lia. }
  assert (same_settings s (GetTrainingMinibatch budget s).2) as Hfetch.
  { unfold GetTrainingMinibatch. destruct (training_shard s) as [rank workers].
    destruct (GetNextMinibatch _ _ _ _ _). unfold same_settings. cbn. auto. }
  destruct (GetTrainingMinibatch budget s) as [minibatch s1]. cbn in Hfetch.
  destruct (TrainMinibatch minibatch _) as [shouldTrain t]. cbn in Hrun.
  bind_ok' Hrun. destruct x as [[[acts calls] ee1] s5].
  apply perform_actions_settings in Hx.
  assert (same_settings s (set_actions acts s5)) as Hround.
  { eapply same_settings_trans; [exact Hfetch|].
    unfold same_settings in *. cbn in *. exact Hx. }
  destruct shouldTrain.
  - bind_ok' Hrun. destruct x as [its' s7]. injection Hrun as <- <-.
    destruct (IH _ _ _ _ Hx0) as (Hrest & _ & Hbudgets).
    split; [eapply same_settings_trans; [exact Hround | exact Hrest]|].
    split; [discriminate|]. constructor; [exact Hbudget|].
    destruct Hround as (<- & _). exact Hbudgets.
  - injection Hrun as <- <-. split; [exact Hround|]. split; [discriminate|].
    constructor; [exact Hbudget | constructor].
Qed.

(** X12: a call of [Train] that returns leaves the configuration and the
    parameters of distributed training as they were.  It goes through the
    loop at least once unless the configured number of samples is 0, in which
    case it does not enter it, and no round fetches with a budget above the
    configured number of samples. *)
Theorem Train_settings (fuel cvFuel : nat) (s s' : Session') (log : TrainLog) :
  Train LONG_MAX fuel cvFuel s = Ok (log, s') ->
  same_settings s s' /\
  (iterations log = [] <-> m_maxNumTrainingSamples (m_config s) = 0) /\
  Forall (fun it => it_samplesLeft it <= m_maxNumTrainingSamples (m_config s))
    (iterations log).
Proof.
  unfold Train. intros Hrun.
  bind_ok' Hrun. destruct x as [restored s1].
  bind_ok' Hrun. destruct x as [its s2].
  bind_ok' Hrun. destruct x as [calls s3]. injection Hrun as <- <-. cbn.
  assert (same_settings s s1) as H1.
  { destruct (m_restoreFromCheckpointIfExists (m_config s) && _).
    - bind_ok' Hx. injection Hx as _ <-. eapply RestoreFromCheckpoint_settings, Hx2.
    - injection Hx as _ <-. apply same_settings_refl. }
  assert (same_settings s1 s2 /\
          (its = [] <-> m_maxNumTrainingSamples (m_config s) = 0) /\
          Forall (fun it => it_samplesLeft it <= m_maxNumTrainingSamples (m_config s))
            its) as (H2 & Hrounds & Hbudgets).
  { destruct (N.ltb_spec 0 (m_maxNumTrainingSamples (m_config s))) as [Hpos|Hzero].
    - apply train_loop_settings in Hx0 as (H2 & Hsome & Hbudgets).
      split; [exact H2|]. split; [split; [contradiction | lia]|].
      destruct H1 as (<- & _). exact Hbudgets.
    - injection Hx0 as <- <-. split; [apply same_settings_refl|].
      split; [split; [lia | reflexivity] | constructor]. }
  assert (same_settings s2 s3) as H3.
  { destruct (negb (restored =? _)).
    - eapply final_actions_settings, Hx1.
    - injection Hx1 as _ <-. apply same_settings_refl. }
  split; [|split; [exact Hrounds | exact Hbudgets]].
  eapply same_settings_trans; [exact H1|]. eapply same_settings_trans; [exact H2|].
  eapply same_settings_trans; [exact H3|].
  destruct (_ && _ && negb _); [|apply same_settings_refl].
  unfold SaveFinalCheckpoint, same_settings.
  destruct (Trainer_SaveCheckpoint _ _ _ _). cbn. auto.
Qed.

(** ** After a request to stop *)

Lemma run_action_mbSource (cvFuel : nat) (k : ActionKind) (index : N)
    (s s' : Session') (b : bool) :
  run_action cvFuel k index s = Ok (b, s') -> m_mbSource s' = m_mbSource s.
Proof.
  destruct k; cbn.
  - intros [= _ <-]. unfold SaveCheckpoint. cbn.
    destruct (Trainer_SaveCheckpoint _ _ _ _). reflexivity.
  - intros Hrun. unfold CrossValidate in Hrun.
    destruct (m_crossValidationSource s) as [source|].
    + bind_ok' Hrun. destruct x as [[[err n] k] s1].
      destruct (OnCrossValidationEnd _ _ _ _ _) as [b' u]. injection Hrun as _ <-.
      apply CrossValidate_pass_frame in Hx as (Hsource & _). exact Hsource.
    + destruct (OnCrossValidationEnd _ _ _ _ _) as [b' u]. injection Hrun as _ <-.
      reflexivity.
  - intros [= _ <-]. reflexivity.
Qed.

Lemma perform_actions_mbSource (cvFuel : nat) (total : N)
    (acts acts' : list PeriodicAction) (calls : list (option (N * bool)))
    (ee ee' : bool) (s s' : Session') :
  perform_actions cvFuel total acts ee s = Ok (acts', calls, ee', s') ->
  m_mbSource s' = m_mbSource s.
Proof.
  revert acts' calls ee ee' s s'.
  induction acts as [|a rest IH]; intros acts' calls ee ee' s s' Hrun; cbn in Hrun.
  { injection Hrun as _ _ _ <-. reflexivity. }
  bind_ok' Hrun. destruct x as [[[a1 call1] ee1] s1].
  bind_ok' Hrun. destruct x as [[[rest' calls'] ee2] s2].
  injection Hrun as _ _ _ <-. rewrite (IH _ _ _ _ _ _ Hx0).
  apply perform_action_Ok in Hx as [_ [(_ & _ & _ & _ & ->) | (_ & _ & b & Hb & _)]].
  - reflexivity.
  - eapply run_action_mbSource, Hb.
Qed.

(** X9: once [earlyExit] is set, the rest of the loop does not read the
    training source any more: every round fetches with a budget of 0, which
    returns the empty minibatch without a call of the source, and at the end
    of the loop the source is in the state it was in. *)
Theorem train_loop_exit_keeps_source (fuel cvFuel : nat) (s s' : Session')
    (its : list Iteration) :
  train_loop fuel cvFuel true s = Ok (its, s') ->
  m_mbSource s' = m_mbSource s /\
  Forall (fun it => it_samplesLeft it = 0) its.
Proof.
  revert s s' its. induction fuel as [|fuel IH]; intros s s' its Hrun;
    cbn in Hrun; [discriminate|].
  rewrite GetTrainingMinibatch_no_budget in Hrun. cbn in Hrun.
  destruct (TrainMinibatch ∅ (m_trainer s)) as [shouldTrain t]. cbn in Hrun.
  bind_ok' Hrun. destruct x as [[[acts calls] ee1] s5].
  pose proof (perform_actions_mbSource _ _ _ _ _ _ _ _ _ Hx) as Hsource.
  assert (ee1 = true) as ->.
  { apply (perform_actions_earlyExit _ _ _ _ _ _ _ _ _ Hx). left. reflexivity. }
  cbn in Hsource. destruct shouldTrain.
  - bind_ok' Hrun. destruct x as [its' s7]. injection Hrun as <- <-.
    destruct (IH _ _ _ Hx0) as [Hrest Hbudgets]. cbn in Hrest.
    split; [congruence|]. constructor; [reflexivity | exact Hbudgets].
  - injection Hrun as <- <-. cbn. split; [exact Hsource|].
    constructor; [reflexivity | constructor].
Qed.

(** ** The calls after the loop *)

Section CountLaws.
(** Asked of the trainer: only training changes the number of samples seen. *)
Hypothesis save_keeps_count :
  forall (path : string) (ext : gmap string Checkpoint) (t : Trainer) (fs : FS),
    TotalNumberOfSamplesSeen (Trainer_SaveCheckpoint path ext t fs).1
    = TotalNumberOfSamplesSeen t.
Hypothesis test_keeps_count :
  forall (mb : gmap Var (option Value)) (t : Trainer),
    TotalNumberOfSamplesSeen (TestMinibatch mb t).2 = TotalNumberOfSamplesSeen t.
Hypothesis summarize_test_keeps_count :
  forall t : Trainer,
    TotalNumberOfSamplesSeen (SummarizeTestProgress t) = TotalNumberOfSamplesSeen t.
Hypothesis summarize_training_keeps_count :
  forall t : Trainer,
    TotalNumberOfSamplesSeen (SummarizeTrainingProgress t) = TotalNumberOfSamplesSeen t.




End CountLaws.

(** ** Saving and restoring *)

Lemma recalculate_actions_returns (total : N) (acts : list PeriodicAction) :
  Forall (fun a => frequency a <> 0) acts ->
  exists acts' : list PeriodicAction, recalculate_actions total acts = Ok acts'.
Proof.
  induction 1 as [|a rest HF _ [rest' IH]]; cbn; [eauto|].
  unfold size_div, size_rem. apply N.eqb_neq in HF. rewrite HF. cbn.
  rewrite IH. cbn. eauto.
Qed.

(** X14: when [RestoreFromCheckpoint()] has found a file, an error of the
    trainer's restore is passed on, and external state without the entry
    [TrainingMinibatchSource] is an error of its own.  With the entry there
    (and no action of frequency zero) the restore returns: the trainer is the
    restored one and the training source is restored from the entry. *)
Theorem RestoreFromCheckpoint_outcomes (s : Session') :
  let checkpoint := m_checkPointFileName (m_config s) in
  let fs := make_intermediate_dirs checkpoint (files s) in
  let restoreFile := find_restore_file LONG_MAX checkpoint fs in
  restoreFile <> "" ->
  (forall e : exn,
     Trainer_RestoreFromCheckpoint restoreFile fs (m_trainer s) = Err e ->
     RestoreFromCheckpoint LONG_MAX s = Err e) /\
  (forall (ext : gmap string Checkpoint) (t : Trainer),
     Trainer_RestoreFromCheckpoint restoreFile fs (m_trainer s) = Ok (ext, t) ->
     ext !! "TrainingMinibatchSource" = None ->
     RestoreFromCheckpoint LONG_MAX s = Err (MissingKey "TrainingMinibatchSource")) /\
  (forall (ext : gmap string Checkpoint) (t : Trainer) (state : Checkpoint),
     Trainer_RestoreFromCheckpoint restoreFile fs (m_trainer s) = Ok (ext, t) ->
     ext !! "TrainingMinibatchSource" = Some state ->
     Forall (fun a => frequency a <> 0) (m_actions s) ->
     exists s' : Session',
       RestoreFromCheckpoint LONG_MAX s = Ok s' /\
       m_trainer s' = t /\
       m_mbSource s' = Source_RestoreFromCheckpoint state (m_mbSource s) /\
       m_crossValidationSource s' = m_crossValidationSource s /\
       files s' = fs /\ user s' = user s).
Proof.
  cbn zeta. intros Hfile. apply String.eqb_neq in Hfile.
  unfold RestoreFromCheckpoint. cbn. rewrite Hfile.
  unfold RestoreFromCheckpoint_file. cbn.
  split; [|split].
  - intros e ->. reflexivity.
  - intros ext t -> Hnone. cbn. unfold s_trainingMinibatchSource.
    rewrite Hnone. reflexivity.
  - intros ext t state -> Hsome Hacts. cbn. unfold s_trainingMinibatchSource.
    rewrite Hsome. cbn.
    destruct (recalculate_actions_returns (TotalNumberOfSamplesSeen t) _ Hacts)
      as [acts' ->].
    cbn. eexists. split; [reflexivity|]. cbn. auto 10.
Qed.

Section RoundTripLaws.
(** Asked of the collaborators: the trainer restores from a file it has just
    saved, giving back the external state and the number of samples of the
    time of saving; a source restored from its snapshot is back in the state
    of the snapshot. *)
Variable same_source : Source -> Source -> Prop.
Hypothesis snapshot_restore :
  forall src src' : Source,
    same_source src src' ->
    Source_RestoreFromCheckpoint (Source_GetCheckpointState src) src' = src.
Hypothesis trainer_round_trip :
  forall (path : string) (ext : gmap string Checkpoint) (t t' : Trainer) (fs : FS),
    exists t2 : Trainer,
      Trainer_RestoreFromCheckpoint path (Trainer_SaveCheckpoint path ext t fs).2 t'
      = Ok (ext, t2) /\
      TotalNumberOfSamplesSeen t2 = TotalNumberOfSamplesSeen t.

(** X15: what [SaveCheckpoint] writes, [RestoreFromCheckpoint(file)] reads
    back: restoring from the file of a checkpoint, in a session that has the
    files as the save left them, succeeds and brings the training source and
    the number of samples seen back to what they were when the checkpoint was
    saved. *)
Theorem SaveCheckpoint_restore (index : N) (s s2 : Session') :
  files s2 = files (SaveCheckpoint index s) ->
  same_source (m_mbSource s) (m_mbSource s2) ->
  exists s3 : Session',
    RestoreFromCheckpoint_file (checkpoint_file index (m_config s)) s2 = Ok s3 /\
    m_mbSource s3 = m_mbSource s /\
    TotalNumberOfSamplesSeen (m_trainer s3) = TotalNumberOfSamplesSeen (m_trainer s).
Proof.
  intros Hfiles Hsource. unfold RestoreFromCheckpoint_file. rewrite Hfiles.
  unfold SaveCheckpoint, checkpoint_file. cbn.
  destruct (trainer_round_trip
              (if m_preserveAllCheckpoints (m_config s)
               then m_checkPointFileName (m_config s) +:+ to_wstring index
               else m_checkPointFileName (m_config s))
              (<[s_trainingMinibatchSource := Source_GetCheckpointState (m_mbSource s)]> ∅)
              (m_trainer s) (m_trainer s2) (files s)) as (t2 & Hrestore & Hcount).
  destruct (Trainer_SaveCheckpoint _ _ (m_trainer s) (files s)) as [t1 fs1].
  cbn in Hrestore |- *. rewrite Hrestore. cbn.
  rewrite lookup_insert_eq. eexists. split; [reflexivity|]. cbn.
  split; [apply snapshot_restore, Hsource | exact Hcount].
Qed.

End RoundTripLaws.

(** ** Names of numbered checkpoints *)

Lemma append_cons (x : ascii) (a b : string) :
  String x a +:+ b = String x (a +:+ b).
Proof. reflexivity. Qed.

Lemma append_nil_l (b : string) : "" +:+ b = b.
Proof. reflexivity. Qed.

Lemma append_nil_r (a : string) : a +:+ "" = a.
Proof.
  induction a as [|x a IH]; [reflexivity|]. rewrite append_cons, IH. reflexivity.
Qed.

Lemma append_assoc' (a b c : string) : (a +:+ b) +:+ c = a +:+ (b +:+ c).
Proof.
  induction a as [|x a IH]; [reflexivity|]. rewrite !append_cons, IH. reflexivity.
Qed.

Lemma length_append' (a b : string) :
  String.length (a +:+ b) = (String.length a + String.length b)%nat.
Proof.
  induction a as [|x a IH]; [reflexivity|]. rewrite append_cons. cbn.
  rewrite IH. reflexivity.
Qed.

Lemma digits_append (a b : string) :
  forallb isdigit (list_ascii_of_string (a +:+ b))
  = forallb isdigit (list_ascii_of_string a)
    && forallb isdigit (list_ascii_of_string b).
Proof.
  induction a as [|x a IH]; [reflexivity|]. rewrite append_cons. cbn.
  rewrite IH, andb_assoc. reflexivity.
Qed.

Lemma substring_all (a : string) : String.substring 0 (String.length a) a = a.
Proof. induction a as [|x a IH]; cbn; [reflexivity|]. rewrite IH. reflexivity. Qed.

Lemma prefix_append (a b : string) : String.prefix a (a +:+ b) = true.
Proof.
  induction a as [|x a IH]; [destruct b; reflexivity|].
  rewrite append_cons. cbn. destruct (ascii_dec x x); [exact IH | contradiction].
Qed.

Lemma substr_from_append (a b : string) : substr_from (String.length a) (a +:+ b) = b.
Proof.
  unfold substr_from. rewrite length_append'.
  replace (String.length a + String.length b - String.length a)%nat
    with (String.length b) by lia.
  induction a as [|x a IH]; [apply substring_all|].
  rewrite append_cons. cbn. exact IH.
Qed.

(** The character written for the last digit of [n]. *)
Lemma last_digit (n : N) :
  isdigit (ascii_of_N (48 + n mod 10)) = true /\
  digit_value (ascii_of_N (48 + n mod 10)) = Z.of_N (n mod 10).
Proof.
  pose proof (N.mod_lt n 10 ltac:(discriminate)) as Hlt.
  assert (48 + n mod 10 < 256) as Hsmall by lia.
  unfold isdigit, digit_value. cbv zeta. rewrite (N_ascii_embedding _ Hsmall).
  split; [|lia]. apply andb_true_iff.
  split; [apply N.leb_le, N.le_add_r | apply N.leb_le; lia].
Qed.

(** Reading one digit. *)
Lemma strtol_digits_step (acc : Z) (n : N) (rest : string) :
  strtol_digits acc (String (ascii_of_N (48 + n mod 10)) rest)
  = let '(v, k) := strtol_digits (10 * acc + Z.of_N (n mod 10))%Z rest in (v, S k).
Proof.
  destruct (last_digit n) as [Hdigit Hvalue]. cbn. rewrite Hdigit, Hvalue. reflexivity.
Qed.

Lemma to_wstring_aux_S (fuel : nat) (n : N) (acc : string) :
  to_wstring_aux (S fuel) n acc
  = if n / 10 =? 0 then String (ascii_of_N (48 + n mod 10)) acc
    else to_wstring_aux fuel (n / 10) (String (ascii_of_N (48 + n mod 10)) acc).
Proof. reflexivity. Qed.

(** What [to_wstring_aux] puts in front of [acc] is a non-empty string of
    digits that [strtol] reads as [n]. *)
Lemma to_wstring_aux_digits (fuel : nat) (n : N) (acc : string) :
  n < 10 ^ N.of_nat (S fuel) ->
  exists ds : string,
    to_wstring_aux (S fuel) n acc = ds +:+ acc /\ ds <> "" /\
    forallb isdigit (list_ascii_of_string ds) = true /\
    forall (a : Z) (rest : string),
      strtol_digits a (ds +:+ rest)
      = let '(v, k) :=
          strtol_digits (a * 10 ^ Z.of_nat (String.length ds) + Z.of_N n)%Z rest in
        (v, (String.length ds + k)%nat).
Proof.
  revert n acc. induction fuel as [|fuel IH]; intros n acc Hn.
  all: rewrite to_wstring_aux_S; destruct (N.eqb_spec (n / 10) 0) as [Hsmall|Hbig].
  1,3: exists (String (ascii_of_N (48 + n mod 10)) "");
    (split; [reflexivity|]); (split; [discriminate|]);
    (split; [cbn; rewrite (proj1 (last_digit n)); reflexivity|]);
    intros a rest; rewrite append_cons, append_nil_l; cbn [String.length];
    rewrite strtol_digits_step;
    pose proof (N.div_mod n 10 ltac:(discriminate)) as Hdiv; rewrite Hsmall in Hdiv;
    replace (10 * a + Z.of_N (n mod 10))%Z
      with (a * 10 ^ Z.of_nat 1 + Z.of_N n)%Z by lia;
    destruct (strtol_digits _ rest); reflexivity.
  - exfalso. apply Hbig, N.div_small. exact Hn.
  - assert (n / 10 < 10 ^ N.of_nat (S fuel)) as Hdiv10.
    { apply N.Div0.div_lt_upper_bound.
      replace (N.of_nat (S (S fuel))) with (N.succ (N.of_nat (S fuel))) in Hn by lia.
      rewrite N.pow_succ_r' in Hn. exact Hn. }
    destruct (IH (n / 10) (String (ascii_of_N (48 + n mod 10)) acc) Hdiv10)
      as (ds' & Heq & Hne & Hdigits & Hread).
    exists (ds' +:+ String (ascii_of_N (48 + n mod 10)) "").
    split; [rewrite Heq, append_assoc'; reflexivity|].
    split; [destruct ds'; [contradiction | discriminate]|].
    split.
    { rewrite digits_append, Hdigits. cbn [list_ascii_of_string forallb andb].
      rewrite (proj1 (last_digit n)). reflexivity. }
    intros a rest. rewrite append_assoc', append_cons, append_nil_l.
    rewrite Hread, strtol_digits_step, length_append'. cbn [String.length].
    pose proof (N.div_mod n 10 ltac:(discriminate)) as Hdiv.
    replace (10 * (a * 10 ^ Z.of_nat (String.length ds') + Z.of_N (n / 10))
             + Z.of_N (n mod 10))%Z
      with (a * 10 ^ Z.of_nat (String.length ds' + 1) + Z.of_N n)%Z.
    2:{ rewrite Nat2Z.inj_add, Z.pow_add_r by lia. lia. }
    destruct (strtol_digits _ rest) as [v k]. f_equal. lia.
Qed.

(** The string of [to_wstring] is a number for [isNumber], and [strtol] reads
    all of it. *)
Lemma to_wstring_number (n : N) :
  n < 2 ^ 64 ->
  isNumber (to_wstring n) = true /\
  strtol LONG_MAX (to_wstring n)
  = (Z.min (Z.of_N n) LONG_MAX, String.length (to_wstring n)).
Proof.
  intros Hn. unfold to_wstring.
  destruct (to_wstring_aux_digits 19 n "") as (ds & Heq & Hne & Hdigits & Hread).
  { eapply N.lt_trans; [exact Hn|]. reflexivity. }
  pose proof (append_nil_r ds) as Hnil.
  rewrite Heq, Hnil. split.
  - unfold isNumber. rewrite Hdigits.
    destruct ds; [contradiction | reflexivity].
  - unfold strtol. specialize (Hread 0%Z ""). rewrite Hnil in Hread.
    rewrite Hread. cbn. rewrite Nat.add_0_r. reflexivity.
Qed.

(** X16: the decimal string [to_wstring] writes for a [size_t] is accepted by
    [isNumber], and [strtol] reads it to its end as the same number (up to
    [LONG_MAX]). *)
Theorem to_wstring_strtol (n : N) :
  n < 2 ^ 64 ->
  isNumber (to_wstring n) = true /\
  strtol LONG_MAX (to_wstring n)
  = (Z.min (Z.of_N n) LONG_MAX, String.length (to_wstring n)).
Proof.
  intros Hn. unfold to_wstring.
  destruct (to_wstring_aux_digits 19 n "") as (ds & Heq & Hne & Hdigits & Hread).
  { eapply N.lt_trans; [exact Hn|]. reflexivity. }
  pose proof (append_nil_r ds) as Hnil.
  rewrite Heq, Hnil. split.
  - unfold isNumber. rewrite Hdigits.
    destruct ds; [contradiction | reflexivity].
  - unfold strtol. specialize (Hread 0%Z ""). rewrite Hnil in Hread.
    rewrite Hread. cbn. rewrite Nat.add_0_r. reflexivity.
Qed.

Lemma to_wstring_candidate (fs : FS) (parent base : string) (index : N) :
  index < 2 ^ 31 -> (2 ^ 31 - 1 <= LONG_MAX)%Z ->
  fexists (parent +:+ "/" +:+ (base +:+ to_wstring index) +:+ ".ckp") fs = true ->
  is_candidate fs parent base (base +:+ to_wstring index) = true /\
  candidate_value LONG_MAX base (base +:+ to_wstring index) = Z.of_N index.
Proof.
  intros Hindex Hmax Hckp.
  destruct (to_wstring_number index) as [Hnumber Hread]; [lia|].
  unfold is_candidate, candidate_value, starts_with.
  rewrite prefix_append, substr_from_append, Hnumber, Hckp, Hread. cbn.
  split; [reflexivity|]. apply long_to_int_small; lia.
Qed.

(** X17: a file named as [SaveCheckpoint] names a numbered checkpoint, the
    configured name followed by [to_wstring index], passes the tests of the
    search when its [.ckp] file is there, and for an index below [2^31] the
    number compared is the index. *)
Theorem numbered_checkpoint_is_candidate (fs : FS) (parent base : string) (index : N) :
  index < 2 ^ 31 -> (2 ^ 31 - 1 <= LONG_MAX)%Z ->
  fexists (parent +:+ "/" +:+ (base +:+ to_wstring index) +:+ ".ckp") fs = true ->
  starts_with (base +:+ to_wstring index) base = true /\
  substr_from (String.length base) (base +:+ to_wstring index) = to_wstring index /\
  is_candidate fs parent base (base +:+ to_wstring index) = true /\
  candidate_value LONG_MAX base (base +:+ to_wstring index) = Z.of_N index.
Proof.
  intros Hindex Hmax Hckp.
  split; [apply prefix_append|]. split; [apply substr_from_append|].
  apply to_wstring_candidate; assumption.
Qed.

(** X18: for a configured name with no separator in it and no file at that
    name, the search goes through the entries of [..].  An entry there that
    is the configured name followed by the decimal digits of an index below
    [2^31] (with [LONG_MAX] at least [2^31 - 1]), and whose [.ckp] file is in
    [..] too, makes the search end with a file: an entry of [..] that passes
    the tests and whose number is at least that index. *)
Theorem find_restore_file_finds_listed (checkpoint : string) (index : N) (fs : FS) :
  find_last_of separators checkpoint = None ->
  fexists checkpoint fs = false ->
  index < 2 ^ 31 -> (2 ^ 31 - 1 <= LONG_MAX)%Z ->
  (checkpoint +:+ to_wstring index) ∈ get_all_files_from_directory ".." fs ->
  fexists (".." +:+ "/" +:+ (checkpoint +:+ to_wstring index) +:+ ".ckp") fs = true ->
  exists f : string,
    find_restore_file LONG_MAX checkpoint fs = ".." +:+ "/" +:+ f /\
    f ∈ get_all_files_from_directory ".." fs /\
    is_candidate fs ".." checkpoint f = true /\
    (Z.of_N index <= candidate_value LONG_MAX checkpoint f)%Z.
Proof.
  intros Hsep Hnone Hindex Hmax Hlisted Hckp.
  destruct (to_wstring_candidate fs ".." checkpoint index Hindex Hmax Hckp)
    as [Hcand Hvalue].
  unfold find_restore_file, split_checkpoint. rewrite Hsep, Hnone.
  destruct (candidate_fold_max LONG_MAX fs ".." checkpoint
              (get_all_files_from_directory ".." fs) ((-1)%Z, ""))
    as [[_ Hrest] | (f & Hin & Hf & _ & -> & Hrest)]; cbn in *.
  - exfalso. rewrite Forall_forall in Hrest.
    specialize (Hrest _ Hlisted Hcand). lia.
  - exists f. split; [reflexivity|]. split; [exact Hin|]. split; [exact Hf|].
    rewrite Forall_forall in Hrest. rewrite <- Hvalue. exact (Hrest _ Hlisted Hcand).
Qed.

Lemma find_last_of_split (seps : list ascii) (path : string) (pos : nat) :
  find_last_of seps path = Some pos ->
  path = String.substring 0 pos path +:+ substr_from pos path /\
  String.length (String.substring 0 pos path) = pos /\
  exists (c : ascii) (rest : string),
    substr_from pos path = String c rest /\
    existsb (Ascii.eqb c) seps = true /\ find_last_of seps rest = None.
Proof.
  revert pos. induction path as [|c0 path IH]; intros pos; cbn; [discriminate|].
  destruct (find_last_of seps path) as [p|] eqn:Hlast.
  - intros [= <-]. destruct (IH p eq_refl) as (Hsplit & Hlen & c & rest & Hsub & Hc & Hrest).
    unfold substr_from in *. cbn.
    split; [rewrite append_cons, <- Hsplit; reflexivity|].
    split; [rewrite Hlen; reflexivity|].
    exists c, rest. auto.
  - destruct (existsb (Ascii.eqb c0) seps) eqn:Hc0; [|discriminate].
    intros [= <-]. unfold substr_from. cbn. rewrite substring_all.
    split; [reflexivity|]. split; [reflexivity|]. exists c0, path. auto.
Qed.

(** X19: how [RestoreFromCheckpoint()] splits the configured path.  Without a
    separator the directory is [..] and the file name the whole path.  With
    one, directory and file name together give the path back, the directory
    is what comes before the last separator, and the file name starts with
    that separator and has no other. *)
Theorem split_checkpoint_parts (checkpoint : string) :
  (find_last_of separators checkpoint = None ->
   split_checkpoint checkpoint = ("..", checkpoint)) /\
  (forall pos : nat,
     find_last_of separators checkpoint = Some pos ->
     let parent := (split_checkpoint checkpoint).1 in
     let fileName := (split_checkpoint checkpoint).2 in
     checkpoint = parent +:+ fileName /\
     String.length parent = pos /\
     exists (c : ascii) (rest : string),
       fileName = String c rest /\ c ∈ separators /\
       find_last_of separators rest = None).
Proof.
  unfold split_checkpoint. split.
  - intros ->. reflexivity.
  - intros pos Hpos. rewrite Hpos. cbn.
    destruct (find_last_of_split _ _ _ Hpos)
      as (Hsplit & Hlen & c & rest & Hsub & Hc & Hrest).
    split; [exact Hsplit|]. split; [exact Hlen|]. exists c, rest.
    split; [exact Hsub|]. split; [|exact Hrest].
    apply existsb_exists in Hc as (c' & Hin & Heq).
    apply Ascii.eqb_eq in Heq. subst c'. apply list_elem_of_In. exact Hin.
Qed.

(** ** The end of a cross-validation pass *)

Section FiniteSource.
(** A source that runs out: every fetch of at least one sample that returns
    something brings the source closer to its end. *)
Variable remaining : Source -> nat.
Hypothesis fetch_consumes :
  forall (n w r : N) (src : Source),
    n <> 0 ->
    (Source_GetNextMinibatch 0 n w r src).1 <> ∅ ->
    (remaining (Source_GetNextMinibatch 0 n w r src).2 < remaining src)%nat.

Lemma cv_loop_terminates (fuel : nat) (config : Config') (src : Source)
    (t : Trainer) (st : CVState) :
  (remaining src < fuel)%nat ->
  exists r, cv_loop fuel config src t st = Ok r.
Proof.
  revert src t st. induction fuel as [|fuel IH]; intros src t st Hfuel; [lia|].
  cbn. unfold GetCrossValidationMinibatch, GetNextMinibatch.
  destruct (N.eqb_spec (m_crossValidationSchedule config (sampleCount st)) 0)
    as [Hzero|Hsize].
  { rewrite bool_decide_eq_true_2 by apply map_size_empty. eauto. }
  pose proof (fetch_consumes (m_crossValidationSchedule config (sampleCount st))
                1 0 src Hsize) as Hless.
  destruct (Source_GetNextMinibatch 0 _ 1 0 src) as [md src']. cbn in Hless.
  destruct (decide (size md = 0%nat)) as [Hempty|Hsome].
  { rewrite (bool_decide_eq_true_2 _ Hempty).
    rewrite bool_decide_eq_true_2 by apply map_size_empty. eauto. }
  rewrite (bool_decide_eq_false_2 _ Hsome).
  destruct (bool_decide _); [eauto|].
  destruct (TestMinibatch _ t) as [[err count] t'].
  apply IH. rewrite map_size_empty_iff in Hsome. specialize (Hless Hsome). lia.
Qed.

(** X22: with a cross-validation source that runs out, [CrossValidate]
    returns: fuel beyond the distance of the source to its end is enough,
    whatever sizes the schedule asks for (a size of 0 ends the pass at
    once). *)
Theorem CrossValidate_terminates (fuel : nat) (index : N) (s : Session') :
  (forall src : Source,
     m_crossValidationSource s = Some src -> (remaining src < fuel)%nat) ->
  exists (b : bool) (s1 : Session'), CrossValidate fuel index s = Ok (b, s1).
Proof.
  intros Hfuel. unfold CrossValidate.
  destruct (m_crossValidationSource s) as [src|].
  - unfold CrossValidate_pass.
    destruct (cv_loop_terminates fuel (m_config s) src (m_trainer s) CVState_init
                (Hfuel src eq_refl)) as [[[src1 t1] st1] ->].
    cbn. destruct (OnCrossValidationEnd _ _ _ _ _) as [b u]. eauto.
  - destruct (OnCrossValidationEnd _ _ _ _ _) as [b u]. eauto.
Qed.

End FiniteSource.

End MoreProperties.

(** * The session at work

    Runs of the session in the small concrete world. *)

Import Toy.

(** C8, the claim as first stated fails: with an empty file name and the
    largest [size_t] as frequency, which is not zero, [Checkpointing] raises
    nothing and stores the frequency 0. *)
Lemma Checkpointing_accepts_SIZE_MAX :
  SIZE_MAX <> 0 /\
  (forall msg : string,
     Checkpointing "" SIZE_MAX false false (config 10 100) <> Err (InvalidArgument msg)) /\
  m_checkpointFrequencyInSamples
    (built (Checkpointing "" SIZE_MAX false false (config 10 100)) (config 10 100)) = 0.
Proof.
  split; [discriminate|]. split; [intros msg; discriminate | reflexivity].
Qed.

Lemma Checkpointing_empty_path_witness :
  m_withCheckpointing (config 10 100) = false /\
  (exists msg : string,
     Checkpointing "" 5 false false (config 10 100) = Err (InvalidArgument msg)) /\
  (exists c' : @SessionConfig string string _ _ unit,
     Checkpointing "" 0 false false (config 10 100) = Ok c' /\
     m_withCheckpointing c' = true /\
     m_checkPointFileName c' = "" /\
     m_checkpointFrequencyInSamples c' = 0 /\
     m_preserveAllCheckpoints c' = false).
Proof.
  split; [reflexivity|]. split.
  - apply (Checkpointing_empty_path (config 10 100) 5 false false eq_refl).
    left. split; discriminate.
  - apply (Checkpointing_empty_path (config 10 100) 0 false false eq_refl).
    split; [left|]; reflexivity.
Defined.

Lemma GetTrainingMinibatch_shard_witness :
  let warm := distributed_session in
  let late := set_trainer {| seen := 60; learners := []; busy := 0 |} distributed_session in
  (TotalNumberOfSamplesSeen (m_trainer warm) < m_parallelAfterSamples warm /\
   m_workerRank warm = 2 /\ m_numberOfWorkers warm = 4 /\
   GetTrainingMinibatch 10 warm
   = ((GetNextMinibatch (m_inputVarToStream (m_config warm)) (m_mbSource warm) 10 0 1).1,
      set_mbSource
        (GetNextMinibatch (m_inputVarToStream (m_config warm)) (m_mbSource warm) 10 0 1).2
        warm)) /\
  (m_parallelAfterSamples late <= TotalNumberOfSamplesSeen (m_trainer late) /\
   GetTrainingMinibatch 10 late
   = ((GetNextMinibatch (m_inputVarToStream (m_config late)) (m_mbSource late) 10 2 4).1,
      set_mbSource
        (GetNextMinibatch (m_inputVarToStream (m_config late)) (m_mbSource late) 10 2 4).2
        late)).
Proof.
  intros warm late. split.
  - split; [reflexivity|]. split; [reflexivity|]. split; [reflexivity|].
    apply (proj1 (GetTrainingMinibatch_shard 10 warm)). reflexivity.
  - split; [discriminate|].
    apply (proj2 (GetTrainingMinibatch_shard 10 late)). discriminate.
Defined.


(** C9, the claim as first stated fails: the mapping sends the input [y] to
    the stream [labels], the source returns a minibatch with the stream
    [features] only, and the minibatch of the session is still built, with a
    null value for [y]. *)
Lemma GetNextMinibatch_missing_stream_defaulted :
  let inputs : gmap string string := {[ "x" := "features"; "y" := "labels" ]} in
  let fetched := (Source_GetNextMinibatch 0 10 1 0 features_only).1 in
  let minibatch := (GetNextMinibatch inputs features_only 10 0 1).1 in
  fetched !! "features" = Some (Some (0, 10)) /\
  fetched !! "labels" = None /\
  minibatch !! "x" = Some (Some (0, 10)) /\
  minibatch !! "y" = Some None.
Proof. vm_compute. auto. Qed.

Lemma GetNextMinibatch_remap_witness :
  let inputs : gmap string string := {[ "x" := "features"; "y" := "labels" ]} in
  let fetched := (Source_GetNextMinibatch 0 10 1 0 features_only).1 in
  10 <> 0 /\ fetched <> ∅ /\
  (GetNextMinibatch inputs features_only 10 0 1).1
  = (fun st => data (default MinibatchData_default (fetched !! st))) <$> inputs.
Proof.
  intros inputs fetched.
  assert (fetched <> ∅) as Hfetched.
  { intros Habs. apply (f_equal (fun m => m !! "features")) in Habs.
    vm_compute in Habs. discriminate Habs. }
  split; [discriminate|]. split; [exact Hfetched|].
  apply (GetNextMinibatch_remap inputs features_only 10 0 1); [discriminate|].
  exact Hfetched.
Defined.

(** Naming the result of a run: [H : run = Ok (x, y)] with [x] and [y]
    replaced by what the run computes. *)
Ltac name_run H :=
  let Hval := fresh "Hval" in
  pose proof H as Hval; vm_compute in Hval;
  injection Hval as Hval1 Hval2; subst.

(** C2, the claim as first stated fails: with progress every 3 samples and
    minibatches of 10, training for 20 samples calls the action twice, at 10
    samples for period 0 and at 20 samples for period 3; the periods 1, 2, 4
    and 5, all complete by then, get no call, and no call comes at 3, 6, 9,
    ... samples. *)
Lemma Train_skips_periods :
  exists log s',
    Train Toy.LONG_MAX 10 0 progress_session = Ok (log, s') /\
    TotalNumberOfSamplesSeen (m_trainer s') = 20 /\
    map it_total (iterations log) = [10; 20; 20] /\
    calls_of 0 (iterations log) = [(0, 10); (3, 20)] /\
    final_calls log = [None].
Proof.
  eexists _, _. split; [vm_compute; reflexivity|]. vm_compute. auto.
Qed.

Lemma train_loop_calls_each_period_witness :
  exists (a : PeriodicAction) its s',
    train_loop 20 0 false checkpoint_session = Ok (its, s') /\
    m_actions checkpoint_session !! 0%nat = Some a /\
    frequency a <> 0 /\
    currentIndex a
    <= TotalNumberOfSamplesSeen (m_trainer checkpoint_session) / frequency a /\
    currentIndex a
    = TotalNumberOfSamplesSeen (m_trainer checkpoint_session) / frequency a /\
    nondecreasing (TotalNumberOfSamplesSeen (m_trainer checkpoint_session))
      (map it_total its) /\
    bounded_steps (frequency a)
      (TotalNumberOfSamplesSeen (m_trainer checkpoint_session)) (map it_total its) /\
    map it_total its = [10; 20; 30; 40; 50; 60; 70; 80; 90; 100; 100] /\
    calls_of 0 its = [(0, 20); (1, 40); (2, 60); (3, 80); (4, 100)] /\
    map fst (calls_of 0 its) = [0; 1; 2; 3; 4] /\
    StronglySorted N.lt (map fst (calls_of 0 its)) /\
    Forall (fun call : N * N =>
              exists before after : list N,
                map it_total its = (before ++ call.2 :: after)%list /\
                Forall (fun t => t < (call.1 + 1) * frequency a) before /\
                (call.1 + 1) * frequency a <= call.2)
      (calls_of 0 its).
Proof.
  destruct (train_loop 20 0 false checkpoint_session) as [[its s']|e] eqn:Hrun;
    [|vm_compute in Hrun; discriminate Hrun].
  name_run Hrun.
  assert (nondecreasing 0 [10; 20; 30; 40; 50; 60; 70; 80; 90; 100; 100]) as Hmono.
  { cbn. repeat split; discriminate. }
  assert (bounded_steps 20 0 [10; 20; 30; 40; 50; 60; 70; 80; 90; 100; 100]) as Hsteps.
  { cbn. repeat split; discriminate. }
  eexists _, _, _. split; [exact Hrun|]. split; [reflexivity|].
  split; [discriminate|]. split; [discriminate|]. split; [reflexivity|].
  split; [exact Hmono|]. split; [exact Hsteps|]. split; [reflexivity|].
  destruct (train_loop_calls_each_period _ _ _ _ _ _ 0%nat _ Hrun eq_refl
              ltac:(discriminate)) as (Hcalls & Hlate & Hexact).
  split; [rewrite Hcalls; reflexivity|].
  destruct (Hlate ltac:(discriminate) Hmono) as [Hsorted Hfirst].
  destruct (Hexact eq_refl Hsteps) as [Hperiods _].
  split; [exact Hperiods|]. split; [exact Hsorted | exact Hfirst].
Defined.

(** Why the last part of C2 asks for the stored index to be the period of
    the counter when the loop is entered: a session built on a trainer that
    has seen 100 samples stores index 0, and with a checkpoint every 20
    samples and minibatches of 10 its first call, for period 0, comes at 110
    samples; the periods 1 to 4 get no call.  The indices still increase. *)
Lemma train_loop_late_start :
  exists its s',
    train_loop 20 0 false late_session = Ok (its, s') /\
    map currentIndex (m_actions late_session) = [0] /\
    TotalNumberOfSamplesSeen (m_trainer late_session) = 100 /\
    map it_total its = [110; 120; 130; 140; 150; 160; 160] /\
    calls_of 0 its = [(0, 110); (5, 120); (6, 140); (7, 160)].
Proof.
  eexists _, _. split; [vm_compute; reflexivity|]. vm_compute. auto.
Qed.

(** C5, the claim as first stated fails: the cross-validation action returns
    [false] in the fourth round, and the loop goes through three more rounds,
    each with a call of [TrainMinibatch], until that call returns [false]. *)
Lemma Train_goes_on_after_early_exit :
  exists log s',
    Train Toy.LONG_MAX 20 10 validation_session = Ok (log, s') /\
    map it_calls (iterations log)
    = [[None]; [Some (0, true)]; [None]; [Some (1, false)]; [None]; [None]; [None]] /\
    map it_shouldTrain (iterations log)
    = [true; true; true; true; true; true; false] /\
    map it_earlyExit (iterations log)
    = [false; false; false; true; true; true; true] /\
    map it_samplesLeft (iterations log) = [100; 90; 80; 70; 0; 0; 0].
Proof.
  eexists _, _. split; [vm_compute; reflexivity|]. vm_compute. auto.
Qed.

Lemma train_loop_early_exit_witness :
  exists its s' it it',
    train_loop 20 10 false validation_session = Ok (its, s') /\
    its !! 3%nat = Some it /\ its !! 5%nat = Some it' /\
    it_calls it !! 0%nat = Some (Some (1, false)) /\
    it_earlyExit it = true /\
    it_samplesLeft it' = 0 /\ it_earlyExit it' = true.
Proof.
  destruct (train_loop 20 10 false validation_session) as [[its s']|e] eqn:Hrun;
    [|vm_compute in Hrun; discriminate Hrun].
  name_run Hrun.
  destruct (train_loop_early_exit _ _ _ _ _ _ Hrun) as [Hrounds Hlater].
  eexists _, _, _, _. split; [exact Hrun|].
  split; [reflexivity|]. split; [reflexivity|]. split; [reflexivity|].
  assert (it_earlyExit
            {| it_samplesLeft := 70; it_shouldTrain := true; it_total := 40;
               it_calls := [Some (1, false)]; it_earlyExit := true |} = true) as Hexit.
  { apply (Hrounds 3%nat _ eq_refl). exists 0%nat, 1. reflexivity. }
  split; [exact Hexit|].
  apply (Hlater 3%nat 5%nat _ _ eq_refl eq_refl); [lia | exact Hexit].
Defined.

Lemma RestoreFromCheckpoint_resumes_witness :
  let s := restoring_session exact_files "model" in
  exists (a a' : PeriodicAction) s',
    RestoreFromCheckpoint Toy.LONG_MAX s = Ok s' /\
    find_restore_file Toy.LONG_MAX (m_checkPointFileName (m_config s))
      (make_intermediate_dirs (m_checkPointFileName (m_config s)) (files s)) <> "" /\
    m_actions s !! 0%nat = Some a /\
    TotalNumberOfSamplesSeen (m_trainer s') = 45 /\
    frequency a = 20 /\
    m_actions s' !! 0%nat = Some a' /\
    currentIndex a' = 45 / 20 /\ sampleCountWhenLastCalled a' = 45 - 45 mod 20.
Proof.
  intros s.
  destruct (RestoreFromCheckpoint Toy.LONG_MAX s) as [s'|e] eqn:Hrun;
    [|vm_compute in Hrun; discriminate Hrun].
  assert (TotalNumberOfSamplesSeen (m_trainer s') = 45) as Hseen.
  { pose proof Hrun as Hval. vm_compute in Hval. injection Hval as <-. reflexivity. }
  assert (find_restore_file Toy.LONG_MAX (m_checkPointFileName (m_config s))
            (make_intermediate_dirs (m_checkPointFileName (m_config s)) (files s)) <> "")
    as Hfile by (vm_compute; discriminate).
  assert (m_actions s !! 0%nat
          = Some {| frequency := 20; currentIndex := 0;
                    sampleCountWhenLastCalled := 0; action := CheckpointAction |})
    as Hi by (vm_compute; reflexivity).
  pose proof (RestoreFromCheckpoint_resumes Toy.LONG_MAX s s' Hrun Hfile 0%nat _ Hi) as Hthm.
  cbv zeta in Hthm. rewrite Hseen in Hthm.
  destruct Hthm as (_ & a' & Ha' & _ & _ & Hidx & Hcount & _).
  exists {| frequency := 20; currentIndex := 0;
            sampleCountWhenLastCalled := 0; action := CheckpointAction |}, a', s'.
  split; [reflexivity|]. split; [exact Hfile|].
  split; [exact Hi|]. split; [exact Hseen|]. split; [reflexivity|].
  split; [exact Ha'|]. split; [exact Hidx | exact Hcount].
Defined.

(** C4, where the code goes wrong: the configured path is [out/model], the
    directory [out] holds the numbered checkpoints [model0] and [model1], each
    with its [.ckp] file, and nothing is at [out/model] itself.  [fileName]
    is [/model], with the separator, so no entry starts with it: the search
    ends with no file and the session restores nothing, although [model1]
    passes every test when the name is taken without the separator. *)
Lemma RestoreFromCheckpoint_misses_numbered_checkpoints :
  let s := restoring_session numbered_files "out/model" in
  fexists "out/model" (files s) = false /\
  split_checkpoint "out/model" = ("out", "/model") /\
  get_all_files_from_directory "out" (files s)
  = ["model0"; "model0.ckp"; "model1"; "model1.ckp"] /\
  is_candidate (files s) "out" "model" "model1" = true /\
  candidate_value Toy.LONG_MAX "model" "model1" = 1%Z /\
  find_restore_file Toy.LONG_MAX "out/model" (files s) = "" /\
  RestoreFromCheckpoint Toy.LONG_MAX s = Ok s /\
  TotalNumberOfSamplesSeen (m_trainer s) = 0.
Proof. vm_compute. repeat split; reflexivity. Qed.

(** With a configured path that has no separator in it the search does find
    the numbered checkpoint with the largest number, in the directory [..]:
    [model10] wins over [model1] and [modelX] is not looked at. *)
Lemma find_restore_file_largest_number :
  find_restore_file Toy.LONG_MAX "model" parent_files = "../model10" /\
  exists s',
    RestoreFromCheckpoint Toy.LONG_MAX (restoring_session parent_files "model") = Ok s' /\
    TotalNumberOfSamplesSeen (m_trainer s') = 45.
Proof.
  split; [vm_compute; reflexivity|].
  eexists. split; [vm_compute; reflexivity | reflexivity].
Qed.

(** The toy source and trainer keep the laws asked of the collaborators. *)
Lemma toy_same_source_preorder : PreOrder toy_same_source.
Proof.
  split.
  - intros a. split; reflexivity.
  - intros a b c [Hs1 Hn1] [Hs2 Hn2]. split; congruence.
Qed.

Lemma toy_fetch_keeps_source (k n w r : N) (src : Source) :
  toy_same_source src (Source_GetNextMinibatch k n w r src).2.
Proof.
  cbn. unfold next_minibatch. destruct (size src <=? position src); split; reflexivity.
Qed.

Lemma toy_snapshot_restore (src src' : Source) :
  toy_same_source src src' ->
  Source_RestoreFromCheckpoint (Source_GetCheckpointState src) src' = src.
Proof.
  destruct src, src'. intros [Hs Hn]. cbn in *. subst. reflexivity.
Qed.

Lemma toy_test_by_model (mb : gmap string (option Value)) (t t' : Trainer) :
  (TestMinibatch mb t).1 = (TestMinibatch mb t').1.
Proof.
  cbn. unfold test_minibatch.
  destruct (map_to_list mb) as [|[v [[first n]|]] l]; reflexivity.
Qed.

Lemma CrossValidate_restores_source_witness :
  exists b s1,
    CrossValidate 10 0 validation_session = Ok (b, s1) /\
    m_crossValidationSource s1 = m_crossValidationSource validation_session /\
    exists report s1' b' s2 s2',
      CrossValidate_pass 10 (source 25) validation_session = Ok (report, s1') /\
      CrossValidate 10 1 s1 = Ok (b', s2) /\
      CrossValidate_pass 10 (source 25) s1 = Ok (report, s2').
Proof.
  destruct (CrossValidate 10 0 validation_session) as [[b s1]|e] eqn:Hrun;
    [|vm_compute in Hrun; discriminate Hrun].
  destruct (CrossValidate_restores_source
              toy_same_source toy_same_source_preorder toy_fetch_keeps_source
              toy_snapshot_restore
              (fun _ _ => True)
              (Build_Equivalence _ (fun _ => I) (fun _ _ _ => I) (fun _ _ _ _ _ => I))
              (fun _ _ => I) (fun _ => I) (fun mb t t' _ => toy_test_by_model mb t t')
              10%nat 0 validation_session s1 b Hrun) as [Hsource Htwice].
  destruct (Htwice (source 25) eq_refl) as (report & s1' & Hpass & Hagain).
  destruct (Hagain 1) as (b' & s2 & s2' & Hsecond & Hpass2 & _).
  exists b, s1. split; [reflexivity|]. split; [exact Hsource|].
  exists report, s1', b', s2, s2'. auto.
Defined.

Lemma action_invariant_holds_witness :
  new_TrainingSession (Some (trainer 0)) (m_config checkpoint_session) (source 1000)
    None no_files (subclass None) = Ok checkpoint_session /\
  Forall action_invariant (m_actions checkpoint_session) /\
  exists log s',
    Train Toy.LONG_MAX 20 0 checkpoint_session = Ok (log, s') /\
    Forall action_invariant (m_actions s').
Proof.
  pose proof (action_invariant_holds Toy.LONG_MAX) as (Hnew & _ & _ & HTrain).
  assert (new_TrainingSession (Some (trainer 0)) (m_config checkpoint_session)
            (source 1000) None no_files (subclass None) = Ok checkpoint_session)
    as Hctor by (vm_compute; reflexivity).
  pose proof (Hnew _ _ _ _ _ _ _ Hctor) as Hinv.
  split; [exact Hctor|]. split; [exact Hinv|].
  destruct (Train Toy.LONG_MAX 20 0 checkpoint_session) as [[log s']|e] eqn:Hrun;
    [|vm_compute in Hrun; discriminate Hrun].
  exists log, s'. split; [reflexivity|].
  exact (HTrain _ _ _ _ _ Hrun Hinv).
Defined.

(** ** Runs for the further properties *)

(** Replacing the name of a computed value by the value. *)
Ltac name_value H :=
  let Hval := fresh "Hval" in
  pose proof H as Hval; vm_compute in Hval; injection Hval as Hval; subst.

Lemma builders_at_most_once_witness :
  let bs : list (@BuilderCall unit) :=
    [CallCrossValidation (fun _ => 10) 20; CallCheckpointing "model" 20 false false] in
  exists c',
    apply_builders bs (config 10 100) = Ok c' /\
    NoDup (map builder_kind bs) /\ (length bs <= 3)%nat.
Proof.
  intros bs.
  destruct (apply_builders bs (config 10 100)) as [c'|e] eqn:Hrun;
    [|vm_compute in Hrun; discriminate Hrun].
  exists c'. split; [reflexivity|].
  destruct (builders_at_most_once bs _ _ Hrun) as (Hnodup & Hlen & _). auto.
Defined.

Lemma builder_second_call_raises_witness :
  exists c1 c2 msg,
    apply_builder (CallCheckpointing "model" 20 false false) (config 10 100) = Ok c1 /\
    apply_builders [CallProgressPrinting [] 5] c1 = Ok c2 /\
    apply_builder (CallCheckpointing "other" 7 true true) c2 = Err (RuntimeError msg).
Proof.
  destruct (apply_builder (CallCheckpointing "model" 20 false false) (config 10 100))
    as [c1|e] eqn:H1; [|vm_compute in H1; discriminate H1].
  name_value H1.
  match type of H1 with _ = Ok ?c1 =>
    destruct (apply_builders [CallProgressPrinting [] 5] c1) as [c2|e] eqn:H2;
      [|vm_compute in H2; discriminate H2]
  end.
  destruct (builder_second_call_raises _ (CallCheckpointing "other" 7 true true)
              _ _ _ _ H1 H2 eq_refl) as [msg Hmsg].
  eexists _, c2, msg. split; [exact H1|]. split; [exact H2 | exact Hmsg].
Defined.

Lemma new_SessionConfig_Ok_witness :
  let inputs : gmap string string := {[ "x" := "features" ]} in
  exists c : @SessionConfig string string _ _ unit,
    new_SessionConfig header (Some (source 1000)) (fun _ => 10) inputs 100
    = Ok (c, source 1000) /\
    m_checkPointFileName c = "" /\ m_maxNumTrainingSamples c = 100 /\
    with_flag CheckpointAction c = false.
Proof.
  intros inputs.
  assert (inputs <> ∅) as Hinputs by apply map_non_empty_singleton.
  destruct (proj2 (new_SessionConfig_Ok (ProgressWriter := unit) header
                     (Some (source 1000)) (fun _ => 10) inputs 100)
              (source 1000) eq_refl ltac:(discriminate) Hinputs) as [c Hc].
  exists c. split; [exact Hc|].
  destruct (proj1 (new_SessionConfig_Ok header (Some (source 1000)) (fun _ => 10)
                     inputs 100) c _ Hc)
    as (_ & _ & _ & Hflags & Hname & Hmax & _).
  split; [exact Hname|]. split; [exact Hmax | apply Hflags].
Defined.

Lemma builders_commute_witness :
  let b1 : @BuilderCall unit := CallCheckpointing "model" 20 false false in
  let b2 : @BuilderCall unit := CallCrossValidation (fun _ => 10) 20 in
  exists c1 c2 c1',
    builder_kind b1 <> builder_kind b2 /\
    apply_builder b1 (config 10 100) = Ok c1 /\ apply_builder b2 c1 = Ok c2 /\
    apply_builder b2 (config 10 100) = Ok c1' /\ apply_builder b1 c1' = Ok c2.
Proof.
  intros b1 b2.
  assert (builder_kind b1 <> builder_kind b2) as Hkinds by discriminate.
  destruct (apply_builder b1 (config 10 100)) as [c1|e] eqn:H1;
    [|vm_compute in H1; discriminate H1].
  name_value H1.
  match type of H1 with _ = Ok ?c1 =>
    destruct (apply_builder b2 c1) as [c2|e] eqn:H2;
      [|vm_compute in H2; discriminate H2]
  end.
  destruct (builders_commute b1 b2 _ _ _ Hkinds H1 H2) as (c1' & H3 & H4).
  eexists _, c2, c1'. auto.
Defined.

Lemma new_TrainingSession_actions_witness :
  new_TrainingSession (Some (trainer 0)) (m_config checkpoint_session) (source 1000)
    None no_files (subclass None) = Ok checkpoint_session /\
  map action (m_actions checkpoint_session) = [CheckpointAction] /\
  Forall (fun a => frequency a
                   = configured_frequency (action a) (m_config checkpoint_session) /\
                   currentIndex a = 0 /\ sampleCountWhenLastCalled a = 0)
    (m_actions checkpoint_session).
Proof.
  assert (new_TrainingSession (Some (trainer 0)) (m_config checkpoint_session)
            (source 1000) None no_files (subclass None) = Ok checkpoint_session)
    as Hctor by (vm_compute; reflexivity).
  destruct (proj2 (new_TrainingSession_actions _ _ _ _ _ _) _ Hctor)
    as (_ & _ & _ & _ & _ & Hkinds & Hfresh).
  split; [exact Hctor|]. split; [exact Hkinds | exact Hfresh].
Defined.

Lemma new_TrainingSession_learners_witness :
  new_TrainingSession (Some distributed_trainer) (config 10 100) (source 1000)
    None no_files (subclass None) = Ok distributed_session /\
  ParameterLearners distributed_trainer
  = ([LocalLearner] ++ DistributedLearner 50 2 4 :: [])%list /\
  50 <= m_parallelAfterSamples distributed_session /\
  m_workerRank distributed_session = 2 /\ m_numberOfWorkers distributed_session = 4.
Proof.
  assert (new_TrainingSession (Some distributed_trainer) (config 10 100) (source 1000)
            None no_files (subclass None) = Ok distributed_session)
    as Hctor by (vm_compute; reflexivity).
  destruct (new_TrainingSession_learners _ _ _ _ _ _ _ Hctor)
    as (Hmax & _ & _ & Hlast).
  split; [exact Hctor|]. split; [reflexivity|]. split.
  - apply (Hmax 50 2 4). right. left.
  - apply (Hlast [LocalLearner] [] 50 2 4 eq_refl). constructor.
Defined.

Lemma new_TrainingSession_basic_header_witness :
  exists s,
    new_TrainingSession_basic header (Some (source 1000)) (Some (trainer 0))
      ({[ "x" := "features" ]} : gmap string string) (fun _ => 10) 20 "model" None
      (fun _ => 10) 0 false false 100 5 ([] : list unit) no_files (subclass None)
    = Ok s /\
    with_flag CrossValidationAction (m_config s) = true /\
    m_checkpointFrequencyInSamples (m_config s) = 20 /\
    m_progressFrequencyInSamples (m_config s) = 5.
Proof.
  destruct (new_TrainingSession_basic header (Some (source 1000)) (Some (trainer 0))
      ({[ "x" := "features" ]} : gmap string string) (fun _ => 10) 20 "model" None
      (fun _ => 10) 0 false false 100 5 ([] : list unit) no_files (subclass None))
    as [s|e] eqn:Hrun; [|vm_compute in Hrun; discriminate Hrun].
  destruct (proj2 (new_TrainingSession_basic_header header header
                     (Some (source 1000)) (Some (trainer 0))
                     ({[ "x" := "features" ]} : gmap string string) (fun _ => 10) 20
                     "model" None (fun _ => 10) 0 false false 100 5 ([] : list unit)
                     no_files (subclass None)) s Hrun) as (Hflags & Hck & _ & Hpp).
  exists s. split; [reflexivity|]. split; [apply Hflags|]. split; [exact Hck | exact Hpp].
Defined.

Lemma GetNextMinibatch_empty_witness :
  let inputs : gmap string string := {[ "x" := "features"; "y" := "labels" ]} in
  10 <> 0 /\
  (Source_GetNextMinibatch 0 10 1 0 features_only).1 <> ∅ /\
  dom (GetNextMinibatch inputs features_only 10 0 1).1 = dom inputs /\
  GetNextMinibatch inputs features_only 0 0 1 = (∅, features_only).
Proof.
  intros inputs.
  assert ((Source_GetNextMinibatch 0 10 1 0 features_only).1 <> ∅) as Hfetched.
  { intros Habs. apply (f_equal (fun m => m !! "features")) in Habs.
    vm_compute in Habs. discriminate Habs. }
  split; [discriminate|]. split; [exact Hfetched|]. split.
  - destruct (GetNextMinibatch_empty inputs features_only 10 0 1) as (_ & _ & Hdom & _).
    apply Hdom; [discriminate | exact Hfetched].
  - destruct (GetNextMinibatch_empty inputs features_only 0 0 1) as (Hzero & _).
    apply Hzero. reflexivity.
Defined.

Lemma CrossValidate_pass_no_samples_witness :
  (GetCrossValidationMinibatch (m_config empty_validation_session)
     (m_crossValidationSchedule (m_config empty_validation_session) 0) (source 0)).1 = ∅ /\
  exists s',
    CrossValidate_pass 1 (source 0) empty_validation_session
    = Ok ((d_div d_zero (d_of_size_t 0), 0, 0), s').
Proof.
  assert ((GetCrossValidationMinibatch (m_config empty_validation_session)
             (m_crossValidationSchedule (m_config empty_validation_session) 0)
             (source 0)).1 = ∅) as Hempty by (vm_compute; reflexivity).
  split; [exact Hempty|]. eexists.
  exact (CrossValidate_pass_no_samples 0 (source 0) empty_validation_session Hempty).
Defined.


Lemma Train_settings_witness :
  exists log s',
    Train Toy.LONG_MAX 20 0 checkpoint_session = Ok (log, s') /\
    m_config s' = m_config checkpoint_session /\
    iterations log <> [] /\
    Forall (fun it => it_samplesLeft it <= 100) (iterations log).
Proof.
  destruct (Train Toy.LONG_MAX 20 0 checkpoint_session) as [[log s']|e] eqn:Hrun;
    [|vm_compute in Hrun; discriminate Hrun].
  destruct (Train_settings _ _ _ _ _ _ Hrun) as ((Hconfig & _) & Hrounds & Hbudget).
  exists log, s'. split; [reflexivity|]. split; [exact Hconfig|]. split.
  - intros Hnone. apply Hrounds in Hnone. vm_compute in Hnone. discriminate Hnone.
  - exact Hbudget.
Defined.





Lemma toy_trainer_round_trip (path : string) (ext : gmap string N)
    (t t' : Trainer) (fs : FS) :
  exists t2 : Trainer,
    Trainer_RestoreFromCheckpoint path (Trainer_SaveCheckpoint path ext t fs).2 t'
    = Ok (ext, t2) /\
    TotalNumberOfSamplesSeen t2 = TotalNumberOfSamplesSeen t.
Proof.
  cbn. unfold lookup_file. cbn. rewrite String.eqb_refl. cbn. eauto.
Qed.

Lemma toy_fetch_consumes (n w r : N) (src : Source) :
  n <> 0 ->
  (Source_GetNextMinibatch 0 n w r src).1 <> ∅ ->
  (remaining (Source_GetNextMinibatch 0 n w r src).2 < remaining src)%nat.
Proof.
  cbn. unfold next_minibatch, remaining. intros Hn.
  destruct (N.leb_spec (size src) (position src)) as [Hend|Hmore]; cbn.
  - intros Habs. contradiction.
  - intros _. lia.
Qed.


Lemma RestoreFromCheckpoint_outcomes_witness :
  let s := restoring_session exact_files "model" in
  let fs := make_intermediate_dirs (m_checkPointFileName (m_config s)) (files s) in
  let restoreFile :=
    find_restore_file Toy.LONG_MAX (m_checkPointFileName (m_config s)) fs in
  restoreFile <> "" /\
  Trainer_RestoreFromCheckpoint restoreFile fs (m_trainer s)
  = Ok (saved_state 45, {| seen := 45; learners := [LocalLearner]; busy := 0 |}) /\
  saved_state 45 !! "TrainingMinibatchSource" = Some 45 /\
  Forall (fun a => frequency a <> 0) (m_actions s) /\
  exists s',
    RestoreFromCheckpoint Toy.LONG_MAX s = Ok s' /\
    m_trainer s' = {| seen := 45; learners := [LocalLearner]; busy := 0 |}.
Proof.
  intros s fs restoreFile.
  assert (restoreFile <> "") as Hfile by (vm_compute; discriminate).
  assert (Trainer_RestoreFromCheckpoint restoreFile fs (m_trainer s)
          = Ok (saved_state 45, {| seen := 45; learners := [LocalLearner]; busy := 0 |}))
    as Hrestore by (vm_compute; reflexivity).
  assert (saved_state 45 !! "TrainingMinibatchSource" = Some 45) as Hentry
    by (vm_compute; reflexivity).
  assert (Forall (fun a => frequency a <> 0) (m_actions s)) as Hacts.
  { repeat constructor. discriminate. }
  split; [exact Hfile|]. split; [exact Hrestore|]. split; [exact Hentry|].
  split; [exact Hacts|].
  destruct (RestoreFromCheckpoint_outcomes Toy.LONG_MAX s Hfile) as (_ & _ & Hok).
  destruct (Hok _ _ _ Hrestore Hentry Hacts) as (s' & Hrun & Htrainer & _).
  exists s'. split; [exact Hrun | exact Htrainer].
Defined.

Lemma SaveCheckpoint_restore_witness :
  let s := checkpoint_session in
  let s2 := set_mbSource {| streams := ["features"; "labels"]; size := 1000;
                            position := 70 |} (SaveCheckpoint 1 s) in
  files s2 = files (SaveCheckpoint 1 s) /\
  toy_same_source (m_mbSource s) (m_mbSource s2) /\
  exists s3,
    RestoreFromCheckpoint_file (checkpoint_file 1 (m_config s)) s2 = Ok s3 /\
    m_mbSource s3 = m_mbSource s /\
    TotalNumberOfSamplesSeen (m_trainer s3) = TotalNumberOfSamplesSeen (m_trainer s).
Proof.
  intros s s2.
  assert (files s2 = files (SaveCheckpoint 1 s)) as Hfiles by reflexivity.
  assert (toy_same_source (m_mbSource s) (m_mbSource s2)) as Hsource
    by (split; reflexivity).
  split; [exact Hfiles|]. split; [exact Hsource|].
  exact (SaveCheckpoint_restore toy_same_source toy_snapshot_restore
           toy_trainer_round_trip 1 s s2 Hfiles Hsource).
Defined.

Lemma to_wstring_strtol_witness :
  1234567890 < 2 ^ 64 /\
  to_wstring 1234567890 = "1234567890" /\
  isNumber (to_wstring 1234567890) = true /\
  strtol Toy.LONG_MAX (to_wstring 1234567890)
  = (Z.min 1234567890 Toy.LONG_MAX, String.length (to_wstring 1234567890)).
Proof.
  assert (1234567890 < 2 ^ 64) as Hn by reflexivity.
  split; [exact Hn|]. split; [reflexivity|].
  exact (to_wstring_strtol Toy.LONG_MAX 1234567890 Hn).
Defined.

Lemma numbered_checkpoint_is_candidate_witness :
  1 < 2 ^ 31 /\ (2 ^ 31 - 1 <= Toy.LONG_MAX)%Z /\
  fexists ("out" +:+ "/" +:+ ("model" +:+ to_wstring 1) +:+ ".ckp") numbered_files = true /\
  is_candidate numbered_files "out" "model" ("model" +:+ to_wstring 1) = true /\
  candidate_value Toy.LONG_MAX "model" ("model" +:+ to_wstring 1) = 1%Z.
Proof.
  assert (1 < 2 ^ 31) as Hindex by reflexivity.
  assert (2 ^ 31 - 1 <= Toy.LONG_MAX)%Z as Hmax by (vm_compute; discriminate).
  assert (fexists ("out" +:+ "/" +:+ ("model" +:+ to_wstring 1) +:+ ".ckp")
            numbered_files = true) as Hckp by (vm_compute; reflexivity).
  split; [exact Hindex|]. split; [exact Hmax|]. split; [exact Hckp|].
  destruct (numbered_checkpoint_is_candidate Toy.LONG_MAX numbered_files "out" "model" 1
              Hindex Hmax Hckp) as (_ & _ & Hcand & Hvalue).
  split; [exact Hcand | exact Hvalue].
Defined.

Lemma find_restore_file_finds_listed_witness :
  find_last_of separators "model" = None /\
  fexists "model" parent_files = false /\
  ("model" +:+ to_wstring 1) ∈ get_all_files_from_directory ".." parent_files /\
  exists f,
    find_restore_file Toy.LONG_MAX "model" parent_files = ".." +:+ "/" +:+ f /\
    (1 <= candidate_value Toy.LONG_MAX "model" f)%Z.
Proof.
  assert (find_last_of separators "model" = None) as Hsep by reflexivity.
  assert (fexists "model" parent_files = false) as Hnone by (vm_compute; reflexivity).
  assert (1 < 2 ^ 31) as Hindex by reflexivity.
  assert (2 ^ 31 - 1 <= Toy.LONG_MAX)%Z as Hmax by (vm_compute; discriminate).
  assert (("model" +:+ to_wstring 1) ∈ get_all_files_from_directory ".." parent_files)
    as Hlisted.
  { vm_compute. do 2 apply list_elem_of_further. apply list_elem_of_here. }
  assert (fexists (".." +:+ "/" +:+ ("model" +:+ to_wstring 1) +:+ ".ckp") parent_files
          = true) as Hckp by (vm_compute; reflexivity).
  split; [exact Hsep|]. split; [exact Hnone|]. split; [exact Hlisted|].
  destruct (find_restore_file_finds_listed Toy.LONG_MAX "model" 1 parent_files
              Hsep Hnone Hindex Hmax Hlisted Hckp) as (f & Hfile & _ & _ & Hvalue).
  exists f. split; [exact Hfile | exact Hvalue].
Defined.

Lemma split_checkpoint_parts_witness :
  find_last_of separators "out/model" = Some 3%nat /\
  "out/model" = (split_checkpoint "out/model").1 +:+ (split_checkpoint "out/model").2 /\
  String.length (split_checkpoint "out/model").1 = 3%nat.
Proof.
  assert (find_last_of separators "out/model" = Some 3%nat) as Hpos by reflexivity.
  split; [exact Hpos|].
  destruct (proj2 (split_checkpoint_parts "out/model") 3%nat Hpos) as (Hsplit & Hlen & _).
  split; [exact Hsplit | exact Hlen].
Defined.

Lemma find_restore_file_numbered_witness :
  fexists "model" parent_files = false /\
  exists f,
    f ∈ get_all_files_from_directory (split_checkpoint "model").1 parent_files /\
    find_restore_file Toy.LONG_MAX "model" parent_files
    = (split_checkpoint "model").1 +:+ "/" +:+ f /\
    (0 <= candidate_value Toy.LONG_MAX (split_checkpoint "model").2 f)%Z.
Proof.
  assert (fexists "model" parent_files = false) as Hnone by (vm_compute; reflexivity).
  split; [exact Hnone|].
  destruct (find_restore_file_numbered Toy.LONG_MAX "model" parent_files Hnone)
    as [[Hempty _] | (f & Hin & _ & Hvalue & Hfile & _)].
  - vm_compute in Hempty. discriminate Hempty.
  - exists f. split; [exact Hin|]. split; [exact Hfile | exact Hvalue].
Defined.

Lemma find_restore_file_separator_witness :
  find_last_of separators "out/model" = Some 3%nat /\
  fexists "out/model" numbered_files = false /\
  Forall (fun f => find_last_of separators f = None)
    (get_all_files_from_directory (String.substring 0 3 "out/model") numbered_files) /\
  find_restore_file Toy.LONG_MAX "out/model" numbered_files = "".
Proof.
  assert (find_last_of separators "out/model" = Some 3%nat) as Hpos by reflexivity.
  assert (fexists "out/model" numbered_files = false) as Hnone
    by (vm_compute; reflexivity).
  assert (Forall (fun f => find_last_of separators f = None)
            (get_all_files_from_directory (String.substring 0 3 "out/model")
               numbered_files)) as Hnames.
  { vm_compute. repeat constructor. }
  split; [exact Hpos|]. split; [exact Hnone|]. split; [exact Hnames|].
  exact (find_restore_file_separator Toy.LONG_MAX "out/model" 3 numbered_files
           Hpos Hnone Hnames).
Defined.

Lemma CrossValidate_terminates_witness :
  (forall src, m_crossValidationSource validation_session = Some src ->
               (remaining src < 30)%nat) /\
  exists b s1, CrossValidate 30 0 validation_session = Ok (b, s1).
Proof.
  assert (forall src, m_crossValidationSource validation_session = Some src ->
                      (remaining src < 30)%nat) as Hfuel.
  { intros src [= <-]. vm_compute. lia. }
  split; [exact Hfuel|].
  exact (CrossValidate_terminates remaining toy_fetch_consumes 30 0
           validation_session Hfuel).
Defined.

Lemma train_loop_exit_keeps_source_witness :
  exists its s',
    train_loop 5 10 true validation_session = Ok (its, s') /\
    m_mbSource s' = m_mbSource validation_session /\
    Forall (fun it => it_samplesLeft it = 0) its.
Proof.
  destruct (train_loop 5 10 true validation_session) as [[its s']|e] eqn:Hrun;
    [|vm_compute in Hrun; discriminate Hrun].
  destruct (train_loop_exit_keeps_source _ _ _ _ _ Hrun) as [Hsource Hbudgets].
  exists its, s'. auto.
Defined.
